(** * merge_manager: a shallow embedding of the merge engine

    The development follows the layout of the Python package:
    - [strategies]   field strategies        (services/strategies.py)
    - configuration  rules, profiles and the profile registry (config.py)
    - the store      the entity-store handle the service talks to
    - the service    [MergeService]          (services/merge.py)
    followed by the cities of the package's tests as a concrete installation
    and the notions the statements are written in; then
    - the settings proxy                     (settings.py)
    - the loading of the registry            (config.py)
    - helpers of the REST layer              (api.py)
    with the notions and installations their statements need, and the
    properties.

    Python objects are modelled by the data they carry; code that can raise
    returns a [result]; code that mutates threads an explicit state through a
    small state-and-exception monad in which the state survives a raise, as
    Python's heap does.  The store keeps a log of the write operations issued
    against it, so that "no write was issued" can be said of a run. *)

From stdpp Require Import gmap strings list fin_maps pretty.

Local Open Scope string_scope.
Local Open Scope Z_scope.
Local Open Scope list_scope.

(** ** Python values

    Field values, override values and context entries are the scalars the
    engine serialises unchanged ([None], [bool], [int], [str]); [VObj] stands
    for any other hashable object (a date, a UUID, ...), known by the text
    [str()] gives for it and equal only to an object with the same text.
    Floats are left out, and so are unhashable values (lists, dicts), which
    a set membership test does not accept. *)

Inductive value : Type :=
  | VNone
  | VBool (b : bool)
  | VInt (n : Z)
  | VStr (s : string)
  | VObj (text : string).

#[global] Instance value_eq_dec : EqDecision value.
Proof. solve_decision. Defined.

Definition bool_as_int (b : bool) : Z := if b then 1 else 0.

(** Python's [==] on these values ([bool] is a subclass of [int]). *)
Definition py_eq (a b : value) : bool :=
  match a, b with
  | VNone, VNone => true
  | VBool x, VBool y => Bool.eqb x y
  | VBool x, VInt n => bool_as_int x =? n
  | VInt n, VBool x => n =? bool_as_int x
  | VInt n, VInt m => n =? m
  | VStr s, VStr t => bool_decide (s = t)
  | VObj s, VObj t => bool_decide (s = t)
  | _, _ => false
  end.

(** Python's [str(v)], which is also what an f-string field produces. *)
Definition py_str (v : value) : string :=
  match v with
  | VNone => "None"
  | VBool true => "True"
  | VBool false => "False"
  | VInt n => pretty n
  | VStr s => s
  | VObj s => s
  end.

(** ** Exceptions and results *)

Inductive exn : Type :=
  | ProfileNotFoundError (msg : string)
  | InvalidProfileError (msg : string)
  | StrategyNotFoundError (msg : string)
  | MergeValidationError (msg : string)
  | ImportError (msg : string)
  | LookupError (msg : string)
  | AttributeError (msg : string)
  | ValueError (msg : string)
  | DatabaseError (msg : string)
  | OtherError (cls msg : string).

#[global] Instance exn_eq_dec : EqDecision exn.
Proof. solve_decision. Defined.

(** [str(exc)] *)
Definition exn_str (e : exn) : string :=
  match e with
  | ProfileNotFoundError m | InvalidProfileError m | StrategyNotFoundError m
  | MergeValidationError m | ImportError m | LookupError m | AttributeError m
  | ValueError m | DatabaseError m | OtherError _ m => m
  end.

Inductive result (A : Type) : Type :=
  | Ok (a : A)
  | Raise (e : exn).
Arguments Ok {A} a.
Arguments Raise {A} e.

(** ** Insertion-ordered dictionaries

    A Python [dict] keeps its keys unique and in insertion order; the result
    sections of a merge are such dictionaries. *)

Abbreviation pydict V := (list (string * V)).

Fixpoint dict_get {V} (k : string) (d : pydict V) : option V :=
  match d with
  | [] => None
  | (k', v) :: d' => if decide (k = k') then Some v else dict_get k d'
  end.

(** [d[k] = v] *)
Fixpoint dict_set {V} (k : string) (v : V) (d : pydict V) : pydict V :=
  match d with
  | [] => [(k, v)]
  | (k', v') :: d' =>
      if decide (k = k') then (k, v) :: d' else (k', v') :: dict_set k v d'
  end.

(** [d.update(u)] *)
Definition dict_update {V} (d u : pydict V) : pydict V :=
  foldl (fun acc kv => dict_set kv.1 kv.2 acc) d u.

Definition dict_keys {V} (d : pydict V) : list string := d.*1.

(** ** Strategy contexts

    A context maps names to values.  The engine also stores references to
    its own objects in it (the profile, the rule, the rule's metadata); these
    are represented by their keys. *)

Inductive ctx_value : Type :=
  | CVal (v : value)
  | CProfile (label : string)
  | CRule (field : string)
  | CDict (d : gmap string value).

Abbreviation Context := (gmap string ctx_value).

(** Text of a context entry inside an f-string; exact for plain values. *)
Definition ctx_str (c : ctx_value) : string :=
  match c with
  | CVal v => py_str v
  | CProfile l => "MergeProfile(" +:+ l +:+ ")"
  | CRule f => "FieldMergeRule(" +:+ f +:+ ")"
  | CDict _ => "{...}"
  end.

(** ** services/strategies.py *)

Module strategies.

(** [value in {None, ''}] *)
Definition _is_empty (v : value) : bool :=
  existsb (py_eq v) [VNone; VStr ""].

Definition prefer_target (target_value donor_value : value) (context : Context)
  : result value :=
  if _is_empty target_value then Ok donor_value else Ok target_value.

Definition prefer_donor (target_value donor_value : value) (context : Context)
  : result value :=
  Ok donor_value.

Definition prefer_non_null (target_value donor_value : value) (context : Context)
  : result value :=
  if negb (_is_empty target_value) then Ok target_value else Ok donor_value.

Definition concat (target_value donor_value : value) (context : Context)
  : result value :=
  if _is_empty target_value then Ok donor_value
  else if _is_empty donor_value then Ok target_value
  else
    let separator := default (CVal (VStr " ")) (context !! "separator") in
    Ok (VStr (py_str target_value +:+ ctx_str separator +:+ py_str donor_value)).

End strategies.

(** ** Result sections *)

Record ChangeEntry : Type := {
  ch_from : value;
  ch_to : value;
  ch_source : string;
  ch_donor : value;
}.

Record RelationInfo : Type := {
  ri_type : string;
  ri_count : nat;
  ri_related_model : string;
}.

#[global] Instance ChangeEntry_eq_dec : EqDecision ChangeEntry.
Proof. solve_decision. Defined.

#[global] Instance RelationInfo_eq_dec : EqDecision RelationInfo.
Proof. solve_decision. Defined.

(** ** Model classes and their relation graph ([_meta])

    A model class is known by its label.  [Relation] carries the attributes
    of a field object that [_transfer_relations] inspects. *)

Abbreviation ModelClass := string.

Record M2MField : Type := {
  m2m_name : string;            (* field.name *)
  m2m_through : string;         (* field.remote_field.through *)
  m2m_related_label : string;   (* field.remote_field.model._meta.label *)
}.

Record Relation : Type := {
  rel_auto_created : bool;
  rel_concrete : bool;
  rel_many_to_many : bool;
  rel_one_to_many : bool;
  rel_has_field : bool;         (* hasattr(relation, 'field') *)
  rel_through : string;         (* relation.through *)
  rel_accessor : string;        (* relation.get_accessor_name() *)
  rel_related_label : string;   (* relation.related_model._meta.label *)
  rel_field_name : string;      (* relation.field.name *)
}.

Record Options : Type := {
  many_to_many : list M2MField;
  get_fields : list Relation;
}.

(** ** Model instances (the Python objects [target] and [donor])

    [inst_attrs] are the field attributes held in memory, which may differ
    from the stored record until [save] is called. *)

Record Instance : Type := {
  inst_class : ModelClass;          (* type(x) *)
  inst_bases : list ModelClass;     (* its proper base classes *)
  inst_meta : Options;              (* x._meta *)
  inst_pk : option Z;               (* x.pk *)
  inst_attrs : gmap string value;
}.

Definition isinstance (x : Instance) (cls : ModelClass) : bool :=
  bool_decide (cls = inst_class x) || bool_decide (cls ∈ inst_bases x).

Definition getattr (x : Instance) (name : string) : result value :=
  match inst_attrs x !! name with
  | Some v => Ok v
  | None => Raise (AttributeError name)
  end.

Definition hasattr (x : Instance) (name : string) : bool :=
  bool_decide (is_Some (inst_attrs x !! name)).

Definition setattr (x : Instance) (name : string) (v : value) : Instance :=
  {| inst_class := inst_class x; inst_bases := inst_bases x;
     inst_meta := inst_meta x; inst_pk := inst_pk x;
     inst_attrs := <[name := v]> (inst_attrs x) |}.

Definition clear_pk (x : Instance) : Instance :=
  {| inst_class := inst_class x; inst_bases := inst_bases x;
     inst_meta := inst_meta x; inst_pk := None;
     inst_attrs := inst_attrs x |}.

(** [str(getattr(x, 'pk', ...))] *)
Definition pk_str (pk : option Z) : string :=
  match pk with
  | Some n => pretty n
  | None => "None"
  end.

(** ** The store

    Entity records hold field values; many-to-many links live in join tables
    as (source pk, related pk) rows; a foreign reference of a child table is
    a (child pk, referenced pk) row under (child model, column).  Join tables
    and reference columns are kept apart: a join table is not at the same
    time a child table of the merged model. *)

Record DB : Type := {
  db_rows : gmap (string * Z) (gmap string value);
  db_links : gmap string (list (Z * Z));
  db_refs : gmap (string * string) (list (Z * Z));
}.

(** Write operations issued against the store, in call order. *)
Inductive event : Type :=
  | EvAtomicEnter
  | EvAtomicCommit
  | EvAtomicRollback
  | EvSave (cls : ModelClass) (pk : Z) (update_fields : list string)
  | EvM2MAdd (through : string) (reverse : bool) (owner : Z) (pks : list Z)
  | EvM2MRemove (through : string) (reverse : bool) (owner : Z) (pks : list Z)
  | EvBulkUpdate (child : string) (column : string) (old_pk new_pk : Z)
  | EvDelete (cls : ModelClass) (pk : Z)
  | EvAuditCreate.

#[global] Instance event_eq_dec : EqDecision event.
Proof. solve_decision. Defined.

Definition links_of (db : DB) (through : string) : list (Z * Z) :=
  default [] (db_links db !! through).

Definition refs_of (db : DB) (child column : string) : list (Z * Z) :=
  default [] (db_refs db !! (child, column)).

(** The end of a link that belongs to the instance a manager is bound to, and
    the other end: a forward manager stands on the source side of the join
    table, a reverse manager on the related side. *)
Definition link_owner (reverse : bool) (l : Z * Z) : Z :=
  if reverse then l.2 else l.1.

Definition link_other (reverse : bool) (l : Z * Z) : Z :=
  if reverse then l.1 else l.2.

Definition mk_link (reverse : bool) (owner other : Z) : Z * Z :=
  if reverse then (other, owner) else (owner, other).

(** [manager.values_list('pk', flat=True)] *)
Definition related_pks (reverse : bool) (owner : Z) (ls : list (Z * Z)) : list Z :=
  link_other reverse <$> filter (fun l => link_owner reverse l = owner) ls.

(** [manager.add] of the given pks: links that already exist are not added again. *)
Definition m2m_add (reverse : bool) (owner : Z) (pks : list Z) (ls : list (Z * Z))
  : list (Z * Z) :=
  foldl (fun acc pk =>
           if decide (mk_link reverse owner pk ∈ acc) then acc
           else acc ++ [mk_link reverse owner pk]) ls pks.

(** [manager.remove] of the given pks *)
Definition m2m_remove (reverse : bool) (owner : Z) (pks : list Z) (ls : list (Z * Z))
  : list (Z * Z) :=
  filter (fun l => ¬ (link_owner reverse l = owner ∧ link_other reverse l ∈ pks)) ls.

(** [queryset.count()] of the rows referring to [owner] *)
Definition refs_count (owner : Z) (rs : list (Z * Z)) : nat :=
  length (filter (fun r => r.2 = owner) rs).

(** [queryset.update(column=new_owner)] *)
Definition refs_update (owner new_owner : Z) (rs : list (Z * Z)) : list (Z * Z) :=
  (fun r => if decide (r.2 = owner) then (r.1, new_owner) else r) <$> rs.

Definition set_links (db : DB) (through : string) (ls : list (Z * Z)) : DB :=
  {| db_rows := db_rows db;
     db_links := <[through := ls]> (db_links db);
     db_refs := db_refs db |}.

Definition set_refs (db : DB) (child column : string) (rs : list (Z * Z)) : DB :=
  {| db_rows := db_rows db;
     db_links := db_links db;
     db_refs := <[(child, column) := rs]> (db_refs db) |}.

Definition set_rows (db : DB) (rows : gmap (string * Z) (gmap string value)) : DB :=
  {| db_rows := rows; db_links := db_links db; db_refs := db_refs db |}.

(** The record after a partial-field save: the listed columns take the
    in-memory attribute values, every other column keeps its stored value. *)
Definition write_fields (attrs : gmap string value) (update_fields : list string)
    (row : gmap string value) : gmap string value :=
  foldl (fun r f => match attrs !! f with
                    | Some v => <[f := v]> r
                    | None => r
                    end) row update_fields.

(** ** MergeResult and the audit record *)

Definition STATUS_COMPLETED : string := "completed".
Definition STATUS_FAILED : string := "failed".
Definition STATUS_DRY_RUN : string := "dry_run".

Record Summary : Type := {
  sum_fields : pydict ChangeEntry;
  sum_relations : pydict RelationInfo;
  sum_soft_delete : pydict value;
  sum_hard_delete : pydict value;
  sum_extra : option (pydict value);
}.

Record AuditRecord : Type := {
  au_profile : string;
  au_target_content_type : ModelClass;
  au_target_object_id : string;
  au_donor_content_type : ModelClass;
  au_donor_object_id : string;
  au_status : string;
  au_dry_run : bool;
  au_summary : Summary;
  au_message : string;
  au_initiator : option value;
}.

(** The [target] and [donor] attributes of a result are the two instances of
    the state the merge runs in; [res_profile] is the profile's label. *)
Record MergeResult : Type := {
  res_profile : string;
  res_dry_run : bool;
  res_changed_fields : pydict ChangeEntry;
  res_relations : pydict RelationInfo;
  res_soft_delete : pydict value;
  res_hard_delete : pydict value;
  res_status : string;
  res_error : option string;
  res_audit_record : option AuditRecord;
}.

(** ** config.py *)

Definition FieldStrategyCallable : Type := value -> value -> Context -> result value.

Inductive StrategyRef : Type :=
  | StrategyName (name : string)
  | StrategyCallable (f : FieldStrategyCallable)
  | StrategyOther.

Record FieldMergeRule : Type := {
  strategy : StrategyRef;
  allow_override : bool;
  description : option string;
  metadata : gmap string value;
}.

(** Hooks are caller code.  The executor sees of a hook call only whether it
    returns or raises, so a hook is a function of what it is given (and of
    the store it can read) to an optional exception. *)
Definition PreMergeHook : Type :=
  Instance -> Instance -> Context -> DB -> option exn.

Definition PostMergeHook : Type :=
  Instance -> Instance -> MergeResult -> Context -> DB -> option exn.

Inductive ModelRef : Type :=
  | ModelName (name : string)
  | ModelCls (cls : ModelClass).

Record MergeProfile : Type := {
  label : string;
  model : ModelRef;
  fields : pydict FieldMergeRule;
  display_fields : list string;
  soft_delete_field : option string;
  soft_delete_value : value;
  hard_delete : bool;
  pre_merge_hooks : list PreMergeHook;
  post_merge_hooks : list PostMergeHook;
  form_class : option string;
}.

(** The audit model is the sink of §4.4: [am_create] is [objects.create],
    which either stores the record or raises. *)
Record AuditModel : Type := {
  am_has_initiator : bool;          (* hasattr(audit_model, 'initiator') *)
  am_field_names : list string;     (* names of audit_model._meta.fields *)
  am_create : AuditRecord -> option exn;
}.

(** settings.py: the values of [merge_manager_settings] the engine reads. *)
Record Settings : Type := {
  FIELD_STRATEGIES : gmap string FieldStrategyCallable;
  SOFT_DELETE_FIELD : option string;
  SOFT_DELETE_VALUE : value;
  DRY_RUN_DEFAULT : bool;
  AUDIT_MODEL : option AuditModel;
}.

(** What the engine uses of Django itself. *)
Record Django : Type := {
  apps_get_model : string -> result ModelClass;
  import_string : string -> result FieldStrategyCallable;
}.

Section Config.

Variable django : Django.
Variable merge_manager_settings : Settings.

Definition get_callable (self : FieldMergeRule) : result FieldStrategyCallable :=
  match strategy self with
  | StrategyCallable f => Ok f
  | StrategyName name =>
      match FIELD_STRATEGIES merge_manager_settings !! name with
      | Some f => Ok f
      | None => import_string django name
      end
  | StrategyOther =>
      Raise (StrategyNotFoundError "Unable to resolve field merge strategy")
  end.

Definition get_model_class (self : MergeProfile) : result ModelClass :=
  match model self with
  | ModelName name => apps_get_model django name
  | ModelCls cls => Ok cls
  end.

Definition get_soft_delete_field (self : MergeProfile) : option string :=
  match soft_delete_field self with
  | Some f => Some f
  | None => SOFT_DELETE_FIELD merge_manager_settings
  end.

Definition get_soft_delete_value (self : MergeProfile) : value :=
  match soft_delete_value self with
  | VNone => SOFT_DELETE_VALUE merge_manager_settings
  | v => v
  end.

(** *** MergeProfileRegistry *)

Record MergeProfileRegistry : Type := {
  _profiles : gmap string MergeProfile;
  _model_index : gmap ModelClass MergeProfile;
}.

Definition registry_init : MergeProfileRegistry :=
  {| _profiles := ∅; _model_index := ∅ |}.

(** [register] returns the registry it leaves behind together with what the
    call returns or raises. *)
Definition register (profile : MergeProfile) (self : MergeProfileRegistry)
  : MergeProfileRegistry * result MergeProfile :=
  if bool_decide (label profile = "") then
    (self, Raise (InvalidProfileError "Merge profile must define a label"))
  else
    match get_model_class profile with
    | Raise e => (self, Raise e)
    | Ok model_cls =>
        ({| _profiles := <[label profile := profile]> (_profiles self);
            _model_index := <[model_cls := profile]> (_model_index self) |},
         Ok profile)
    end.

Definition unregister (lbl : string) (self : MergeProfileRegistry)
  : MergeProfileRegistry * result unit :=
  match _profiles self !! lbl with
  | None => (self, Ok tt)
  | Some profile =>
      let popped := {| _profiles := delete lbl (_profiles self);
                       _model_index := _model_index self |} in
      match get_model_class profile with
      | Raise e => (popped, Raise e)
      | Ok model_cls =>
          ({| _profiles := _profiles popped;
              _model_index := delete model_cls (_model_index popped) |},
           Ok tt)
      end
  end.

Definition registry_get (lbl : string) (self : MergeProfileRegistry)
  : result MergeProfile :=
  match _profiles self !! lbl with
  | Some p => Ok p
  | None =>
      Raise (ProfileNotFoundError ("Merge profile '" +:+ lbl +:+ "' is not registered"))
  end.

Definition get_for_model (cls : ModelClass) (self : MergeProfileRegistry)
  : result MergeProfile :=
  match _model_index self !! cls with
  | Some p => Ok p
  | None =>
      Raise (ProfileNotFoundError ("No merge profile registered for model " +:+ cls))
  end.

Definition registry_all (self : MergeProfileRegistry) : list MergeProfile :=
  (map_to_list (_profiles self)).*2.

Definition registry_clear (self : MergeProfileRegistry) : MergeProfileRegistry :=
  registry_init.

End Config.

(** ** The state a merge runs in, and its monad

    A [World] is what a call to [merge] can read or change: the two Python
    objects (two distinct objects: the calling layer refuses to merge a
    record with itself), the store, the audit table, and the log of write
    operations.
    A computation maps a state to the state it leaves and what it returns or
    raises; the state is kept when it raises. *)

Record World : Type := {
  w_target : Instance;
  w_donor : Instance;
  w_db : DB;
  w_audit : list AuditRecord;
  w_log : list event;
}.

Record ExecState : Type := {
  es_world : World;
  es_result : MergeResult;
}.

Definition M (S A : Type) : Type := S -> S * result A.

Definition ret {S A} (a : A) : M S A := fun s => (s, Ok a).

Definition raise {S A} (e : exn) : M S A := fun s => (s, Raise e).

Definition bind {S A B} (c : M S A) (k : A -> M S B) : M S B :=
  fun s => match c s with
           | (s', Ok a) => k a s'
           | (s', Raise e) => (s', Raise e)
           end.

Definition gets {S A} (f : S -> A) : M S A := fun s => (s, Ok (f s)).

Definition modify {S} (f : S -> S) : M S unit := fun s => (f s, Ok tt).

Definition lift_result {S A} (r : result A) : M S A := fun s => (s, r).

Notation "'let!' x ':=' c 'in' k" := (bind c (fun x => k))
  (at level 10, x pattern, c at level 100, k at level 200).

(** Run a computation on the world inside an execution state. *)
Definition in_world {A} (c : M World A) : M ExecState A :=
  fun s => match c (es_world s) with
           | (w', r) => ({| es_world := w'; es_result := es_result s |}, r)
           end.

Definition set_target (x : Instance) (w : World) : World :=
  {| w_target := x; w_donor := w_donor w; w_db := w_db w;
     w_audit := w_audit w; w_log := w_log w |}.

Definition set_donor (x : Instance) (w : World) : World :=
  {| w_target := w_target w; w_donor := x; w_db := w_db w;
     w_audit := w_audit w; w_log := w_log w |}.

Definition set_db (db : DB) (w : World) : World :=
  {| w_target := w_target w; w_donor := w_donor w; w_db := db;
     w_audit := w_audit w; w_log := w_log w |}.

Definition add_audit (a : AuditRecord) (w : World) : World :=
  {| w_target := w_target w; w_donor := w_donor w; w_db := w_db w;
     w_audit := w_audit w ++ [a]; w_log := w_log w |}.

Definition log_events (evs : list event) (w : World) : World :=
  {| w_target := w_target w; w_donor := w_donor w; w_db := w_db w;
     w_audit := w_audit w; w_log := w_log w ++ evs |}.

(** *** Store operations on the world *)

(** Binding a related manager needs the instance to have a primary key. *)
Definition manager_pk (x : Instance) : result Z :=
  match inst_pk x with
  | Some pk => Ok pk
  | None => Raise (ValueError "instance needs a primary key value before this relationship can be used")
  end.

(** [x.save(update_fields=...)] *)
Definition save (x : Instance) (update_fields : list string) : M World unit :=
  match inst_pk x with
  | None => raise (ValueError "Cannot force an update in save() with no primary key.")
  | Some pk =>
      let! _ := modify (log_events [EvSave (inst_class x) pk update_fields]) in
      let! db := gets w_db in
      match db_rows db !! (inst_class x, pk) with
      | None => raise (DatabaseError "Save with update_fields did not affect any rows.")
      | Some row =>
          modify (set_db (set_rows db
            (<[(inst_class x, pk) := write_fields (inst_attrs x) update_fields row]>
               (db_rows db))))
      end
  end.

(** [target_manager.add(...)] followed by [donor_manager.remove(...)] *)
Definition m2m_move (through : string) (reverse : bool) (target_pk donor_pk : Z)
    (pks : list Z) : M World unit :=
  let! _ := modify (fun w =>
    log_events [EvM2MAdd through reverse target_pk pks]
      (set_db (set_links (w_db w) through
                 (m2m_add reverse target_pk pks (links_of (w_db w) through))) w)) in
  modify (fun w =>
    log_events [EvM2MRemove through reverse donor_pk pks]
      (set_db (set_links (w_db w) through
                 (m2m_remove reverse donor_pk pks (links_of (w_db w) through))) w)).

(** [queryset.update(column=target)] on the rows referring to the donor *)
Definition bulk_update (child column : string) (donor_pk : Z) (target : Instance)
  : M World unit :=
  match inst_pk target with
  | None => raise (ValueError "Unsaved model instance cannot be used in an ORM query.")
  | Some target_pk =>
      modify (fun w =>
        log_events [EvBulkUpdate child column donor_pk target_pk]
          (set_db (set_refs (w_db w) child column
                     (refs_update donor_pk target_pk (refs_of (w_db w) child column))) w))
  end.

(** [donor.delete()]: the record is removed and the object loses its key. *)
Definition delete_donor : M World unit :=
  let! donor := gets w_donor in
  match inst_pk donor with
  | None => raise (ValueError "object cannot be deleted because its pk attribute is set to None.")
  | Some pk =>
      modify (fun w =>
        log_events [EvDelete (inst_class donor) pk]
          (set_donor (clear_pk donor)
             (set_db (set_rows (w_db w) (delete (inst_class donor, pk) (db_rows (w_db w)))) w)))
  end.

(** [with transaction.atomic(): body]: a raise inside restores the store as
    it was on entry; the Python objects keep what was assigned to them. *)
Definition atomic {A} (body : M ExecState A) : M ExecState A :=
  fun s =>
    let enter := {| es_world := log_events [EvAtomicEnter] (es_world s);
                    es_result := es_result s |} in
    match body enter with
    | (s', Ok a) =>
        ({| es_world := log_events [EvAtomicCommit] (es_world s');
            es_result := es_result s' |}, Ok a)
    | (s', Raise e) =>
        ({| es_world := log_events [EvAtomicRollback]
                          (set_db (w_db (es_world s)) (es_world s'));
            es_result := es_result s' |}, Raise e)
    end.

(** ** services/merge.py *)

Definition _serialize_value (v : value) : value :=
  match v with
  | VObj text => VStr text
  | _ => v
  end.

Inductive Outcome : Type :=
  | Returned (r : MergeResult)
  | Raised (e : exn) (partial : option MergeResult).

Definition set_changed_fields (d : pydict ChangeEntry) (r : MergeResult) : MergeResult :=
  {| res_profile := res_profile r; res_dry_run := res_dry_run r;
     res_changed_fields := d; res_relations := res_relations r;
     res_soft_delete := res_soft_delete r; res_hard_delete := res_hard_delete r;
     res_status := res_status r; res_error := res_error r;
     res_audit_record := res_audit_record r |}.

Definition set_relations (d : pydict RelationInfo) (r : MergeResult) : MergeResult :=
  {| res_profile := res_profile r; res_dry_run := res_dry_run r;
     res_changed_fields := res_changed_fields r; res_relations := d;
     res_soft_delete := res_soft_delete r; res_hard_delete := res_hard_delete r;
     res_status := res_status r; res_error := res_error r;
     res_audit_record := res_audit_record r |}.

Definition set_soft_delete (d : pydict value) (r : MergeResult) : MergeResult :=
  {| res_profile := res_profile r; res_dry_run := res_dry_run r;
     res_changed_fields := res_changed_fields r; res_relations := res_relations r;
     res_soft_delete := d; res_hard_delete := res_hard_delete r;
     res_status := res_status r; res_error := res_error r;
     res_audit_record := res_audit_record r |}.

Definition set_hard_delete (d : pydict value) (r : MergeResult) : MergeResult :=
  {| res_profile := res_profile r; res_dry_run := res_dry_run r;
     res_changed_fields := res_changed_fields r; res_relations := res_relations r;
     res_soft_delete := res_soft_delete r; res_hard_delete := d;
     res_status := res_status r; res_error := res_error r;
     res_audit_record := res_audit_record r |}.

Definition set_status (st : string) (err : option string) (r : MergeResult) : MergeResult :=
  {| res_profile := res_profile r; res_dry_run := res_dry_run r;
     res_changed_fields := res_changed_fields r; res_relations := res_relations r;
     res_soft_delete := res_soft_delete r; res_hard_delete := res_hard_delete r;
     res_status := st; res_error := err;
     res_audit_record := res_audit_record r |}.

Definition set_audit_record (a : AuditRecord) (r : MergeResult) : MergeResult :=
  {| res_profile := res_profile r; res_dry_run := res_dry_run r;
     res_changed_fields := res_changed_fields r; res_relations := res_relations r;
     res_soft_delete := res_soft_delete r; res_hard_delete := res_hard_delete r;
     res_status := res_status r; res_error := res_error r;
     res_audit_record := Some a |}.

Definition update_result (f : MergeResult -> MergeResult) : M ExecState unit :=
  modify (fun s => {| es_world := es_world s; es_result := f (es_result s) |}).

Section Service.

Variable django : Django.
Variable merge_manager_settings : Settings.

(** [MergeService.__init__]: a profile, or the label of a registered one. *)
Definition MergeService_init (registry : MergeProfileRegistry)
    (profile : MergeProfile + string) : result MergeProfile :=
  match profile with
  | inl p => Ok p
  | inr lbl => registry_get lbl registry
  end.

Variable self : MergeProfile.

Definition _validate_instances (target donor : Instance) : result unit :=
  match get_model_class django self with
  | Raise e => Raise e
  | Ok model_class =>
      if negb (isinstance target model_class) then
        Raise (MergeValidationError
                 ("Target instance must be " +:+ model_class +:+ ", got " +:+ inst_class target))
      else if negb (isinstance donor model_class) then
        Raise (MergeValidationError
                 ("Donor instance must be " +:+ model_class +:+ ", got " +:+ inst_class donor))
      else Ok tt
  end.

(** [strategy_context.setdefault(meta_key, meta_value)] *)
Definition setdefault (k : string) (v : ctx_value) (c : Context) : Context :=
  match c !! k with
  | Some _ => c
  | None => <[k := v]> c
  end.

Definition strategy_context_for (field_name : string) (rule : FieldMergeRule)
    (context : Context) : Context :=
  let c := <["rule" := CRule field_name]>
             (<["field" := CVal (VStr field_name)]> context) in
  if bool_decide (metadata rule = ∅) then c
  else map_fold (fun k v acc => setdefault k (CVal v) acc)
         (<["metadata" := CDict (metadata rule)]> c) (metadata rule).

(** The body of the override/strategy choice: the new value and its source. *)
Definition resolve_new_value (field_name : string) (rule : FieldMergeRule)
    (target_value donor_value : value) (overrides : gmap string value)
    (context : Context) : result (value * string) :=
  match overrides !! field_name with
  | Some override_value => Ok (override_value, "override")
  | None =>
      match get_callable django merge_manager_settings rule with
      | Raise e => Raise e
      | Ok strategy_callable =>
          match strategy_callable target_value donor_value
                  (strategy_context_for field_name rule context) with
          | Raise e => Raise e
          | Ok new_value => Ok (new_value, "strategy")
          end
      end
  end.

(** The [for field_name, rule in self.profile.fields.items()] loop. *)
Fixpoint field_loop (items : pydict FieldMergeRule) (overrides : gmap string value)
    (dry_run : bool) (context : Context)
    (changes : pydict ChangeEntry) (update_fields : list string)
  : M World (pydict ChangeEntry * list string) :=
  match items with
  | [] => ret (changes, update_fields)
  | (field_name, rule) :: rest =>
      let! target := gets w_target in
      let! donor := gets w_donor in
      let! target_value := lift_result (getattr target field_name) in
      let! donor_value := lift_result (getattr donor field_name) in
      let! chosen := lift_result
        (resolve_new_value field_name rule target_value donor_value overrides context) in
      let new_value := chosen.1 in
      let source := chosen.2 in
      if negb (py_eq new_value target_value) then
        let changes' := dict_set field_name
          {| ch_from := _serialize_value target_value;
             ch_to := _serialize_value new_value;
             ch_source := source;
             ch_donor := _serialize_value donor_value |} changes in
        if negb dry_run then
          let! _ := modify (set_target (setattr target field_name new_value)) in
          field_loop rest overrides dry_run context changes' (update_fields ++ [field_name])
        else
          field_loop rest overrides dry_run context changes' update_fields
      else
        field_loop rest overrides dry_run context changes update_fields
  end.

Definition _apply_field_updates (overrides : gmap string value) (dry_run : bool)
    (context : Context) : M World (pydict ChangeEntry) :=
  let! looped := field_loop (fields self) overrides dry_run context [] [] in
  let changes := looped.1 in
  let update_fields := looped.2 in
  if negb dry_run && negb (bool_decide (update_fields = [])) then
    let! target := gets w_target in
    let! _ := save target update_fields in
    ret changes
  else ret changes.

(** One many-to-many relation: record its count, move the links unless this
    is a dry run.  [reverse] tells on which side of the join table the two
    instances stand. *)
Definition transfer_m2m (name type_ related_label through : string) (reverse : bool)
    (dry_run : bool) (relations_info : pydict RelationInfo)
  : M World (pydict RelationInfo) :=
  let! donor := gets w_donor in
  let! target := gets w_target in
  let! donor_pk := lift_result (manager_pk donor) in
  let! target_pk := lift_result (manager_pk target) in
  let! db := gets w_db in
  let related_pks := related_pks reverse donor_pk (links_of db through) in
  let relations_info' := dict_set name
    {| ri_type := type_; ri_count := length related_pks;
       ri_related_model := related_label |} relations_info in
  if negb dry_run && negb (bool_decide (related_pks = [])) then
    let! _ := m2m_move through reverse target_pk donor_pk related_pks in
    ret relations_info'
  else ret relations_info'.

(** The [for field in donor._meta.many_to_many] loop. *)
Fixpoint forward_loop (m2m_fields : list M2MField) (dry_run : bool)
    (relations_info : pydict RelationInfo) (processed_through : gset string)
  : M World (pydict RelationInfo * gset string) :=
  match m2m_fields with
  | [] => ret (relations_info, processed_through)
  | field :: rest =>
      let! relations_info' :=
        transfer_m2m (m2m_name field) "many_to_many" (m2m_related_label field)
          (m2m_through field) false dry_run relations_info in
      forward_loop rest dry_run relations_info' ({[m2m_through field]} ∪ processed_through)
  end.

(** One reverse one-to-many relation. *)
Definition transfer_one_to_many (relation : Relation) (dry_run : bool)
    (relations_info : pydict RelationInfo) : M World (pydict RelationInfo) :=
  let accessor := rel_accessor relation in
  let! donor := gets w_donor in
  let! donor_pk := lift_result (manager_pk donor) in
  let! db := gets w_db in
  let count := refs_count donor_pk
                 (refs_of db (rel_related_label relation) (rel_field_name relation)) in
  let relations_info' := dict_set accessor
    {| ri_type := "one_to_many"; ri_count := count;
       ri_related_model := rel_related_label relation |} relations_info in
  if negb dry_run && negb (bool_decide (count = 0%nat)) then
    let! target := gets w_target in
    let! _ := bulk_update (rel_related_label relation) (rel_field_name relation)
                donor_pk target in
    ret relations_info'
  else ret relations_info'.

(** The [for relation in donor._meta.get_fields()] loop. *)
Fixpoint reverse_loop (relations : list Relation) (dry_run : bool)
    (relations_info : pydict RelationInfo) (processed_through : gset string)
  : M World (pydict RelationInfo) :=
  match relations with
  | [] => ret relations_info
  | relation :: rest =>
      if negb (rel_auto_created relation) || rel_concrete relation then
        reverse_loop rest dry_run relations_info processed_through
      else if rel_many_to_many relation then
        let through := rel_through relation in
        if bool_decide (through ∈ processed_through) then
          reverse_loop rest dry_run relations_info processed_through
        else
          let! relations_info' :=
            transfer_m2m (rel_accessor relation) "many_to_many_reverse"
              (rel_related_label relation) through true dry_run relations_info in
          reverse_loop rest dry_run relations_info' ({[through]} ∪ processed_through)
      else if rel_one_to_many relation && rel_has_field relation then
        let! relations_info' := transfer_one_to_many relation dry_run relations_info in
        reverse_loop rest dry_run relations_info' processed_through
      else
        reverse_loop rest dry_run relations_info processed_through
  end.

(** The two loops over a relation graph. *)
Definition transfer_by_meta (meta : Options) (dry_run : bool)
  : M World (pydict RelationInfo) :=
  let! forward := forward_loop (many_to_many meta) dry_run [] ∅ in
  reverse_loop (get_fields meta) dry_run forward.1 forward.2.

Definition _transfer_relations (dry_run : bool) : M World (pydict RelationInfo) :=
  let! donor := gets w_donor in
  transfer_by_meta (inst_meta donor) dry_run.

Definition _apply_soft_delete (dry_run : bool) : M World (pydict value) :=
  match get_soft_delete_field merge_manager_settings self with
  | None => ret [("applied", VBool false); ("reason", VStr "soft_delete_disabled")]
  | Some field_name =>
      if bool_decide (field_name = "") then
        ret [("applied", VBool false); ("reason", VStr "soft_delete_disabled")]
      else
        let! donor := gets w_donor in
        if negb (hasattr donor field_name) then
          ret [("applied", VBool false); ("reason", VStr "field_missing");
               ("field", VStr field_name)]
        else
          let! previous_value := lift_result (getattr donor field_name) in
          let new_value := get_soft_delete_value merge_manager_settings self in
          let info := [("applied", VBool true); ("field", VStr field_name);
                       ("from", _serialize_value previous_value);
                       ("to", _serialize_value new_value);
                       ("dry_run", VBool dry_run)] in
          if dry_run then ret info
          else
            let donor' := setattr donor field_name new_value in
            let! _ := modify (set_donor donor') in
            let! _ := save donor' [field_name] in
            ret info
  end.

Fixpoint run_pre_hooks (hooks : list PreMergeHook) (context : Context)
  : M ExecState unit :=
  match hooks with
  | [] => ret tt
  | hook :: rest =>
      let! w := gets es_world in
      match hook (w_target w) (w_donor w) context (w_db w) with
      | Some e => raise e
      | None => run_pre_hooks rest context
      end
  end.

Fixpoint run_post_hooks (hooks : list PostMergeHook) (context : Context)
  : M ExecState unit :=
  match hooks with
  | [] => ret tt
  | hook :: rest =>
      let! s := gets id in
      match hook (w_target (es_world s)) (w_donor (es_world s)) (es_result s)
              context (w_db (es_world s)) with
      | Some e => raise e
      | None => run_post_hooks rest context
      end
  end.

Definition _execute (overrides : gmap string value) (context : Context)
  : M ExecState unit :=
  let! _ := run_pre_hooks (pre_merge_hooks self) context in
  let! dry_run := gets (fun s => res_dry_run (es_result s)) in
  let! changed := in_world (_apply_field_updates overrides dry_run context) in
  let! _ := update_result (set_changed_fields changed) in
  let! rels := in_world (_transfer_relations dry_run) in
  let! _ := update_result (set_relations rels) in
  let hard_delete_enabled := hard_delete self in
  let! _ :=
    (if hard_delete_enabled then
       update_result (set_soft_delete
         [("applied", VBool false); ("reason", VStr "hard_delete_enabled");
          ("dry_run", VBool dry_run)])
     else
       let! info := in_world (_apply_soft_delete dry_run) in
       update_result (set_soft_delete info)) in
  let! _ := run_post_hooks (post_merge_hooks self) context in
  if hard_delete_enabled then
    let! _ := update_result (set_hard_delete
      [("enabled", VBool true); ("applied", VBool false); ("dry_run", VBool dry_run)]) in
    if negb dry_run then
      let! donor_pk := gets (fun s => inst_pk (w_donor (es_world s))) in
      let! _ := in_world delete_donor in
      update_result (fun r => set_hard_delete
        (dict_update (res_hard_delete r)
           [("applied", VBool true);
            ("pk", match donor_pk with
                   | Some pk => VStr (pretty pk)
                   | None => VNone
                   end)]) r)
    else ret tt
  else
    update_result (set_hard_delete
      [("enabled", VBool false); ("applied", VBool false); ("dry_run", VBool dry_run)]).

Definition _write_audit (user : option value) (extra_summary : option (pydict value))
  : M ExecState unit :=
  match AUDIT_MODEL merge_manager_settings with
  | None => ret tt
  | Some audit_model =>
      let! s := gets id in
      let result := es_result s in
      let target := w_target (es_world s) in
      let donor := w_donor (es_world s) in
      let summary :=
        {| sum_fields := res_changed_fields result;
           sum_relations := res_relations result;
           sum_soft_delete := res_soft_delete result;
           sum_hard_delete := res_hard_delete result;
           sum_extra :=
             match extra_summary with
             | Some ((_ :: _) as extra) =>
                 Some ((fun kv => (kv.1, _serialize_value kv.2)) <$> extra)
             | _ => None
             end |} in
      let initiator :=
        match user with
        | Some u =>
            if am_has_initiator audit_model then Some u
            else if bool_decide ("initiator" ∈ am_field_names audit_model) then Some u
            else None
        | None => None
        end in
      let audit_kwargs :=
        {| au_profile := res_profile result;
           au_target_content_type := inst_class target;
           au_target_object_id := pk_str (inst_pk target);
           au_donor_content_type := inst_class donor;
           au_donor_object_id := pk_str (inst_pk donor);
           au_status := res_status result;
           au_dry_run := res_dry_run result;
           au_summary := summary;
           au_message := default "" (res_error result);
           au_initiator := initiator |} in
      match am_create audit_model audit_kwargs with
      | Some e => raise e
      | None =>
          let! _ := in_world (modify (fun w => log_events [EvAuditCreate] (add_audit audit_kwargs w))) in
          update_result (set_audit_record audit_kwargs)
      end
  end.

Definition base_context_of (dry_run : bool) (context : option Context) : Context :=
  <["dry_run" := CVal (VBool dry_run)]>
    (<["profile" := CProfile (label self)]> (default ∅ context)).

(** [MergeResult(profile=..., target=..., donor=..., dry_run=...)] *)
Definition new_result (dry_run : bool) : MergeResult :=
  {| res_profile := label self; res_dry_run := dry_run;
     res_changed_fields := []; res_relations := [];
     res_soft_delete := []; res_hard_delete := [];
     res_status := STATUS_COMPLETED; res_error := None;
     res_audit_record := None |}.

(** The body of the [try]: [_execute], inside [transaction.atomic()] unless
    this is a dry run. *)
Definition execute_scope (dry_run : bool) (overrides : gmap string value)
    (context : Context) : M ExecState unit :=
  if dry_run then _execute overrides context
  else atomic (_execute overrides context).

Definition mark (st : string) (err : option string) (s : ExecState) : ExecState :=
  {| es_world := es_world s; es_result := set_status st err (es_result s) |}.

(** [merge]: the world it leaves and what the caller gets. *)
Definition merge (user : option value) (dry_run : option bool)
    (field_overrides : option (gmap string value))
    (extra_summary : option (pydict value)) (context : option Context)
    (w : World) : World * Outcome :=
  let dry_run := default (DRY_RUN_DEFAULT merge_manager_settings) dry_run in
  let overrides := default ∅ field_overrides in
  let base_context := base_context_of dry_run context in
  match _validate_instances (w_target w) (w_donor w) with
  | Raise e => (w, Raised e None)
  | Ok _ =>
      let result := new_result dry_run in
      match execute_scope dry_run overrides base_context
              {| es_world := w; es_result := result |} with
      | (s1, Raise exc) =>
          match _write_audit user extra_summary
                  (mark STATUS_FAILED (Some (exn_str exc)) s1) with
          | (s3, Raise audit_exc) => (es_world s3, Raised audit_exc (Some (es_result s3)))
          | (s3, Ok _) => (es_world s3, Raised exc (Some (es_result s3)))
          end
      | (s1, Ok _) =>
          match _write_audit user extra_summary
                  (mark (if dry_run then STATUS_DRY_RUN else STATUS_COMPLETED)
                     (res_error (es_result s1)) s1) with
          | (s3, Raise audit_exc) => (es_world s3, Raised audit_exc (Some (es_result s3)))
          | (s3, Ok _) => (es_world s3, Returned (es_result s3))
          end
      end
  end.

End Service.

(** ** A concrete installation: the City / Tag / Office models of the tests *)

Module Cities.

Definition settings : Settings :=
  {| FIELD_STRATEGIES :=
       <["prefer_target" := strategies.prefer_target]>
       (<["prefer_donor" := strategies.prefer_donor]>
       (<["prefer_non_null" := strategies.prefer_non_null]>
       (<["concat" := strategies.concat]> ∅)));
     SOFT_DELETE_FIELD := Some "is_active";
     SOFT_DELETE_VALUE := VBool false;
     DRY_RUN_DEFAULT := false;
     AUDIT_MODEL := Some {| am_has_initiator := true;
                            am_field_names := ["id"; "profile"; "initiator"; "status"];
                            am_create := fun _ => None |} |}.

(** The same installation with an audit table that cannot be written. *)
Definition settings_audit_down : Settings :=
  {| FIELD_STRATEGIES := FIELD_STRATEGIES settings;
     SOFT_DELETE_FIELD := SOFT_DELETE_FIELD settings;
     SOFT_DELETE_VALUE := SOFT_DELETE_VALUE settings;
     DRY_RUN_DEFAULT := DRY_RUN_DEFAULT settings;
     AUDIT_MODEL := Some {| am_has_initiator := true;
                            am_field_names := ["id"; "profile"; "initiator"; "status"];
                            am_create := fun _ =>
                              Some (DatabaseError "audit table is unavailable") |} |}.

Definition django : Django :=
  {| apps_get_model := fun name =>
       if bool_decide (name = "merge_manager.City") then Ok "City"
       else Raise (LookupError name);
     import_string := fun path => Raise (ImportError path) |}.

Definition plain_field (auto : bool) : Relation :=
  {| rel_auto_created := auto; rel_concrete := true; rel_many_to_many := false;
     rel_one_to_many := false; rel_has_field := false; rel_through := "";
     rel_accessor := ""; rel_related_label := ""; rel_field_name := "" |}.

Definition offices_rel : Relation :=
  {| rel_auto_created := true; rel_concrete := false; rel_many_to_many := false;
     rel_one_to_many := true; rel_has_field := true; rel_through := "";
     rel_accessor := "offices"; rel_related_label := "merge_manager.Office";
     rel_field_name := "city" |}.

Definition tags_field : M2MField :=
  {| m2m_name := "tags"; m2m_through := "City_tags";
     m2m_related_label := "merge_manager.Tag" |}.

Definition tags_as_relation : Relation :=
  {| rel_auto_created := false; rel_concrete := false; rel_many_to_many := true;
     rel_one_to_many := false; rel_has_field := false; rel_through := "City_tags";
     rel_accessor := "tags"; rel_related_label := "merge_manager.Tag";
     rel_field_name := "" |}.

Definition city_meta : Options :=
  {| many_to_many := [tags_field];
     get_fields := [offices_rel; plain_field true; plain_field false; plain_field false;
                    plain_field false; plain_field false; tags_as_relation] |}.

Definition city (pk : Z) (name code : string) (population : Z) : Instance :=
  {| inst_class := "City"; inst_bases := ["Model"]; inst_meta := city_meta;
     inst_pk := Some pk;
     inst_attrs := <["name" := VStr name]> (<["code" := VStr code]>
                   (<["population" := VInt population]>
                   (<["is_active" := VBool true]> ∅))) |}.

Definition target : Instance := city 1 "Target" "" 100.
Definition donor : Instance := city 2 "Donor" "DN" 250.

(** [object()] *)
Definition not_a_city : Instance :=
  {| inst_class := "object"; inst_bases := [];
     inst_meta := {| many_to_many := []; get_fields := [] |};
     inst_pk := None; inst_attrs := ∅ |}.

Definition db : DB :=
  {| db_rows := <[("City", 1) := inst_attrs target]>
                (<[("City", 2) := inst_attrs donor]> ∅);
     db_links := <["City_tags" := [(1, 10); (2, 11)]]> ∅;
     db_refs := <[("merge_manager.Office", "city") := [(100, 2)]]> ∅ |}.

Definition world : World :=
  {| w_target := target; w_donor := donor; w_db := db; w_audit := []; w_log := [] |}.

Definition rule (name : string) : FieldMergeRule :=
  {| strategy := StrategyName name; allow_override := true;
     description := None; metadata := ∅ |}.

Definition profile : MergeProfile :=
  {| label := "city"; model := ModelCls "City";
     fields := [("name", rule "prefer_target"); ("code", rule "prefer_non_null");
                ("population", rule "prefer_donor")];
     display_fields := []; soft_delete_field := None; soft_delete_value := VNone;
     hard_delete := false; pre_merge_hooks := []; post_merge_hooks := [];
     form_class := None |}.

Definition profile_hard_delete : MergeProfile :=
  {| label := "city-hard-delete"; model := ModelCls "City";
     fields := fields profile;
     display_fields := []; soft_delete_field := None; soft_delete_value := VNone;
     hard_delete := true; pre_merge_hooks := []; post_merge_hooks := [];
     form_class := None |}.

(** A profile whose pre-merge hook always raises. *)
Definition profile_failing_hook : MergeProfile :=
  {| label := "city-failing-hook"; model := ModelCls "City";
     fields := fields profile;
     display_fields := []; soft_delete_field := None; soft_delete_value := VNone;
     hard_delete := false;
     pre_merge_hooks := [fun _ _ _ _ => Some (OtherError "RuntimeError" "hook refused")];
     post_merge_hooks := []; form_class := None |}.

(** A profile whose strategy for [name] looks at the mode it runs in: it
    takes the donor's name in a dry run and keeps the target's otherwise. *)
Definition mode_aware : FieldStrategyCallable :=
  fun target_value donor_value context =>
    match context !! "dry_run" with
    | Some (CVal (VBool true)) => Ok donor_value
    | _ => Ok target_value
    end.

Definition profile_mode_aware : MergeProfile :=
  {| label := "city-mode-aware"; model := ModelCls "City";
     fields := [("name", {| strategy := StrategyCallable mode_aware;
                            allow_override := true; description := None;
                            metadata := ∅ |})];
     display_fields := []; soft_delete_field := None; soft_delete_value := VNone;
     hard_delete := false; pre_merge_hooks := []; post_merge_hooks := [];
     form_class := None |}.

(** A self-referential many-to-many field: [twins] is owned by City and its
    reverse accessor [twinned_by] is a relation of City too, over the same
    join table. *)
Definition twins_field : M2MField :=
  {| m2m_name := "twins"; m2m_through := "City_twins";
     m2m_related_label := "merge_manager.City" |}.

Definition twinned_by_rel : Relation :=
  {| rel_auto_created := true; rel_concrete := false; rel_many_to_many := true;
     rel_one_to_many := false; rel_has_field := true; rel_through := "City_twins";
     rel_accessor := "twinned_by"; rel_related_label := "merge_manager.City";
     rel_field_name := "twins" |}.

Definition twin_meta : Options :=
  {| many_to_many := [tags_field; twins_field];
     get_fields := [offices_rel; twinned_by_rel; plain_field true; tags_as_relation] |}.

Definition with_meta (meta : Options) (x : Instance) : Instance :=
  {| inst_class := inst_class x; inst_bases := inst_bases x; inst_meta := meta;
     inst_pk := inst_pk x; inst_attrs := inst_attrs x |}.

Definition twin_world : World :=
  {| w_target := with_meta twin_meta target; w_donor := with_meta twin_meta donor;
     w_db := {| db_rows := db_rows db;
                db_links := <["City_twins" := [(2, 7); (8, 2)]]> (db_links db);
                db_refs := db_refs db |};
     w_audit := []; w_log := [] |}.

End Cities.

(** * Notions the statements are written in

    Functions and predicates derived from the embedding: what a loop decides
    as a function of the state it starts from, what a step may change, and
    the conditions the theorems name. *)

(** ** Audit

    The record [_write_audit] hands to the audit model in state [s]. *)
Definition audit_kwargs_of (cfg : Settings) (am : AuditModel) (user : option value)
    (extra_summary : option (pydict value)) (s : ExecState) : AuditRecord :=
  {| au_profile := res_profile (es_result s);
     au_target_content_type := inst_class (w_target (es_world s));
     au_target_object_id := pk_str (inst_pk (w_target (es_world s)));
     au_donor_content_type := inst_class (w_donor (es_world s));
     au_donor_object_id := pk_str (inst_pk (w_donor (es_world s)));
     au_status := res_status (es_result s);
     au_dry_run := res_dry_run (es_result s);
     au_summary :=
       {| sum_fields := res_changed_fields (es_result s);
          sum_relations := res_relations (es_result s);
          sum_soft_delete := res_soft_delete (es_result s);
          sum_hard_delete := res_hard_delete (es_result s);
          sum_extra :=
            match extra_summary with
            | Some ((_ :: _) as extra) =>
                Some ((fun kv => (kv.1, _serialize_value kv.2)) <$> extra)
            | _ => None
            end |};
     au_message := default "" (res_error (es_result s));
     au_initiator :=
       match user with
       | Some u =>
           if am_has_initiator am then Some u
           else if bool_decide ("initiator" ∈ am_field_names am) then Some u
           else None
       | None => None
       end |}.

(** ** Field reconciliation

    What one turn of the field loop decides for field [f], as a function of
    the two objects: nothing to change, or the new value with its change
    entry. *)
Definition field_step (dj : Django) (cfg : Settings) (target donor : Instance)
    (overrides : gmap string value) (context : Context)
    (f : string) (rule : FieldMergeRule) : result (option (value * ChangeEntry)) :=
  match getattr target f with
  | Raise e => Raise e
  | Ok target_value =>
      match getattr donor f with
      | Raise e => Raise e
      | Ok donor_value =>
          match resolve_new_value dj cfg f rule target_value donor_value
                  overrides context with
          | Raise e => Raise e
          | Ok chosen =>
              if py_eq chosen.1 target_value then Ok None
              else Ok (Some (chosen.1,
                             {| ch_from := _serialize_value target_value;
                                ch_to := _serialize_value chosen.1;
                                ch_source := chosen.2;
                                ch_donor := _serialize_value donor_value |}))
          end
      end
  end.

(** The changes the whole loop decides, computed from the objects as they
    are before the loop starts. *)
Fixpoint plan_fields (dj : Django) (cfg : Settings) (items : pydict FieldMergeRule)
    (target donor : Instance) (overrides : gmap string value) (context : Context)
  : result (pydict (value * ChangeEntry)) :=
  match items with
  | [] => Ok []
  | (f, rule) :: rest =>
      match field_step dj cfg target donor overrides context f rule with
      | Raise e => Raise e
      | Ok step =>
          match plan_fields dj cfg rest target donor overrides context with
          | Raise e => Raise e
          | Ok plan =>
              Ok (match step with
                  | Some change => (f, change) :: plan
                  | None => plan
                  end)
          end
      end
  end.

(** The planned entries written into a [changes] dictionary, in order. *)
Definition record_changes (plan : pydict (value * ChangeEntry))
    (changes : pydict ChangeEntry) : pydict ChangeEntry :=
  foldl (fun acc c => dict_set c.1 c.2.2 acc) changes plan.

(** The planned values assigned to an object, in order. *)
Definition assign_all (plan : pydict (value * ChangeEntry)) (x : Instance) : Instance :=
  foldl (fun acc c => setattr acc c.1 c.2.1) x plan.

(** The change entries of a plan. *)
Definition entries_of (plan : pydict (value * ChangeEntry)) : pydict ChangeEntry :=
  (fun c => (c.1, c.2.2)) <$> plan.

(** The reconciled value of field [f] differs from the target's current
    value. *)
Definition reconciled_differs (dj : Django) (cfg : Settings) (target donor : Instance)
    (overrides : gmap string value) (context : Context)
    (f : string) (rule : FieldMergeRule) : Prop :=
  exists target_value donor_value chosen,
    getattr target f = Ok target_value /\
    getattr donor f = Ok donor_value /\
    resolve_new_value dj cfg f rule target_value donor_value overrides context
      = Ok chosen /\
    py_eq chosen.1 target_value = false.

(** Replace the rule of field [f]. *)
Definition with_rule (f : string) (rule : FieldMergeRule)
    (items : pydict FieldMergeRule) : pydict FieldMergeRule :=
  (fun kr => if decide (kr.1 = f) then (f, rule) else kr) <$> items.

(** ** Relationship transfer

    The branch conditions of the second loop: a reverse many-to-many
    relation, and a reverse foreign key. *)
Definition is_reverse_m2m (r : Relation) : bool :=
  rel_auto_created r && negb (rel_concrete r) && rel_many_to_many r.

Definition is_reverse_fk (r : Relation) : bool :=
  rel_auto_created r && negb (rel_concrete r) && negb (rel_many_to_many r)
  && rel_one_to_many r && rel_has_field r.

(** Counting without moving: what the loops record when nothing is written,
    as a function of the two objects and the store. *)
Definition survey_m2m (name type_ related_label through : string) (reverse : bool)
    (target donor : Instance) (db : DB) (relations_info : pydict RelationInfo)
  : result (pydict RelationInfo) :=
  match manager_pk donor with
  | Raise e => Raise e
  | Ok donor_pk =>
      match manager_pk target with
      | Raise e => Raise e
      | Ok _ =>
          Ok (dict_set name
                {| ri_type := type_;
                   ri_count := length (related_pks reverse donor_pk (links_of db through));
                   ri_related_model := related_label |} relations_info)
      end
  end.

(** The same for a reverse foreign key. *)
Definition survey_one_to_many (relation : Relation) (donor : Instance) (db : DB)
    (relations_info : pydict RelationInfo) : result (pydict RelationInfo) :=
  match manager_pk donor with
  | Raise e => Raise e
  | Ok donor_pk =>
      Ok (dict_set (rel_accessor relation)
            {| ri_type := "one_to_many";
               ri_count := refs_count donor_pk
                             (refs_of db (rel_related_label relation)
                                (rel_field_name relation));
               ri_related_model := rel_related_label relation |} relations_info)
  end.

(** The two loops, counting only. *)
Fixpoint survey_forward (m2m_fields : list M2MField) (target donor : Instance) (db : DB)
    (relations_info : pydict RelationInfo) (processed_through : gset string)
  : result (pydict RelationInfo * gset string) :=
  match m2m_fields with
  | [] => Ok (relations_info, processed_through)
  | field :: rest =>
      match survey_m2m (m2m_name field) "many_to_many" (m2m_related_label field)
              (m2m_through field) false target donor db relations_info with
      | Raise e => Raise e
      | Ok relations_info' =>
          survey_forward rest target donor db relations_info'
            ({[m2m_through field]} ∪ processed_through)
      end
  end.

Fixpoint survey_reverse (relations : list Relation) (target donor : Instance) (db : DB)
    (relations_info : pydict RelationInfo) (processed_through : gset string)
  : result (pydict RelationInfo) :=
  match relations with
  | [] => Ok relations_info
  | relation :: rest =>
      if is_reverse_m2m relation then
        if bool_decide (rel_through relation ∈ processed_through) then
          survey_reverse rest target donor db relations_info processed_through
        else
          match survey_m2m (rel_accessor relation) "many_to_many_reverse"
                  (rel_related_label relation) (rel_through relation) true
                  target donor db relations_info with
          | Raise e => Raise e
          | Ok relations_info' =>
              survey_reverse rest target donor db relations_info'
                ({[rel_through relation]} ∪ processed_through)
          end
      else if is_reverse_fk relation then
        match survey_one_to_many relation donor db relations_info with
        | Raise e => Raise e
        | Ok relations_info' =>
            survey_reverse rest target donor db relations_info' processed_through
        end
      else survey_reverse rest target donor db relations_info processed_through
  end.

Definition survey_by_meta (meta : Options) (target donor : Instance) (db : DB)
  : result (pydict RelationInfo) :=
  match survey_forward (many_to_many meta) target donor db [] ∅ with
  | Raise e => Raise e
  | Ok forward =>
      survey_reverse (get_fields meta) target donor db forward.1 forward.2
  end.

Definition survey_relations (target donor : Instance) (db : DB)
  : result (pydict RelationInfo) :=
  survey_by_meta (inst_meta donor) target donor db.

(** The join tables whose links a list of write operations moved through a
    reverse manager, in call order. *)
Definition reverse_moves (evs : list event) : list string :=
  omap (fun e => match e with
                 | EvM2MAdd through true _ _ => Some through
                 | _ => None
                 end) evs.

(** What relationship transfer never touches: the two objects, the audit
    table and the entity records. *)
Definition same_entities (w w' : World) : Prop :=
  w_target w' = w_target w /\ w_donor w' = w_donor w /\
  w_audit w' = w_audit w /\ db_rows (w_db w') = db_rows (w_db w).

(** The reference columns the second loop updates, in loop order. *)
Definition fk_keys (relations : list Relation) : list (string * string) :=
  (fun r => (rel_related_label r, rel_field_name r))
    <$> filter (fun r => is_reverse_fk r = true) relations.

(** A relation graph in which no join table is owned by two many-to-many
    fields and no reference column is listed twice. *)
Definition wf_relations (meta : Options) : Prop :=
  NoDup (m2m_through <$> many_to_many meta) /\ NoDup (fk_keys (get_fields meta)).

(** [w] is [w0] up to the join tables in [P] and the reference columns in
    [K]. *)
Definition agree (P : gset string) (K : gset (string * string)) (w0 w : World) : Prop :=
  w_target w = w_target w0 /\ w_donor w = w_donor w0 /\
  (forall T, T ∉ P -> links_of (w_db w) T = links_of (w_db w0) T) /\
  (forall c k, (c, k) ∉ K -> refs_of (w_db w) c k = refs_of (w_db w0) c k).

(** ** The executor

    What the hook loops come to: the exception of the first hook that
    raises. *)
Fixpoint pre_hooks_verdict (hooks : list PreMergeHook) (target donor : Instance)
    (context : Context) (db : DB) : result unit :=
  match hooks with
  | [] => Ok tt
  | hook :: rest =>
      match hook target donor context db with
      | Some e => Raise e
      | None => pre_hooks_verdict rest target donor context db
      end
  end.

Fixpoint post_hooks_verdict (hooks : list PostMergeHook) (target donor : Instance)
    (r : MergeResult) (context : Context) (db : DB) : result unit :=
  match hooks with
  | [] => Ok tt
  | hook :: rest =>
      match hook target donor r context db with
      | Some e => Raise e
      | None => post_hooks_verdict rest target donor r context db
      end
  end.

(** The soft-delete section [_apply_soft_delete] reports for a donor. *)
Definition soft_delete_info (cfg : Settings) (self : MergeProfile) (dry_run : bool)
    (donor : Instance) : pydict value :=
  match get_soft_delete_field cfg self with
  | None => [("applied", VBool false); ("reason", VStr "soft_delete_disabled")]
  | Some field_name =>
      if bool_decide (field_name = "") then
        [("applied", VBool false); ("reason", VStr "soft_delete_disabled")]
      else
        match inst_attrs donor !! field_name with
        | None => [("applied", VBool false); ("reason", VStr "field_missing");
                   ("field", VStr field_name)]
        | Some previous_value =>
            [("applied", VBool true); ("field", VStr field_name);
             ("from", _serialize_value previous_value);
             ("to", _serialize_value (get_soft_delete_value cfg self));
             ("dry_run", VBool dry_run)]
        end
  end.

(** The soft-delete section of a result, whichever way the donor is retired. *)
Definition soft_delete_section (cfg : Settings) (self : MergeProfile) (dry_run : bool)
    (donor : Instance) : pydict value :=
  if hard_delete self then
    [("applied", VBool false); ("reason", VStr "hard_delete_enabled");
     ("dry_run", VBool dry_run)]
  else soft_delete_info cfg self dry_run donor.

(** A section with its [dry_run] entry, if it has one, set to [b]. *)
Definition with_dry_run_flag (b : bool) (section : pydict value) : pydict value :=
  (fun kv => if decide (kv.1 = "dry_run") then (kv.1, VBool b) else kv) <$> section.

(** The three shapes of the hard-delete section. *)
Definition hard_delete_pending (dry_run : bool) : pydict value :=
  [("enabled", VBool true); ("applied", VBool false); ("dry_run", VBool dry_run)].

Definition hard_delete_off (dry_run : bool) : pydict value :=
  [("enabled", VBool false); ("applied", VBool false); ("dry_run", VBool dry_run)].

Definition hard_delete_done (donor_pk : option Z) : pydict value :=
  [("enabled", VBool true); ("applied", VBool true); ("dry_run", VBool false);
   ("pk", match donor_pk with
          | Some pk => VStr (pretty pk)
          | None => VNone
          end)].

(** An execution state from its two parts. *)
Definition state (w : World) (r : MergeResult) : ExecState :=
  {| es_world := w; es_result := r |}.

(** What a dry run of [_execute] comes to, as a function of the two objects
    and the store: the result it fills in and whether it raises. *)
Definition dry_execute (dj : Django) (cfg : Settings) (self : MergeProfile)
    (overrides : gmap string value) (context : Context)
    (target donor : Instance) (db : DB) (r0 : MergeResult)
  : MergeResult * result unit :=
  match pre_hooks_verdict (pre_merge_hooks self) target donor context db with
  | Raise e => (r0, Raise e)
  | Ok _ =>
  match plan_fields dj cfg (fields self) target donor overrides context with
  | Raise e => (r0, Raise e)
  | Ok plan =>
  let r1 := set_changed_fields (record_changes plan []) r0 in
  match survey_relations target donor db with
  | Raise e => (r1, Raise e)
  | Ok rels =>
  let r3 := set_soft_delete (soft_delete_section cfg self true donor)
              (set_relations rels r1) in
  match post_hooks_verdict (post_merge_hooks self) target donor r3 context db with
  | Raise e => (r3, Raise e)
  | Ok _ =>
      (set_hard_delete
         (if hard_delete self then hard_delete_pending true else hard_delete_off true) r3,
       Ok tt)
  end end end end.

(** What field reconciliation can change: attributes of the target object
    and, through [save], the target's record.  Records are written, never
    removed. *)
Definition field_frame (w w' : World) : Prop :=
  w_donor w' = w_donor w /\ w_audit w' = w_audit w /\
  inst_pk (w_target w') = inst_pk (w_target w) /\
  inst_class (w_target w') = inst_class (w_target w) /\
  db_links (w_db w') = db_links (w_db w) /\
  db_refs (w_db w') = db_refs (w_db w) /\
  (forall key, is_Some (db_rows (w_db w) !! key) -> is_Some (db_rows (w_db w') !! key)).

(** What the three sections of a result report about a world: the planned
    field changes, the relation counts, and the soft-delete section. *)
Definition reports (dj : Django) (cfg : Settings) (self : MergeProfile)
    (ov : gmap string value) (ctx : Context) (w : World) (dry : bool)
    (r : MergeResult) : Prop :=
  exists plan rels,
    plan_fields dj cfg (fields self) (w_target w) (w_donor w) ov ctx = Ok plan /\
    survey_relations (w_target w) (w_donor w) (w_db w) = Ok rels /\
    res_changed_fields r = record_changes plan [] /\
    res_relations r = rels /\
    res_soft_delete r = soft_delete_section cfg self dry (w_donor w).

(** ** Modes

    A strategy that does not read the [dry_run] entry of its context. *)
Definition ignores_mode (fn : FieldStrategyCallable) : Prop :=
  forall tv dv (c1 c2 : Context),
    (forall k, k <> "dry_run" -> c1 !! k = c2 !! k) ->
    fn tv dv c1 = fn tv dv c2.

(** Every strategy the profile's rules resolve to is such a strategy. *)
Definition strategies_ignore_mode (dj : Django) (cfg : Settings) (self : MergeProfile)
  : Prop :=
  forall f rule fn,
    (f, rule) ∈ fields self -> get_callable dj cfg rule = Ok fn -> ignores_mode fn.

(** Two contexts that differ at most in the value of [dry_run]. *)
Definition same_but_mode (c1 c2 : Context) : Prop :=
  is_Some (c1 !! "dry_run") /\ is_Some (c2 !! "dry_run") /\
  forall k, k <> "dry_run" -> c1 !! k = c2 !! k.

(** * More of the package *)

(** ** settings.py: the settings proxy

    The values of a settings mapping: scalars, tuples and lists, mappings
    with string keys, and objects that are none of these (a function or a
    class, as [import_string] returns them), known by a name. *)
#[local] Unset Elimination Schemes.
Inductive pyobj : Type :=
  | ONone
  | OBool (b : bool)
  | OInt (n : Z)
  | OStr (s : string)
  | OTuple (items : list pyobj)
  | OList (items : list pyobj)
  | ODict (entries : list (string * pyobj))
  | OOpaque (name : string).
#[local] Set Elimination Schemes.

Definition DEFAULTS : pydict pyobj :=
  [("PROFILES", OTuple []);
   ("FIELD_STRATEGIES",
    ODict [("prefer_target", OStr "merge_manager.services.strategies.prefer_target");
           ("prefer_donor", OStr "merge_manager.services.strategies.prefer_donor");
           ("prefer_non_null", OStr "merge_manager.services.strategies.prefer_non_null");
           ("concat", OStr "merge_manager.services.strategies.concat")]);
   ("SOFT_DELETE_FIELD", OStr "is_active");
   ("SOFT_DELETE_VALUE", OBool false);
   ("SOFT_DELETE_FLAG_FIELD", ONone);
   ("DRY_RUN_DEFAULT", OBool false);
   ("AUDIT_MODEL", OStr "merge_manager.MergeOperation");
   ("AUTO_DISCOVER_MODULES", OTuple []);
   ("AUDIT_EXTRA_FIELDS", OTuple [])].

Definition IMPORT_STRINGS : list string := ["FIELD_STRATEGIES"; "AUDIT_MODEL"].

Record MergeManagerSettings : Type := {
  _user_settings : pydict pyobj;
  _cached : pydict pyobj;
}.

(** [MergeManagerSettings.__init__]: [django_setting] is the
    [MERGE_MANAGER_SETTINGS] attribute of the project settings, if there is
    one. *)
Definition MergeManagerSettings_init (django_setting : option pyobj)
    (user_settings : pyobj) : result MergeManagerSettings :=
  let user_settings :=
    match user_settings with
    | ONone => default (ODict []) django_setting
    | _ => user_settings
    end in
  match user_settings with
  | ODict entries => Ok {| _user_settings := entries; _cached := [] |}
  | _ => Raise (OtherError "ImproperlyConfigured" "MERGE_MANAGER_SETTINGS must be a dict.")
  end.

Section SettingsProxy.

(** Django's [import_string] on the dotted paths of a settings mapping. *)
Variable import_object : string -> result pyobj.

(** [import_string(item) if isinstance(item, str) else item] *)
Definition import_item (item : pyobj) : result pyobj :=
  match item with
  | OStr path => import_object path
  | _ => Ok item
  end.

(** The list comprehension over [value]: items are imported from left to
    right and the first failure is raised. *)
Fixpoint import_all (items : list pyobj) : result (list pyobj) :=
  match items with
  | [] => Ok []
  | item :: rest =>
      match import_item item with
      | Raise e => Raise e
      | Ok x =>
          match import_all rest with
          | Raise e => Raise e
          | Ok xs => Ok (x :: xs)
          end
      end
  end.

(** The dict comprehension over [value.items()]. *)
Fixpoint import_values (entries : pydict pyobj) : result (pydict pyobj) :=
  match entries with
  | [] => Ok []
  | (key, path) :: rest =>
      match import_item path with
      | Raise e => Raise e
      | Ok x =>
          match import_values rest with
          | Raise e => Raise e
          | Ok xs => Ok ((key, x) :: xs)
          end
      end
  end.

Definition _perform_import (attr : string) (value : pyobj) : result pyobj :=
  if bool_decide (attr ∉ IMPORT_STRINGS) then Ok value
  else if bool_decide (attr = "FIELD_STRATEGIES") then
    match value with
    | ODict entries =>
        match import_values entries with
        | Raise e => Raise e
        | Ok resolved => Ok (ODict resolved)
        end
    | _ => Raise (AttributeError "items")
    end
  else
    match value with
    | OStr path => import_object path
    | OTuple items | OList items =>
        match import_all items with
        | Raise e => Raise e
        | Ok resolved => Ok (OList resolved)
        end
    | ODict entries =>
        (* iterating a mapping yields its keys *)
        match import_all (OStr <$> dict_keys entries) with
        | Raise e => Raise e
        | Ok resolved => Ok (OList resolved)
        end
    | _ => Ok value
    end.

Definition __getattr__ (attr : string) : M MergeManagerSettings pyobj :=
  fun self =>
    match dict_get attr DEFAULTS with
    | None => (self, Raise (AttributeError ("Invalid merge manager setting: " +:+ attr)))
    | Some default_value =>
        match dict_get attr (_cached self) with
        | Some value => (self, Ok value)
        | None =>
            let value := default default_value (dict_get attr (_user_settings self)) in
            match _perform_import attr value with
            | Raise e => (self, Raise e)
            | Ok value =>
                ({| _user_settings := _user_settings self;
                    _cached := dict_set attr value (_cached self) |}, Ok value)
            end
        end
    end.

Definition reload : M MergeManagerSettings unit :=
  modify (fun self => {| _user_settings := _user_settings self; _cached := [] |}).

End SettingsProxy.

(** ** config.py: loading the registry from the settings

    What an entry of [PROFILES] can be, by the [isinstance] tests of
    [_resolve_profile_source]: a profile, a mapping, a list, tuple or set, a
    dotted path, a callable (known by its name), [None], some other iterable,
    or anything else. *)
#[local] Unset Elimination Schemes.
Inductive Source : Type :=
  | SProfile (profile : MergeProfile)
  | SMapping (kwargs : pydict pyobj)
  | SList (items : list Source)
  | SStr (path : string)
  | SCallable (name : string)
  | SNone
  | SIterable (items : list Source)
  | SOther (repr : string).
#[local] Set Elimination Schemes.

(** [for x in xs: body(x)] *)
Fixpoint for_each {S A} (xs : list A) (body : A -> M S unit) : M S unit :=
  match xs with
  | [] => ret tt
  | x :: rest => let! _ := body x in for_each rest body
  end.

Section Loading.

(** Importing a module and calling a factory run code of the project, which
    may register profiles itself; [MergeProfile_of] is the generated
    constructor applied to the entries of a mapping; [recursion_limit] is the
    interpreter's. *)
Variable django : Django.
Variable import_source : string -> M MergeProfileRegistry Source.
Variable call : string -> M MergeProfileRegistry Source.
Variable MergeProfile_of : pydict pyobj -> result MergeProfile.
Variable recursion_limit : nat.

Definition RecursionError : exn :=
  OtherError "RecursionError" "maximum recursion depth exceeded".

Fixpoint _resolve_profile_source (depth : nat) (source : Source)
  : M MergeProfileRegistry (list Source) :=
  match source with
  | SProfile _ => ret [source]
  | SMapping _ => ret [source]
  | SList items => ret items
  | SStr path =>
      let! resolved := import_source path in
      match depth with
      | O => raise RecursionError
      | S depth' => _resolve_profile_source depth' resolved
      end
  | SCallable name =>
      let! result := call name in
      match result with
      | SNone => ret []
      | _ =>
          match depth with
          | O => raise RecursionError
          | S depth' => _resolve_profile_source depth' result
          end
      end
  | SNone => ret []
  | SIterable items => ret items
  | SOther _ => ret [source]
  end.

(** [registry.register(profile)] on whatever [_resolve_profile_source]
    returned: a mapping is turned into a profile first, and anything that is
    neither has no [label]. *)
Definition register_source (profile : Source) : M MergeProfileRegistry MergeProfile :=
  match profile with
  | SProfile p => register django p
  | SMapping kwargs =>
      let! p := lift_result (MergeProfile_of kwargs) in
      register django p
  | _ => raise (AttributeError "label")
  end.

Definition load_profiles_from_settings (PROFILES : list Source)
    (AUTO_DISCOVER_MODULES : list string) : M MergeProfileRegistry unit :=
  let! _ := modify registry_clear in
  let! _ := for_each PROFILES (fun item =>
              let! profiles := _resolve_profile_source recursion_limit item in
              for_each profiles (fun profile =>
                let! _ := register_source profile in ret tt)) in
  for_each AUTO_DISCOVER_MODULES (fun module_path =>
    let! _ := import_source module_path in ret tt).

End Loading.

(** ** api.py: helpers of the REST layer *)

(** Python's truth value of a field value. *)
Definition py_truthy (v : value) : bool :=
  match v with
  | VNone => false
  | VBool b => b
  | VInt n => negb (n =? 0)
  | VStr s => negb (bool_decide (s = ""))
  | VObj _ => true
  end.

(** [s.replace(old, new)] for a one-character [old] *)
Fixpoint str_replace (old new : string) (s : string) : string :=
  match s with
  | EmptyString => EmptyString
  | String c s' =>
      (if bool_decide (String c EmptyString = old) then new else String c EmptyString)
      +:+ str_replace old new s'
  end.

(** [list.sort(key=...)]: a stable sort, each element is placed before the
    first one whose key is greater than its own. *)
Fixpoint insert_sorted {A} (key : A -> string) (x : A) (l : list A) : list A :=
  match l with
  | [] => [x]
  | y :: l' =>
      if String.ltb (key x) (key y) then x :: y :: l'
      else y :: insert_sorted key x l'
  end.

Definition sort_by {A} (key : A -> string) (l : list A) : list A :=
  foldl (fun acc x => insert_sorted key x acc) [] l.

Section Api.

(** [django.utils.text.slugify], [str.casefold], [int] and the
    [_meta.model_name] of a model class. *)
Variable slugify : string -> string.
Variable casefold : string -> string.
Variable py_int : value -> result Z.
Variable model_name : ModelClass -> string.
Variable django : Django.

(** The [while slug in used_slugs] loop.  It runs at most once per slug in
    use; [fuel] bounds the number of turns. *)
Fixpoint free_slug (fuel : nat) (used_slugs : gset string) (base_slug slug : string)
    (counter : Z) : option string :=
  if bool_decide (slug ∈ used_slugs) then
    match fuel with
    | O => None
    | S fuel' =>
        free_slug fuel' used_slugs base_slug (base_slug +:+ "-" +:+ pretty counter)
          (counter + 1)
    end
  else Some slug.

(** The [for profile in profiles] loop of [_iterate_profiles]; [None] when
    the inner loop runs out of fuel. *)
Fixpoint slug_loop (profiles : list MergeProfile) (used_slugs : gset string)
    (lookup : gmap string MergeProfile) (entries : list (MergeProfile * string))
  : option (result (list (MergeProfile * string) * gmap string MergeProfile)) :=
  match profiles with
  | [] => Some (Ok (entries, lookup))
  | profile :: rest =>
      let base_slug := slugify (label profile) in
      match (if bool_decide (base_slug = "") then
               match get_model_class django profile with
               | Raise e => Raise e
               | Ok cls => Ok (str_replace "_" "-" (model_name cls))
               end
             else Ok base_slug) with
      | Raise e => Some (Raise e)
      | Ok base_slug =>
          let slug :=
            if bool_decide (base_slug = "")
            then "profile-" +:+ pretty (Z.of_nat (length entries) + 1)
            else base_slug in
          match free_slug (S (size used_slugs)) used_slugs base_slug slug 2 with
          | None => None
          | Some slug =>
              slug_loop rest ({[slug]} ∪ used_slugs)
                (<[casefold (label profile) := profile]>
                   (<[label profile := profile]>
                      (<[casefold slug := profile]> (<[slug := profile]> lookup))))
                (entries ++ [(profile, slug)])
          end
      end
  end.

(** [_iterate_profiles], on the list [registry.all()] yields. *)
Definition _iterate_profiles (profiles : list MergeProfile)
  : option (result (list (MergeProfile * string) * gmap string MergeProfile)) :=
  match profiles with
  | [] => Some (Ok ([], ∅))
  | _ => slug_loop (sort_by (fun profile => casefold (label profile)) profiles) ∅ ∅ []
  end.

Definition _clean_limit (value : value) (default maximum : Z) : result Z :=
  match py_int value with
  | Ok limit => Ok (Z.max 1 (Z.min limit maximum))
  | Raise (ValueError _) => Ok (Z.max 1 (Z.min default maximum))
  | Raise (OtherError cls msg) =>
      if bool_decide (cls = "TypeError") then Ok (Z.max 1 (Z.min default maximum))
      else Raise (OtherError cls msg)
  | Raise e => Raise e
  end.

End Api.

Definition WARN_NO_DIFFERENCES : string := "Различий между объектами не найдено.".
Definition WARN_SOFT_DELETE_DISABLED : string := "Soft-delete отключён для текущего профиля.".
Definition WARN_HARD_DELETE : string :=
  "Установлен Hard-delete. ⚠️⚠️⚠️Донор будет удален!!!".

(** [_build_warnings]; of [differences] and [relations] only their being
    empty matters. *)
Definition _build_warnings {D R} (result : MergeResult) (differences : list D)
    (relations : list R) : list string :=
  let warnings :=
    match differences, relations with
    | [], [] => [WARN_NO_DIFFERENCES]
    | _, _ => []
    end in
  let soft_info := res_soft_delete result in
  let warnings :=
    if bool_decide (dict_get "applied" soft_info = Some (VBool false)) then
      let reason := default VNone (dict_get "reason" soft_info) in
      if py_eq reason (VStr "field_missing") then
        let field := default VNone (dict_get "field" soft_info) in
        warnings ++ ["Soft-delete не применён: поле `" +:+ py_str field
                     +:+ "` отсутствует у объекта."]
      else if py_eq reason (VStr "soft_delete_disabled") then
        warnings ++ [WARN_SOFT_DELETE_DISABLED]
      else warnings
    else warnings in
  let hard_info := res_hard_delete result in
  if py_truthy (default VNone (dict_get "enabled" hard_info)) && res_dry_run result
  then warnings ++ [WARN_HARD_DELETE]
  else warnings.

(** * More notions and installations *)

(** ** Relationship transfer, what it leaves behind

    The links of a join table once the donor's related keys have been added
    on the target's side and removed on the donor's. *)
Definition links_moved (reverse : bool) (target_pk donor_pk : Z) (ls : list (Z * Z))
  : list (Z * Z) :=
  m2m_remove reverse donor_pk (related_pks reverse donor_pk ls)
    (m2m_add reverse target_pk (related_pks reverse donor_pk ls) ls).

(** The join tables the second loop can reach through a reverse
    many-to-many relation. *)
Definition reverse_throughs (relations : list Relation) : list string :=
  rel_through <$> filter (fun r => is_reverse_m2m r = true) relations.

(** A record no link and no reference column points at. *)
Definition unrelated (pk : Z) (db : DB) : Prop :=
  (forall T l, l ∈ links_of db T -> l.1 <> pk /\ l.2 <> pk) /\
  (forall c k r, r ∈ refs_of db c k -> r.2 <> pk).

(** ** Slugs

    What the loop of [_iterate_profiles] keeps true of the slugs handed out
    so far: they are pairwise distinct, in use, not empty and resolvable, and
    so is the label of every profile listed. *)
Definition slugs_ok (used : gset string) (lookup : gmap string MergeProfile)
    (entries : list (MergeProfile * string)) : Prop :=
  NoDup entries.*2 /\
  (forall slug, slug ∈ entries.*2 ->
     slug ∈ used /\ slug <> "" /\ is_Some (lookup !! slug)) /\
  (forall p, p ∈ entries.*1 -> is_Some (lookup !! label p)).

(** ** More installations for the examples *)

Module Atlas.

(** A [Route] model with a many-to-many field [stops] to City: on City the
    field shows as the reverse relation [route_set] over [Route_stops]. *)
Definition route_set_rel : Relation :=
  {| rel_auto_created := true; rel_concrete := false; rel_many_to_many := true;
     rel_one_to_many := false; rel_has_field := true; rel_through := "Route_stops";
     rel_accessor := "route_set"; rel_related_label := "merge_manager.Route";
     rel_field_name := "stops" |}.

Definition meta : Options :=
  {| many_to_many := [Cities.tags_field];
     get_fields := [Cities.offices_rel; route_set_rel; Cities.plain_field true;
                    Cities.tags_as_relation] |}.

(** Routes 5 and 6 stop at the donor, route 6 also at the target. *)
Definition world : World :=
  {| w_target := Cities.with_meta meta Cities.target;
     w_donor := Cities.with_meta meta Cities.donor;
     w_db := {| db_rows := db_rows Cities.db;
                db_links := <["Route_stops" := [(5, 2); (6, 2); (6, 1); (7, 3)]]>
                              (db_links Cities.db);
                db_refs := db_refs Cities.db |};
     w_audit := []; w_log := [] |}.

(** A donor nothing refers to: city 3 has no tags, no offices, no routes. *)
Definition lonely_world : World :=
  {| w_target := Cities.with_meta meta Cities.target;
     w_donor := Cities.with_meta meta (Cities.city 3 "Lonely" "LN" 5);
     w_db := {| db_rows := <[("City", 3) := inst_attrs (Cities.city 3 "Lonely" "LN" 5)]>
                             (db_rows Cities.db);
                db_links := <["Route_stops" := [(5, 2); (6, 1)]]> (db_links Cities.db);
                db_refs := db_refs Cities.db |};
     w_audit := []; w_log := [] |}.

(** Profiles for the edge cases: one without a label, one for another model
    under the label of the city profile, one that switches soft delete off. *)
Definition unlabelled_profile : MergeProfile :=
  {| label := ""; model := ModelName "no.such.Model";
     fields := []; display_fields := []; soft_delete_field := None;
     soft_delete_value := VNone; hard_delete := false;
     pre_merge_hooks := []; post_merge_hooks := []; form_class := None |}.

Definition town_profile : MergeProfile :=
  {| label := "city"; model := ModelCls "Town";
     fields := []; display_fields := []; soft_delete_field := None;
     soft_delete_value := VNone; hard_delete := false;
     pre_merge_hooks := []; post_merge_hooks := []; form_class := None |}.

Definition profile_soft_delete_off : MergeProfile :=
  {| label := "city-keep-donor"; model := ModelCls "City";
     fields := fields Cities.profile; display_fields := [];
     soft_delete_field := Some ""; soft_delete_value := VNone;
     hard_delete := false; pre_merge_hooks := []; post_merge_hooks := [];
     form_class := None |}.

(** A profile whose post-merge hook always raises. *)
Definition profile_failing_post_hook : MergeProfile :=
  {| label := "city-failing-post-hook"; model := ModelCls "City";
     fields := fields Cities.profile; display_fields := [];
     soft_delete_field := None; soft_delete_value := VNone; hard_delete := false;
     pre_merge_hooks := [];
     post_merge_hooks :=
       [fun _ _ _ _ _ => Some (OtherError "RuntimeError" "post hook refused")];
     form_class := None |}.

(** A project that configures one strategy of its own and nothing else. *)
Definition user_settings : pyobj :=
  ODict [("FIELD_STRATEGIES", ODict [("longest", OOpaque "atlas.strategies.longest")]);
         ("DRY_RUN_DEFAULT", OBool true)].

(** An importer that knows the package's own strategies. *)
Definition importer (path : string) : result pyobj :=
  if bool_decide (path ∈ ["merge_manager.services.strategies.prefer_target";
                          "merge_manager.services.strategies.prefer_donor";
                          "merge_manager.services.strategies.prefer_non_null";
                          "merge_manager.services.strategies.concat"])
  then Ok (OOpaque path)
  else Raise (ImportError path).

(** [int()] on the values a query parameter can be: a missing parameter is
    [None], a present one is text, here a plain run of digits. *)
Definition py_int (v : value) : result Z :=
  match v with
  | VInt n => Ok n
  | VBool b => Ok (bool_as_int b)
  | VStr "25" => Ok 25
  | VStr "1000" => Ok 1000
  | VStr _ => Raise (ValueError "invalid literal for int() with base 10")
  | _ => Raise (OtherError "TypeError" "int() argument must be a string or a number")
  end.

(** The city profile with one more field, which City does not have. *)
Definition profile_with_mayor : MergeProfile :=
  {| label := "city-with-mayor"; model := ModelCls "City";
     fields := fields Cities.profile ++ [("mayor", Cities.rule "prefer_target")];
     display_fields := []; soft_delete_field := None; soft_delete_value := VNone;
     hard_delete := false; pre_merge_hooks := []; post_merge_hooks := [];
     form_class := None |}.

End Atlas.

(** * Properties *)

(** ** Strategies *)

Lemma _is_empty_spec (v : value) :
  strategies._is_empty v = true <-> v = VNone \/ v = VStr "".
Proof.
  unfold strategies._is_empty. simpl. split.
  - destruct v as [| b | n | s | s]; simpl; try discriminate; auto.
    rewrite orb_false_r. intros H%bool_decide_eq_true. subst. auto.
  - intros [-> | ->]; reflexivity.
Qed.

Lemma py_eq_refl (v : value) : py_eq v v = true.
Proof.
  destruct v as [| [] | n | s | s]; simpl; try reflexivity.
  - apply Z.eqb_refl.
  - by apply bool_decide_eq_true.
  - by apply bool_decide_eq_true.
Qed.


(** ** The profile registry *)

Lemma register_ok (dj : Django) (p : MergeProfile) (cls : ModelClass)
    (reg : MergeProfileRegistry) :
  label p <> "" ->
  get_model_class dj p = Ok cls ->
  register dj p reg =
    ({| _profiles := <[label p := p]> (_profiles reg);
        _model_index := <[cls := p]> (_model_index reg) |}, Ok p).
Proof.
  intros Hl Hc. unfold register.
  rewrite bool_decide_eq_false_2 by done. by rewrite Hc.
Qed.

(** C10: two profiles with distinct labels and the same model class are
    registered, first [a] then [b].  The class index then points at [b];
    unregistering [a] by its label removes that entry as well, so [b] is
    still found by label but no longer by model class. *)
Theorem unregister_drops_shared_model_entry (dj : Django) (a b : MergeProfile)
    (cls : ModelClass) (reg : MergeProfileRegistry) :
  label a <> "" ->
  label b <> "" ->
  label a <> label b ->
  get_model_class dj a = Ok cls ->
  get_model_class dj b = Ok cls ->
  let reg2 := (register dj b (register dj a reg).1).1 in
  let reg3 := (unregister dj (label a) reg2).1 in
  get_for_model cls reg2 = Ok b /\
  (unregister dj (label a) reg2).2 = Ok tt /\
  registry_get (label b) reg3 = Ok b /\
  registry_get (label a) reg3 =
    Raise (ProfileNotFoundError ("Merge profile '" +:+ label a +:+ "' is not registered")) /\
  get_for_model cls reg3 =
    Raise (ProfileNotFoundError ("No merge profile registered for model " +:+ cls)).
Proof.
  intros Ha Hb Hab Hca Hcb reg2 reg3.
  subst reg3 reg2.
  rewrite (register_ok dj a cls) by done. simpl.
  rewrite (register_ok dj b cls) by done. simpl.
  assert (Hba : label b <> label a) by congruence.
  unfold unregister, get_for_model, registry_get. simpl.
  rewrite lookup_insert_eq.
  rewrite (lookup_insert_ne _ (label b) (label a)) by done.
  rewrite lookup_insert_eq, Hca. simpl.
  rewrite lookup_delete_eq.
  rewrite (lookup_delete_ne _ (label a) (label b)) by done.
  rewrite lookup_insert_eq, lookup_delete_eq.
  done.
Qed.

Lemma unregister_drops_shared_model_entry_witness :
  let dj := Cities.django in
  let a := Cities.profile in
  let b := Cities.profile_hard_delete in
  let reg2 := (register dj b (register dj a registry_init).1).1 in
  let reg3 := (unregister dj (label a) reg2).1 in
  get_for_model "City" reg2 = Ok b /\
  (unregister dj (label a) reg2).2 = Ok tt /\
  registry_get (label b) reg3 = Ok b /\
  registry_get (label a) reg3 =
    Raise (ProfileNotFoundError ("Merge profile '" +:+ label a +:+ "' is not registered")) /\
  get_for_model "City" reg3 =
    Raise (ProfileNotFoundError ("No merge profile registered for model " +:+ "City")).
Proof.
  apply (unregister_drops_shared_model_entry Cities.django Cities.profile
           Cities.profile_hard_delete "City" registry_init).
  - discriminate.
  - discriminate.
  - discriminate.
  - reflexivity.
  - reflexivity.
Defined.

(** ** Validation *)

(** C2: when the target or the donor is not an instance of the profile's
    model class, [merge] raises [MergeValidationError] and leaves the world
    as it found it: the store is unchanged, the log of write operations has
    no new entry (no transaction was entered), the audit table has no new
    record, and no [MergeResult] was constructed. *)
Theorem merge_rejects_wrong_type (dj : Django) (cfg : Settings) (self : MergeProfile)
    (user : option value) (dry_run : option bool)
    (field_overrides : option (gmap string value))
    (extra_summary : option (pydict value)) (context : option Context)
    (w : World) (model_class : ModelClass) :
  get_model_class dj self = Ok model_class ->
  isinstance (w_target w) model_class = false \/
    isinstance (w_donor w) model_class = false ->
  exists msg,
    merge dj cfg self user dry_run field_overrides extra_summary context w
      = (w, Raised (MergeValidationError msg) None).
Proof.
  intros Hcls Hbad. unfold merge, _validate_instances. rewrite Hcls.
  destruct (isinstance (w_target w) model_class) eqn:Ht; simpl.
  - destruct Hbad as [Hbad | Hbad]; [discriminate|]. rewrite Hbad. simpl. eauto.
  - eauto.
Qed.

Lemma merge_rejects_wrong_type_witness :
  exists msg,
    merge Cities.django Cities.settings Cities.profile None None None None None
      (set_target Cities.not_a_city Cities.world)
      = (set_target Cities.not_a_city Cities.world,
         Raised (MergeValidationError msg) None).
Proof.
  apply (merge_rejects_wrong_type Cities.django Cities.settings Cities.profile
           None None None None None (set_target Cities.not_a_city Cities.world) "City").
  - reflexivity.
  - left. vm_compute. reflexivity.
Defined.

(** ** Failure handling *)

Lemma _write_audit_disabled (cfg : Settings) (user : option value)
    (extra_summary : option (pydict value)) (s : ExecState) :
  AUDIT_MODEL cfg = None ->
  _write_audit cfg user extra_summary s = (s, Ok tt).
Proof. intros H. unfold _write_audit. by rewrite H. Qed.

Lemma _write_audit_enabled (cfg : Settings) (am : AuditModel) (user : option value)
    (extra_summary : option (pydict value)) (s : ExecState) :
  AUDIT_MODEL cfg = Some am ->
  _write_audit cfg user extra_summary s =
    let kw := audit_kwargs_of cfg am user extra_summary s in
    match am_create am kw with
    | Some e => (s, Raise e)
    | None =>
        ({| es_world := log_events [EvAuditCreate] (add_audit kw (es_world s));
            es_result := set_audit_record kw (es_result s) |}, Ok tt)
    end.
Proof.
  intros H. unfold _write_audit. rewrite H.
  unfold bind, gets, audit_kwargs_of. simpl.
  destruct (am_create am _); reflexivity.
Qed.




(** ** Field reconciliation *)

Section FieldReconciliation.

Context (dj : Django) (cfg : Settings).
Implicit Types (items : pydict FieldMergeRule) (w : World) (x t : Instance).
Implicit Types (ov : gmap string value) (ctx : Context).
Implicit Types (ch : pydict ChangeEntry) (up : list string).

Lemma set_target_same w : set_target (w_target w) w = w.
Proof. by destruct w. Qed.

Lemma field_loop_cons f rule items ov dry ctx ch up w :
  field_loop dj cfg ((f, rule) :: items) ov dry ctx ch up w =
    match field_step dj cfg (w_target w) (w_donor w) ov ctx f rule with
    | Raise e => (w, Raise e)
    | Ok None => field_loop dj cfg items ov dry ctx ch up w
    | Ok (Some change) =>
        if dry then
          field_loop dj cfg items ov dry ctx (dict_set f change.2 ch) up w
        else
          field_loop dj cfg items ov dry ctx (dict_set f change.2 ch) (up ++ [f])
            (set_target (setattr (w_target w) f change.1) w)
    end.
Proof.
  simpl. unfold bind, gets, lift_result, field_step.
  destruct (getattr (w_target w) f) as [tv|e]; [|reflexivity].
  destruct (getattr (w_donor w) f) as [dv|e]; [|reflexivity].
  destruct (resolve_new_value dj cfg f rule tv dv ov ctx) as [[nv src]|e];
    [|reflexivity].
  simpl. destruct (py_eq nv tv); simpl; [reflexivity|].
  destruct dry; reflexivity.
Qed.

Lemma field_step_attr x t donor ov ctx f rule :
  inst_attrs x !! f = inst_attrs t !! f ->
  field_step dj cfg x donor ov ctx f rule = field_step dj cfg t donor ov ctx f rule.
Proof. intros H. unfold field_step, getattr. by rewrite H. Qed.

Lemma plan_fields_attrs items x t donor ov ctx :
  (forall g, g ∈ items.*1 -> inst_attrs x !! g = inst_attrs t !! g) ->
  plan_fields dj cfg items x donor ov ctx = plan_fields dj cfg items t donor ov ctx.
Proof.
  induction items as [|[f rule] items IH]; intros H; [reflexivity|].
  simpl. rewrite (field_step_attr x t) by (apply H; simpl; left).
  rewrite IH; [reflexivity|]. intros g Hg. apply H. simpl. by right.
Qed.

(** In a dry run the loop leaves the world alone and stages nothing. *)
Lemma field_loop_dry items ov ctx ch up w :
  field_loop dj cfg items ov true ctx ch up w =
    (w, match plan_fields dj cfg items (w_target w) (w_donor w) ov ctx with
        | Ok plan => Ok (record_changes plan ch, up)
        | Raise e => Raise e
        end).
Proof.
  revert ch. induction items as [|[f rule] items IH]; intros ch; [reflexivity|].
  rewrite field_loop_cons. simpl.
  destruct (field_step dj cfg (w_target w) (w_donor w) ov ctx f rule)
    as [[change|]|e]; [| |reflexivity].
  - rewrite IH. by destruct (plan_fields _ _ _ _ _ _ _).
  - rewrite IH. by destruct (plan_fields _ _ _ _ _ _ _).
Qed.

Lemma setattr_other x f v g :
  g <> f -> inst_attrs (setattr x f v) !! g = inst_attrs x !! g.
Proof. intros H. simpl. by rewrite lookup_insert_ne. Qed.

(** Outside a dry run the loop assigns the planned values to the target
    object, stages their names, and touches nothing else. *)
Lemma field_loop_real items ov ctx ch up w :
  NoDup items.*1 ->
  match plan_fields dj cfg items (w_target w) (w_donor w) ov ctx with
  | Ok plan =>
      field_loop dj cfg items ov false ctx ch up w =
        (set_target (assign_all plan (w_target w)) w,
         Ok (record_changes plan ch, up ++ plan.*1))
  | Raise e =>
      exists t,
        field_loop dj cfg items ov false ctx ch up w = (set_target t w, Raise e)
  end.
Proof.
  revert ch up w. induction items as [|[f rule] items IH]; intros ch up w Hnd.
  - simpl. unfold ret. by rewrite app_nil_r, set_target_same.
  - apply NoDup_cons in Hnd as [Hf Hnd]. rewrite field_loop_cons. simpl.
    destruct (field_step dj cfg (w_target w) (w_donor w) ov ctx f rule)
      as [[change|]|e].
    + specialize (IH (dict_set f change.2 ch) (up ++ [f])
                     (set_target (setattr (w_target w) f change.1) w) Hnd).
      simpl in IH.
      rewrite (plan_fields_attrs items (setattr (w_target w) f change.1) (w_target w))
        in IH.
      2:{ intros g Hg. apply setattr_other. intros ->. by apply Hf. }
      destruct (plan_fields dj cfg items (w_target w) (w_donor w) ov ctx) as [plan|e].
      * rewrite IH. simpl. by rewrite <- app_assoc.
      * destruct IH as [t IH]. exists t. by rewrite IH.
    + specialize (IH ch up w Hnd).
      destruct (plan_fields dj cfg items (w_target w) (w_donor w) ov ctx) as [plan|e].
      * by rewrite IH.
      * exact IH.
    + exists (w_target w). by rewrite set_target_same.
Qed.

End FieldReconciliation.

(** ** Dictionaries *)

Section Dict.

Context {V : Type}.
Implicit Types (d : pydict V) (k : string) (v : V).

Lemma dict_get_not_in k d : k ∉ d.*1 -> dict_get k d = None.
Proof.
  induction d as [|[k' v'] d IH]; simpl; [done|].
  intros [Hne Hd]%not_elem_of_cons. by rewrite decide_False, IH.
Qed.

Lemma dict_get_set_eq k v d : dict_get k (dict_set k v d) = Some v.
Proof.
  induction d as [|[k' v'] d IH]; simpl.
  - by rewrite decide_True.
  - destruct (decide (k = k')); simpl.
    + by rewrite decide_True.
    + by rewrite decide_False.
Qed.

Lemma dict_get_set_ne k k' v d :
  k <> k' -> dict_get k' (dict_set k v d) = dict_get k' d.
Proof.
  intros Hne. induction d as [|[k0 v0] d IH]; simpl.
  - by rewrite decide_False.
  - destruct (decide (k = k0)) as [->|]; simpl.
    + by rewrite !decide_False.
    + destruct (decide (k' = k0)); [done|exact IH].
Qed.

Lemma dict_set_fresh k v d : k ∉ d.*1 -> dict_set k v d = d ++ [(k, v)].
Proof.
  induction d as [|[k' v'] d IH]; simpl; [done|].
  intros [Hne Hd]%not_elem_of_cons. by rewrite decide_False, IH.
Qed.

Lemma dict_set_keys_in k v d : k ∈ d.*1 -> (dict_set k v d).*1 = d.*1.
Proof.
  induction d as [|[k' v'] d IH]; simpl.
  - by intros ?%elem_of_nil.
  - intros Hin. destruct (decide (k = k')) as [->|Hne]; simpl; [done|].
    apply elem_of_cons in Hin as [?|Hin]; [done|]. f_equal. by apply IH.
Qed.

(** Assignment keeps the keys of a dictionary unique. *)
Lemma dict_set_NoDup k v d : NoDup d.*1 -> NoDup (dict_set k v d).*1.
Proof.
  intros Hnd. destruct (decide (k ∈ d.*1)) as [Hin|Hout].
  - by rewrite dict_set_keys_in.
  - rewrite dict_set_fresh, fmap_app by done. simpl.
    apply NoDup_app. split; [done|]. split.
    + by intros x Hx ->%list_elem_of_singleton.
    + apply NoDup_singleton.
Qed.

Lemma dict_get_in k d : k ∈ d.*1 -> is_Some (dict_get k d).
Proof.
  induction d as [|[k' v'] d IH]; simpl.
  - by intros ?%elem_of_nil.
  - intros [->|Hin]%elem_of_cons.
    + rewrite decide_True by done. eauto.
    + destruct (decide (k = k')); [eauto|by apply IH].
Qed.

Lemma dict_get_Some_in k v d : dict_get k d = Some v -> k ∈ d.*1.
Proof.
  destruct (decide (k ∈ d.*1)) as [|Hn]; [done|].
  by rewrite (dict_get_not_in k d Hn).
Qed.

End Dict.

Section FieldFacts.

Context (dj : Django) (cfg : Settings).
Implicit Types (items : pydict FieldMergeRule) (w : World) (x t : Instance).
Implicit Types (ov : gmap string value) (ctx : Context).
Implicit Types (plan : pydict (value * ChangeEntry)) (ch : pydict ChangeEntry).

Lemma entries_of_keys plan : (entries_of plan).*1 = plan.*1.
Proof. unfold entries_of. rewrite <- list_fmap_compose. by apply list_fmap_ext. Qed.

Lemma record_changes_fresh plan ch :
  NoDup plan.*1 ->
  (forall k, k ∈ plan.*1 -> k ∉ ch.*1) ->
  record_changes plan ch = ch ++ entries_of plan.
Proof.
  revert ch. induction plan as [|[k c] plan IH]; intros ch Hnd Hfresh.
  - simpl. by rewrite app_nil_r.
  - apply NoDup_cons in Hnd as [Hk Hnd].
    unfold record_changes. simpl. fold (record_changes plan (dict_set k c.2 ch)).
    rewrite dict_set_fresh by (apply Hfresh; left).
    rewrite IH; [by rewrite <- app_assoc|done|].
    intros k' Hk'. rewrite fmap_app. simpl.
    intros [Hin | ->%list_elem_of_singleton]%elem_of_app; [|done].
    eapply Hfresh; [|exact Hin]. by right.
Qed.

Lemma record_changes_nil plan :
  NoDup plan.*1 -> record_changes plan [] = entries_of plan.
Proof.
  intros Hnd. rewrite record_changes_fresh; [done|done|].
  intros k _ Hk. by apply elem_of_nil in Hk.
Qed.

Lemma dict_get_entries f plan :
  dict_get f (entries_of plan) = snd <$> dict_get f plan.
Proof.
  induction plan as [|[k c] plan IH]; simpl; [done|].
  destruct (decide (f = k)); [done|exact IH].
Qed.

Lemma assign_all_frame plan x :
  inst_class (assign_all plan x) = inst_class x /\
  inst_bases (assign_all plan x) = inst_bases x /\
  inst_meta (assign_all plan x) = inst_meta x /\
  inst_pk (assign_all plan x) = inst_pk x.
Proof.
  revert x. induction plan as [|[k c] plan IH]; intros x; [done|].
  unfold assign_all. simpl. fold (assign_all plan (setattr x k c.1)).
  destruct (IH (setattr x k c.1)) as (-> & -> & -> & ->). done.
Qed.

Lemma assign_all_attrs plan x g :
  NoDup plan.*1 ->
  inst_attrs (assign_all plan x) !! g =
    match dict_get g plan with
    | Some c => Some c.1
    | None => inst_attrs x !! g
    end.
Proof.
  revert x. induction plan as [|[k c] plan IH]; intros x Hnd; [done|].
  apply NoDup_cons in Hnd as [Hk Hnd].
  unfold assign_all. simpl. fold (assign_all plan (setattr x k c.1)).
  rewrite IH by done. destruct (decide (g = k)) as [->|Hne].
  - rewrite dict_get_not_in by done. simpl. by rewrite lookup_insert_eq.
  - destruct (dict_get g plan); [done|]. by apply setattr_other.
Qed.

Lemma write_fields_other (attrs row : gmap string value) (fs : list string) g :
  g ∉ fs -> write_fields attrs fs row !! g = row !! g.
Proof.
  revert row. induction fs as [|f fs IH]; intros row Hg; [done|].
  apply not_elem_of_cons in Hg as [Hne Hg].
  unfold write_fields. simpl.
  fold (write_fields attrs fs (match attrs !! f with Some v => <[f:=v]> row | None => row end)).
  rewrite IH by done. destruct (attrs !! f); [|done]. by rewrite lookup_insert_ne.
Qed.

Lemma write_fields_in (attrs row : gmap string value) (fs : list string) g v :
  attrs !! g = Some v ->
  g ∈ fs \/ row !! g = Some v ->
  write_fields attrs fs row !! g = Some v.
Proof.
  intros Hv. revert row. induction fs as [|f fs IH]; intros row Hg.
  - destruct Hg as [Hg|Hg]; [by apply elem_of_nil in Hg|done].
  - unfold write_fields. simpl.
    fold (write_fields attrs fs (match attrs !! f with Some v => <[f:=v]> row | None => row end)).
    apply IH. destruct (decide (g = f)) as [->|Hne].
    + right. rewrite Hv. by rewrite lookup_insert_eq.
    + destruct Hg as [[?|Hg]%elem_of_cons|Hg]; [done|by left|].
      right. destruct (attrs !! f); [|done]. by rewrite lookup_insert_ne.
Qed.

Lemma plan_fields_sublist items x donor ov ctx plan :
  plan_fields dj cfg items x donor ov ctx = Ok plan ->
  plan.*1 `sublist_of` items.*1.
Proof.
  revert plan. induction items as [|[f rule] items IH]; intros plan; simpl.
  - intros [= <-]. constructor.
  - destruct (field_step _ _ _ _ _ _ _ _) as [step|]; [|discriminate].
    destruct (plan_fields _ _ _ _ _ _ _) as [plan'|]; [|discriminate].
    intros [= <-]. specialize (IH plan' eq_refl).
    destruct step; simpl; by constructor.
Qed.

Lemma plan_fields_NoDup items x donor ov ctx plan :
  NoDup items.*1 ->
  plan_fields dj cfg items x donor ov ctx = Ok plan ->
  NoDup plan.*1.
Proof.
  intros Hnd Hp. eapply sublist_NoDup; [exact Hnd|].
  by eapply plan_fields_sublist.
Qed.

(** What the plan holds for a field of the profile is what [field_step]
    decides for it. *)
Lemma plan_fields_lookup items x donor ov ctx plan f rule :
  NoDup items.*1 ->
  plan_fields dj cfg items x donor ov ctx = Ok plan ->
  (f, rule) ∈ items ->
  exists step,
    field_step dj cfg x donor ov ctx f rule = Ok step /\ dict_get f plan = step.
Proof.
  revert plan. induction items as [|[k r] items IH]; intros plan Hnd Hp Hin.
  - by apply elem_of_nil in Hin.
  - apply NoDup_cons in Hnd as [Hk Hnd]. simpl in Hp.
    destruct (field_step dj cfg x donor ov ctx k r) as [step|] eqn:Hs; [|discriminate].
    destruct (plan_fields dj cfg items x donor ov ctx) as [plan'|] eqn:Hp'; [|discriminate].
    injection Hp as <-.
    apply elem_of_cons in Hin as [[= -> ->]|Hin].
    + exists step. split; [done|]. destruct step as [c|]; simpl.
      * by rewrite decide_True.
      * apply dict_get_not_in. intros Hf. apply Hk.
        eapply sublist_subseteq; [by eapply plan_fields_sublist|done].
    + destruct (IH plan' Hnd eq_refl Hin) as (s & Hs' & Hg).
      exists s. split; [done|].
      assert (f <> k).
      { intros ->. apply Hk. by apply (list_elem_of_fmap_2 fst _ (k, rule)). }
      destruct step; simpl; [by rewrite decide_False|done].
Qed.

End FieldFacts.

Section ApplyFieldUpdates.

Context (dj : Django) (cfg : Settings) (self : MergeProfile).
Implicit Types (w : World) (ov : gmap string value) (ctx : Context).

(** A dry run of field reconciliation returns the planned entries and leaves
    the world exactly as it was. *)
Lemma _apply_field_updates_dry ov ctx w :
  _apply_field_updates dj cfg self ov true ctx w =
    (w, match plan_fields dj cfg (fields self) (w_target w) (w_donor w) ov ctx with
        | Ok plan => Ok (record_changes plan [])
        | Raise e => Raise e
        end).
Proof.
  unfold _apply_field_updates, bind. rewrite field_loop_dry.
  by destruct (plan_fields _ _ _ _ _ _ _).
Qed.

(** A real run assigns the planned values to the target object and, when the
    plan is not empty, saves exactly the planned fields. *)
Lemma _apply_field_updates_real ov ctx w plan :
  NoDup (fields self).*1 ->
  plan_fields dj cfg (fields self) (w_target w) (w_donor w) ov ctx = Ok plan ->
  _apply_field_updates dj cfg self ov false ctx w =
    let t' := assign_all plan (w_target w) in
    match plan with
    | [] => (w, Ok [])
    | _ :: _ =>
        match inst_pk (w_target w) with
        | None =>
            (set_target t' w,
             Raise (ValueError "Cannot force an update in save() with no primary key."))
        | Some pk =>
            let logged :=
              log_events [EvSave (inst_class (w_target w)) pk plan.*1] (set_target t' w) in
            match db_rows (w_db w) !! (inst_class (w_target w), pk) with
            | None =>
                (logged,
                 Raise (DatabaseError "Save with update_fields did not affect any rows."))
            | Some row =>
                (set_db (set_rows (w_db w)
                           (<[(inst_class (w_target w), pk) :=
                                write_fields (inst_attrs t') plan.*1 row]>
                              (db_rows (w_db w)))) logged,
                 Ok (entries_of plan))
            end
        end
    end.
Proof.
  intros Hnd Hplan.
  pose proof (field_loop_real dj cfg (fields self) ov ctx [] [] w Hnd) as Hloop.
  rewrite Hplan in Hloop.
  pose proof (plan_fields_NoDup dj cfg _ _ _ _ _ _ Hnd Hplan) as Hpnd.
  unfold _apply_field_updates, bind. rewrite Hloop.
  rewrite record_changes_nil by done. rewrite app_nil_l. cbv zeta.
  destruct plan as [|c plan].
  - simpl. unfold ret. by rewrite set_target_same.
  - assert (Hne : bool_decide ((c :: plan).*1 = []) = false) by done.
    cbn [fst snd negb andb]. rewrite Hne. cbn [negb].
    destruct (assign_all_frame (c :: plan) (w_target w)) as (Hc & _ & _ & Hpk).
    set (t' := assign_all (c :: plan) (w_target w)) in *.
    set (keys := (c :: plan).*1) in *.
    set (entries := entries_of (c :: plan)) in *.
    clearbody t' keys entries.
    unfold gets, save. cbn [w_target set_target]. rewrite Hpk, Hc.
    destruct (inst_pk (w_target w)) as [pk|]; [|reflexivity].
    unfold bind, modify, gets. cbn [w_db log_events set_target].
    destruct (db_rows (w_db w) !! (inst_class (w_target w), pk)); reflexivity.
Qed.

Lemma _apply_field_updates_real_raise ov ctx w e :
  NoDup (fields self).*1 ->
  plan_fields dj cfg (fields self) (w_target w) (w_donor w) ov ctx = Raise e ->
  exists t, _apply_field_updates dj cfg self ov false ctx w = (set_target t w, Raise e).
Proof.
  intros Hnd Hplan.
  pose proof (field_loop_real dj cfg (fields self) ov ctx [] [] w Hnd) as Hloop.
  rewrite Hplan in Hloop. destruct Hloop as [t Hloop].
  exists t. unfold _apply_field_updates, bind. by rewrite Hloop.
Qed.

End ApplyFieldUpdates.

Section FieldTheorems.

Context (dj : Django) (cfg : Settings).
Implicit Types (self : MergeProfile) (w : World) (ov : gmap string value).
Implicit Types (ctx : Context) (f g : string) (rule : FieldMergeRule).

Lemma field_step_Some_iff t d ov ctx f rule :
  (exists c, field_step dj cfg t d ov ctx f rule = Ok (Some c)) <->
  reconciled_differs dj cfg t d ov ctx f rule.
Proof.
  unfold field_step, reconciled_differs. split.
  - intros [c Hc].
    destruct (getattr t f) as [tv|]; [|discriminate].
    destruct (getattr d f) as [dv|]; [|discriminate].
    destruct (resolve_new_value _ _ _ _ _ _ _ _) as [chosen|] eqn:Hr; [|discriminate].
    destruct (py_eq chosen.1 tv) eqn:Heq; [discriminate|].
    by exists tv, dv, chosen.
  - intros (tv & dv & chosen & -> & -> & -> & ->). eauto.
Qed.

Lemma field_step_override t d ov ctx f rule v :
  ov !! f = Some v ->
  field_step dj cfg t d ov ctx f rule =
    match getattr t f with
    | Raise e => Raise e
    | Ok tv =>
        match getattr d f with
        | Raise e => Raise e
        | Ok dv =>
            if py_eq v tv then Ok None
            else Ok (Some (v, {| ch_from := _serialize_value tv;
                                 ch_to := _serialize_value v;
                                 ch_source := "override";
                                 ch_donor := _serialize_value dv |}))
        end
    end.
Proof. intros Hov. unfold field_step, resolve_new_value. by rewrite Hov. Qed.


End FieldTheorems.


Section OverrideTheorems.

Context (dj : Django) (cfg : Settings).
Implicit Types (self : MergeProfile) (w : World) (ov : gmap string value).
Implicit Types (ctx : Context) (f g : string) (rule : FieldMergeRule).

Lemma field_loop_rule_irrelevant f rule' items ov dry ctx ch up w v :
  ov !! f = Some v ->
  field_loop dj cfg (with_rule f rule' items) ov dry ctx ch up w =
  field_loop dj cfg items ov dry ctx ch up w.
Proof.
  intros Hov. revert ch up w.
  induction items as [|[k r] items IH]; intros ch up w; [reflexivity|].
  unfold with_rule. rewrite fmap_cons. fold (with_rule f rule' items).
  cbn [fst]. destruct (decide (k = f)) as [->|Hne].
  - rewrite !field_loop_cons.
    rewrite (field_step_override dj cfg _ _ ov ctx f rule' v Hov).
    rewrite (field_step_override dj cfg _ _ ov ctx f r v Hov).
    destruct (getattr (w_target w) f); [|reflexivity].
    destruct (getattr (w_donor w) f); [|reflexivity].
    destruct (py_eq v a); [apply IH|].
    destruct dry; apply IH.
  - rewrite !field_loop_cons.
    destruct (field_step dj cfg (w_target w) (w_donor w) ov ctx k r) as [[c|]|e];
      [|apply IH|reflexivity].
    destruct dry; apply IH.
Qed.

(** C4: a field of the profile for which [field_overrides] has a value.
    The field's rule plays no part in the outcome: with any other rule in
    its place (one that forbids overrides, one whose strategy cannot be
    resolved), field reconciliation does exactly the same.  When it
    succeeds, the field's change entry is there exactly when the override
    differs from the target's current value; it then records the override
    as the new value with source "override", and outside a dry run the
    target holds the override. *)
Theorem override_wins_over_strategy self ov dry ctx w f rule v :
  NoDup (fields self).*1 ->
  (f, rule) ∈ fields self ->
  ov !! f = Some v ->
  (forall self' rule',
     fields self' = with_rule f rule' (fields self) ->
     _apply_field_updates dj cfg self' ov dry ctx w =
     _apply_field_updates dj cfg self ov dry ctx w) /\
  (forall w' changes,
     _apply_field_updates dj cfg self ov dry ctx w = (w', Ok changes) ->
     exists tv dv,
       getattr (w_target w) f = Ok tv /\
       getattr (w_donor w) f = Ok dv /\
       dict_get f changes =
         (if py_eq v tv then None
          else Some {| ch_from := _serialize_value tv;
                       ch_to := _serialize_value v;
                       ch_source := "override";
                       ch_donor := _serialize_value dv |}) /\
       (dry = false -> py_eq v tv = false ->
        inst_attrs (w_target w') !! f = Some v)).
Proof.
  intros Hnd Hin Hov. split.
  { intros self' rule' Hfields. unfold _apply_field_updates. rewrite Hfields.
    unfold bind. by rewrite (field_loop_rule_irrelevant f rule' _ ov dry ctx [] [] w v). }
  intros w' changes Hrun.
  destruct (plan_fields dj cfg (fields self) (w_target w) (w_donor w) ov ctx)
    as [plan|e] eqn:Hplan.
  2:{ destruct dry.
      - rewrite _apply_field_updates_dry, Hplan in Hrun. congruence.
      - destruct (_apply_field_updates_real_raise dj cfg self ov ctx w e Hnd Hplan)
          as [x Hx]. congruence. }
  pose proof (plan_fields_NoDup dj cfg _ _ _ _ _ _ Hnd Hplan) as Hpnd.
  destruct (plan_fields_lookup dj cfg _ _ _ _ _ _ f rule Hnd Hplan Hin)
    as (step & Hstep & Hget).
  rewrite (field_step_override dj cfg _ _ ov ctx f rule v Hov) in Hstep.
  destruct (getattr (w_target w) f) as [tv|]; [|discriminate].
  destruct (getattr (w_donor w) f) as [dv|]; [|discriminate].
  exists tv, dv. split; [done|]. split; [done|].
  assert (Hentry : dict_get f (entries_of plan) =
            (if py_eq v tv then None
             else Some {| ch_from := _serialize_value tv;
                          ch_to := _serialize_value v;
                          ch_source := "override";
                          ch_donor := _serialize_value dv |})).
  { rewrite dict_get_entries, Hget. destruct (py_eq v tv); by injection Hstep as <-. }
  destruct dry.
  - rewrite _apply_field_updates_dry, Hplan in Hrun. injection Hrun as <- <-.
    rewrite record_changes_nil by done. split; [done|]. discriminate.
  - rewrite (_apply_field_updates_real dj cfg self ov ctx w plan Hnd Hplan) in Hrun.
    cbv zeta in Hrun. destruct plan as [|c plan].
    + injection Hrun as <- <-. split; [done|]. intros _ Hne.
      rewrite Hne in Hstep. injection Hstep as <-. discriminate.
    + destruct (inst_pk (w_target w)) as [pk|]; [|discriminate].
      destruct (db_rows (w_db w) !! (inst_class (w_target w), pk)); [|discriminate].
      injection Hrun as <- <-. split; [done|]. intros _ Hne.
      cbn [w_target set_db log_events set_target].
      change (assign_all plan (setattr (w_target w) c.1 c.2.1))
        with (assign_all (c :: plan) (w_target w)).
      rewrite assign_all_attrs by done. rewrite Hget.
      rewrite Hne in Hstep. by injection Hstep as <-.
Qed.

End OverrideTheorems.

Lemma override_wins_over_strategy_witness :
  let ov : gmap string value := <["name" := VStr "Merged City"]> ∅ in
  let ctx := base_context_of Cities.profile false None in
  let run := _apply_field_updates Cities.django Cities.settings Cities.profile
               ov false ctx Cities.world in
  NoDup (fields Cities.profile).*1 /\
  ("name", Cities.rule "prefer_target") ∈ fields Cities.profile /\
  ov !! "name" = Some (VStr "Merged City") /\
  exists changes,
    run.2 = Ok changes /\
    dict_get "name" changes =
      Some {| ch_from := VStr "Target"; ch_to := VStr "Merged City";
              ch_source := "override"; ch_donor := VStr "Donor" |} /\
    inst_attrs (w_target run.1) !! "name" = Some (VStr "Merged City").
Proof.
  intros ov ctx run.
  assert (Hnd : NoDup (fields Cities.profile).*1).
  { apply (bool_decide_unpack _). vm_compute. exact I. }
  assert (Hin : ("name", Cities.rule "prefer_target") ∈ fields Cities.profile)
    by (simpl; left).
  assert (Hov : ov !! "name" = Some (VStr "Merged City")) by reflexivity.
  split; [exact Hnd|]. split; [exact Hin|]. split; [exact Hov|].
  destruct (override_wins_over_strategy Cities.django Cities.settings Cities.profile
              ov false ctx Cities.world "name" (Cities.rule "prefer_target")
              (VStr "Merged City") Hnd Hin Hov) as [_ Hentry].
  destruct run as [w' [changes|e]] eqn:Hrun; [|vm_compute in Hrun; discriminate].
  destruct (Hentry w' changes Hrun) as (tv & dv & Htv & Hdv & Hget & Hattr).
  injection Htv as <-. injection Hdv as <-.
  exists changes. split; [reflexivity|]. split; [exact Hget|].
  apply Hattr; reflexivity.
Defined.

(** ** Relationship transfer *)

Section RelationLoops.

Implicit Types (w : World) (ri : pydict RelationInfo) (P : gset string).

Lemma transfer_m2m_dry name type_ related through reverse ri w :
  transfer_m2m name type_ related through reverse true ri w =
    (w, survey_m2m name type_ related through reverse
          (w_target w) (w_donor w) (w_db w) ri).
Proof.
  unfold transfer_m2m, survey_m2m, bind, gets, lift_result.
  destruct (manager_pk (w_donor w)); [|reflexivity].
  destruct (manager_pk (w_target w)); reflexivity.
Qed.

Lemma transfer_one_to_many_dry relation ri w :
  transfer_one_to_many relation true ri w =
    (w, survey_one_to_many relation (w_donor w) (w_db w) ri).
Proof.
  unfold transfer_one_to_many, survey_one_to_many, bind, gets, lift_result.
  destruct (manager_pk (w_donor w)); reflexivity.
Qed.

Lemma forward_loop_dry fields ri P w :
  forward_loop fields true ri P w =
    (w, survey_forward fields (w_target w) (w_donor w) (w_db w) ri P).
Proof.
  revert ri P. induction fields as [|field fields IH]; intros ri P; [reflexivity|].
  simpl. unfold bind. rewrite transfer_m2m_dry.
  destruct (survey_m2m _ _ _ _ _ _ _ _ _); [apply IH|reflexivity].
Qed.

Lemma reverse_loop_cons relation relations dry ri P w :
  reverse_loop (relation :: relations) dry ri P w =
    if is_reverse_m2m relation then
      if bool_decide (rel_through relation ∈ P) then reverse_loop relations dry ri P w
      else
        (let! ri' := transfer_m2m (rel_accessor relation) "many_to_many_reverse"
                       (rel_related_label relation) (rel_through relation) true dry ri in
         reverse_loop relations dry ri' ({[rel_through relation]} ∪ P)) w
    else if is_reverse_fk relation then
      (let! ri' := transfer_one_to_many relation dry ri in
       reverse_loop relations dry ri' P) w
    else reverse_loop relations dry ri P w.
Proof.
  unfold is_reverse_m2m, is_reverse_fk. simpl.
  destruct (rel_auto_created relation), (rel_concrete relation),
    (rel_many_to_many relation); simpl; try reflexivity.
  - by case_bool_decide.
  - by destruct (rel_one_to_many relation && rel_has_field relation).
Qed.

Lemma reverse_loop_dry relations ri P w :
  reverse_loop relations true ri P w =
    (w, survey_reverse relations (w_target w) (w_donor w) (w_db w) ri P).
Proof.
  revert ri P. induction relations as [|relation relations IH]; intros ri P;
    [reflexivity|].
  rewrite reverse_loop_cons. simpl.
  destruct (is_reverse_m2m relation).
  - case_bool_decide; [apply IH|].
    unfold bind. rewrite transfer_m2m_dry.
    destruct (survey_m2m _ _ _ _ _ _ _ _ _); [apply IH|reflexivity].
  - destruct (is_reverse_fk relation); [|apply IH].
    unfold bind. rewrite transfer_one_to_many_dry.
    destruct (survey_one_to_many _ _ _ _); [apply IH|reflexivity].
Qed.

(** A dry run of relationship transfer counts and changes nothing. *)
Lemma _transfer_relations_dry w :
  _transfer_relations true w =
    (w, survey_relations (w_target w) (w_donor w) (w_db w)).
Proof.
  unfold _transfer_relations, transfer_by_meta, survey_relations, survey_by_meta,
    bind, gets.
  rewrite forward_loop_dry.
  destruct (survey_forward _ _ _ _ _ _) as [[ri P]|]; [|reflexivity].
  apply reverse_loop_dry.
Qed.

End RelationLoops.

Section RelationEffects.

Implicit Types (w : World) (ri : pydict RelationInfo) (P : gset string).
Implicit Types (db : DB) (T : string).

Lemma links_of_set_links db T T' ls :
  links_of (set_links db T ls) T' = if decide (T = T') then ls else links_of db T'.
Proof.
  unfold links_of, set_links. simpl. destruct (decide (T = T')) as [->|Hne].
  - by rewrite lookup_insert_eq.
  - by rewrite lookup_insert_ne.
Qed.

Lemma refs_of_set_refs db c k c' k' rs :
  refs_of (set_refs db c k rs) c' k' =
    if decide ((c, k) = (c', k')) then rs else refs_of db c' k'.
Proof.
  unfold refs_of, set_refs. simpl. destruct (decide ((c, k) = (c', k'))) as [Heq|Hne].
  - injection Heq as -> ->. by rewrite lookup_insert_eq.
  - by rewrite lookup_insert_ne.
Qed.

Lemma same_entities_refl w : same_entities w w.
Proof. by repeat split. Qed.

Lemma same_entities_trans w1 w2 w3 :
  same_entities w1 w2 -> same_entities w2 w3 -> same_entities w1 w3.
Proof. intros (?&?&?&?) (?&?&?&?). repeat split; congruence. Qed.

(** One many-to-many relation, in either mode: the entry recorded is the one
    counting gives on the state before; only the join table of the relation
    can change, and the write operations are one add and one remove on it,
    or none. *)
Lemma transfer_m2m_effect name type_ related T reverse dry ri w w' res :
  transfer_m2m name type_ related T reverse dry ri w = (w', res) ->
  res = survey_m2m name type_ related T reverse (w_target w) (w_donor w) (w_db w) ri /\
  same_entities w w' /\
  (forall T', T' <> T -> links_of (w_db w') T' = links_of (w_db w) T') /\
  (forall c k, refs_of (w_db w') c k = refs_of (w_db w) c k) /\
  (dry = true -> w' = w) /\
  exists evs,
    w_log w' = w_log w ++ evs /\
    (evs = [] \/
     exists tpk dpk pks,
       evs = [EvM2MAdd T reverse tpk pks; EvM2MRemove T reverse dpk pks]).
Proof.
  unfold transfer_m2m, survey_m2m, bind, gets, lift_result.
  destruct (manager_pk (w_donor w)) as [dpk|e].
  2:{ intros [= <- <-]. repeat split; try done. exists []. split; [by rewrite app_nil_r|by left]. }
  destruct (manager_pk (w_target w)) as [tpk|e].
  2:{ intros [= <- <-]. repeat split; try done. exists []. split; [by rewrite app_nil_r|by left]. }
  destruct (negb dry && negb (bool_decide (related_pks reverse dpk (links_of (w_db w) T) = [])))
    eqn:Hmove.
  - unfold m2m_move, bind, modify, ret. intros [= <- <-].
    apply andb_true_iff in Hmove as [Hdry _]. apply negb_true_iff in Hdry.
    split; [done|]. split; [by repeat split|]. split.
    { intros T' Hne. simpl. rewrite !links_of_set_links.
      by rewrite !decide_False by done. }
    split; [done|]. split; [by rewrite Hdry|].
    eexists. split; [simpl; by rewrite <- app_assoc|]. right. eauto.
  - unfold ret. intros [= <- <-]. repeat split; try done.
    exists []. split; [by rewrite app_nil_r|by left].
Qed.

(** One reverse foreign-key relation: only its own reference column can
    change, by at most one bulk update. *)
Lemma transfer_one_to_many_effect relation dry ri w w' res :
  transfer_one_to_many relation dry ri w = (w', res) ->
  (forall ri', res = Ok ri' ->
     survey_one_to_many relation (w_donor w) (w_db w) ri = Ok ri') /\
  same_entities w w' /\
  (forall T, links_of (w_db w') T = links_of (w_db w) T) /\
  (forall c k, (c, k) <> (rel_related_label relation, rel_field_name relation) ->
     refs_of (w_db w') c k = refs_of (w_db w) c k) /\
  (dry = true -> w' = w) /\
  exists evs,
    w_log w' = w_log w ++ evs /\
    (evs = [] \/ exists c k old_pk new_pk, evs = [EvBulkUpdate c k old_pk new_pk]).
Proof.
  unfold transfer_one_to_many, survey_one_to_many, bind, gets, lift_result.
  destruct (manager_pk (w_donor w)) as [dpk|e].
  2:{ intros [= <- <-]. repeat split; try done. exists []. split; [by rewrite app_nil_r|by left]. }
  destruct (negb dry && negb (bool_decide
              (refs_count dpk (refs_of (w_db w) (rel_related_label relation)
                                 (rel_field_name relation)) = 0%nat))) eqn:Hmove.
  - apply andb_true_iff in Hmove as [Hdry _]. apply negb_true_iff in Hdry.
    unfold bulk_update. destruct (inst_pk (w_target w)) as [tpk|].
    + unfold modify, ret. intros [= <- <-].
      split; [by intros ri' [= <-]|]. split; [by repeat split|]. split; [done|]. split.
      { intros c k Hne. simpl. rewrite refs_of_set_refs. by rewrite decide_False. }
      split; [by rewrite Hdry|]. eexists. split; [reflexivity|]. right. eauto 6.
    + unfold raise. intros [= <- <-]. repeat split; try done.
      exists []. split; [by rewrite app_nil_r|by left].
  - unfold ret. intros [= <- <-]. repeat split; try done.
    exists []. split; [by rewrite app_nil_r|by left].
Qed.

End RelationEffects.

Section RelationInvariants.

Implicit Types (w : World) (ri : pydict RelationInfo) (P : gset string).
Implicit Types (K : gset (string * string)).

Lemma reverse_moves_app evs1 evs2 :
  reverse_moves (evs1 ++ evs2) = reverse_moves evs1 ++ reverse_moves evs2.
Proof. apply omap_app. Qed.

Lemma survey_m2m_keys name type_ related T reverse t d db ri ri' :
  survey_m2m name type_ related T reverse t d db ri = Ok ri' ->
  NoDup ri.*1 -> NoDup ri'.*1.
Proof.
  unfold survey_m2m. destruct (manager_pk d); [|discriminate].
  destruct (manager_pk t); [|discriminate].
  intros [= <-]. apply dict_set_NoDup.
Qed.

Lemma survey_one_to_many_keys relation d db ri ri' :
  survey_one_to_many relation d db ri = Ok ri' ->
  NoDup ri.*1 -> NoDup ri'.*1.
Proof.
  unfold survey_one_to_many. destruct (manager_pk d); [|discriminate].
  intros [= <-]. apply dict_set_NoDup.
Qed.

Lemma forward_loop_effect fields dry ri P w w' res :
  forward_loop fields dry ri P w = (w', res) ->
  same_entities w w' /\
  (forall c k, refs_of (w_db w') c k = refs_of (w_db w) c k) /\
  (exists evs, w_log w' = w_log w ++ evs /\ reverse_moves evs = []) /\
  (forall ri' P', res = Ok (ri', P') ->
     P' = list_to_set (m2m_through <$> fields) ∪ P /\
     (NoDup ri.*1 -> NoDup ri'.*1)).
Proof.
  revert ri P w. induction fields as [|field fields IH]; intros ri P w.
  - simpl. unfold ret. intros [= <- <-].
    split; [apply same_entities_refl|]. split; [done|]. split.
    + exists []. by rewrite app_nil_r.
    + intros ri' P' [= <- <-]. split; [|done].
      simpl. by rewrite (left_id_L ∅ (∪)).
  - simpl. unfold bind.
    destruct (transfer_m2m _ _ _ _ _ _ _ w) as [w1 [ri1|e]] eqn:Hstep.
    + apply transfer_m2m_effect in Hstep
        as (Hres & Hsame & _ & Hrefs & _ & evs & Hlog & Hevs).
      intros Hrest. apply IH in Hrest as (Hsame' & Hrefs' & (evs' & Hlog' & Hrev') & Hok).
      split; [by eapply same_entities_trans|].
      split; [intros c k; by rewrite Hrefs', Hrefs|]. split.
      * exists (evs ++ evs'). split; [by rewrite Hlog', Hlog, app_assoc|].
        rewrite reverse_moves_app, Hrev', app_nil_r.
        destruct Hevs as [->|(tpk & dpk & pks & ->)]; reflexivity.
      * intros ri' P' Hr. destruct (Hok ri' P' Hr) as [-> Hnd].
        split.
        { change (list_fmap M2MField string m2m_through fields)
            with (m2m_through <$> fields).
          rewrite (assoc_L (∪)).
          by rewrite (comm_L (∪) (list_to_set (m2m_through <$> fields))). }
        intros Hri. apply Hnd.
        symmetry in Hres. by eapply survey_m2m_keys.
    + apply transfer_m2m_effect in Hstep
        as (_ & Hsame & _ & Hrefs & _ & evs & Hlog & Hevs).
      intros [= <- <-]. split; [done|]. split; [done|]. split; [|discriminate].
      exists evs. split; [done|].
      destruct Hevs as [->|(tpk & dpk & pks & ->)]; reflexivity.
Qed.

Lemma reverse_loop_effect relations dry ri P w w' res :
  reverse_loop relations dry ri P w = (w', res) ->
  same_entities w w' /\
  (exists evs,
     w_log w' = w_log w ++ evs /\ NoDup (reverse_moves evs) /\
     forall T, T ∈ reverse_moves evs -> T ∉ P) /\
  (forall ri', res = Ok ri' -> NoDup ri.*1 -> NoDup ri'.*1).
Proof.
  revert ri P w. induction relations as [|relation relations IH]; intros ri P w.
  - simpl. unfold ret. intros [= <- <-].
    split; [apply same_entities_refl|]. split.
    + exists []. rewrite app_nil_r. split; [done|]. split; [constructor|].
      intros T HT. by apply elem_of_nil in HT.
    + by intros ri' [= <-].
  - rewrite reverse_loop_cons. destruct (is_reverse_m2m relation).
    + case_bool_decide as Hin; [apply IH|].
      unfold bind.
      destruct (transfer_m2m _ _ _ _ _ _ _ w) as [w1 [ri1|e]] eqn:Hstep.
      * apply transfer_m2m_effect in Hstep
          as (Hres & Hsame & _ & _ & _ & evs & Hlog & Hevs).
        intros Hrest.
        apply IH in Hrest as (Hsame' & (evs' & Hlog' & Hnd' & Hout') & Hok).
        split; [by eapply same_entities_trans|]. split.
        -- exists (evs ++ evs'). split; [by rewrite Hlog', Hlog, app_assoc|].
           rewrite reverse_moves_app.
           destruct Hevs as [->|(tpk & dpk & pks & ->)]; simpl.
           ++ split; [done|]. intros T HT HP. apply (Hout' T HT).
              by apply elem_of_union_r.
           ++ split.
              ** apply NoDup_cons. split; [|done].
                 intros HT. apply (Hout' _ HT).
                 apply elem_of_union_l. by apply elem_of_singleton.
              ** intros T [->|HT]%elem_of_cons; [done|].
                 intros HP. apply (Hout' T HT). by apply elem_of_union_r.
        -- intros ri' Hr Hri. apply (Hok ri' Hr).
           symmetry in Hres. by eapply survey_m2m_keys.
      * apply transfer_m2m_effect in Hstep
          as (_ & Hsame & _ & _ & _ & evs & Hlog & Hevs).
        intros [= <- <-]. split; [done|]. split; [|discriminate].
        exists evs. split; [done|].
        destruct Hevs as [->|(tpk & dpk & pks & ->)]; simpl.
        -- split; [constructor|]. intros T HT. by apply elem_of_nil in HT.
        -- split; [apply NoDup_singleton|].
           by intros T ->%list_elem_of_singleton.
    + destruct (is_reverse_fk relation); [|apply IH].
      unfold bind.
      destruct (transfer_one_to_many _ _ _ w) as [w1 [ri1|e]] eqn:Hstep.
      * apply transfer_one_to_many_effect in Hstep
          as (Hres & Hsame & _ & _ & _ & evs & Hlog & Hevs).
        intros Hrest.
        apply IH in Hrest as (Hsame' & (evs' & Hlog' & Hnd' & Hout') & Hok).
        split; [by eapply same_entities_trans|]. split.
        -- exists (evs ++ evs'). split; [by rewrite Hlog', Hlog, app_assoc|].
           rewrite reverse_moves_app.
           by destruct Hevs as [->|(c & k & o & n & ->)].
        -- intros ri' Hr Hri. apply (Hok ri' Hr).
           by eapply survey_one_to_many_keys; [apply Hres|].
      * apply transfer_one_to_many_effect in Hstep
          as (_ & Hsame & _ & _ & _ & evs & Hlog & Hevs).
        intros [= <- <-]. split; [done|]. split; [|discriminate].
        exists evs. split; [done|].
        destruct Hevs as [->|(c & k & o & n & ->)]; simpl;
          (split; [constructor|]; intros T HT; by apply elem_of_nil in HT).
Qed.

(** A reverse many-to-many relation whose join table is already in the
    processed set is passed over, wherever it stands in the list. *)
Lemma reverse_loop_skip l1 r l2 dry ri P w :
  is_reverse_m2m r = true ->
  rel_through r ∈ P ->
  reverse_loop (l1 ++ r :: l2) dry ri P w = reverse_loop (l1 ++ l2) dry ri P w.
Proof.
  intros Hr. revert ri P w. induction l1 as [|x l1 IH]; intros ri P w Hin.
  - simpl app. rewrite reverse_loop_cons, Hr. by rewrite bool_decide_eq_true_2.
  - rewrite <- !app_comm_cons. rewrite !reverse_loop_cons.
    destruct (is_reverse_m2m x).
    + case_bool_decide; [by apply IH|].
      unfold bind. destruct (transfer_m2m _ _ _ _ _ _ _ w) as [w1 [ri1|e]]; [|done].
      apply IH. by apply elem_of_union_r.
    + destruct (is_reverse_fk x); [|by apply IH].
      unfold bind. destruct (transfer_one_to_many _ _ _ w) as [w1 [ri1|e]]; [|done].
      by apply IH.
Qed.

End RelationInvariants.

Section RealRunCounts.

Implicit Types (w : World) (ri : pydict RelationInfo) (P : gset string).
Implicit Types (K : gset (string * string)).

Lemma agree_survey_m2m P K w0 w name type_ related T reverse ri :
  agree P K w0 w -> T ∉ P ->
  survey_m2m name type_ related T reverse (w_target w) (w_donor w) (w_db w) ri =
  survey_m2m name type_ related T reverse (w_target w0) (w_donor w0) (w_db w0) ri.
Proof.
  intros (Ht & Hd & Hl & _) HT. unfold survey_m2m. by rewrite Ht, Hd, Hl.
Qed.

Lemma agree_step_m2m P K w0 w w' T :
  agree P K w0 w ->
  same_entities w w' ->
  (forall T', T' <> T -> links_of (w_db w') T' = links_of (w_db w) T') ->
  (forall c k, refs_of (w_db w') c k = refs_of (w_db w) c k) ->
  agree ({[T]} ∪ P) K w0 w'.
Proof.
  intros (Ht & Hd & Hl & Hr) (Ht' & Hd' & _) Hl' Hr'.
  split; [congruence|]. split; [congruence|]. split.
  - intros T' HT'. apply not_elem_of_union in HT' as [HT1 HT2].
    apply not_elem_of_singleton in HT1. by rewrite Hl', Hl.
  - intros c k Hk. by rewrite Hr', Hr.
Qed.

(** The counts a real run records are those of the state it started from:
    first loop. *)
Lemma forward_loop_real_survey fields ri P K w0 w w' ri' P' :
  NoDup (m2m_through <$> fields) ->
  (forall T, T ∈ m2m_through <$> fields -> T ∉ P) ->
  agree P K w0 w ->
  forward_loop fields false ri P w = (w', Ok (ri', P')) ->
  survey_forward fields (w_target w0) (w_donor w0) (w_db w0) ri P = Ok (ri', P') /\
  agree P' K w0 w'.
Proof.
  revert ri P w. induction fields as [|field fields IH]; intros ri P w Hnd Hfresh Hagree.
  - simpl. unfold ret. by intros [= <- <- <-].
  - rewrite fmap_cons in Hnd, Hfresh. apply NoDup_cons in Hnd as [Hf Hnd].
    assert (HT : m2m_through field ∉ P) by (apply Hfresh; left).
    simpl. unfold bind.
    destruct (transfer_m2m _ _ _ _ _ _ _ w) as [w1 [ri1|e]] eqn:Hstep; [|discriminate].
    apply transfer_m2m_effect in Hstep as (Hres & Hsame & Hlinks & Hrefs & _).
    rewrite (agree_survey_m2m P K w0 w) in Hres by done. rewrite <- Hres.
    apply IH; [done| |by eapply agree_step_m2m].
    intros T HT' [->%elem_of_singleton|HP]%elem_of_union; [done|].
    eapply Hfresh; [|exact HP]. by right.
Qed.

Lemma fk_keys_cons r relations :
  fk_keys (r :: relations) =
    if is_reverse_fk r then (rel_related_label r, rel_field_name r) :: fk_keys relations
    else fk_keys relations.
Proof.
  unfold fk_keys. rewrite filter_cons. destruct (is_reverse_fk r) eqn:Hr.
  - by rewrite decide_True.
  - rewrite decide_False; [done|]. by destruct (is_reverse_fk r).
Qed.

Lemma is_reverse_m2m_not_fk r : is_reverse_m2m r = true -> is_reverse_fk r = false.
Proof.
  unfold is_reverse_m2m, is_reverse_fk.
  destruct (rel_auto_created r), (rel_concrete r), (rel_many_to_many r); simpl; done.
Qed.

(** ... and second loop. *)
Lemma reverse_loop_real_survey relations ri P K w0 w w' ri' :
  NoDup (fk_keys relations) ->
  (forall key, key ∈ fk_keys relations -> key ∉ K) ->
  agree P K w0 w ->
  reverse_loop relations false ri P w = (w', Ok ri') ->
  survey_reverse relations (w_target w0) (w_donor w0) (w_db w0) ri P = Ok ri'.
Proof.
  revert ri P K w. induction relations as [|r relations IH];
    intros ri P K w Hnd Hfresh Hagree.
  - simpl. unfold ret. by intros [= <- <-].
  - rewrite reverse_loop_cons. simpl. rewrite fk_keys_cons in Hnd, Hfresh.
    destruct (is_reverse_m2m r) eqn:Hm.
    + rewrite (is_reverse_m2m_not_fk r Hm) in Hnd, Hfresh.
      case_bool_decide as Hin; [by eapply IH|].
      unfold bind.
      destruct (transfer_m2m _ _ _ _ _ _ _ w) as [w1 [ri1|e]] eqn:Hstep; [|discriminate].
      apply transfer_m2m_effect in Hstep as (Hres & Hsame & Hlinks & Hrefs & _).
      rewrite (agree_survey_m2m P K w0 w) in Hres by done. rewrite <- Hres.
      apply (IH ri1 ({[rel_through r]} ∪ P) K w1); [done|done|].
      by eapply agree_step_m2m.
    + destruct (is_reverse_fk r) eqn:Hfk; [|by eapply IH].
      apply NoDup_cons in Hnd as [Hkey Hnd].
      unfold bind.
      destruct (transfer_one_to_many _ _ _ w) as [w1 [ri1|e]] eqn:Hstep; [|discriminate].
      apply transfer_one_to_many_effect in Hstep as (Hres & Hsame & Hlinks & Hrefs & _).
      specialize (Hres ri1 eq_refl).
      destruct Hagree as (Ht & Hd & Hl & Hr).
      assert (Hsurvey : survey_one_to_many r (w_donor w0) (w_db w0) ri = Ok ri1).
      { rewrite <- Hres. unfold survey_one_to_many. rewrite Hd, Hr; [done|].
        apply Hfresh. by left. }
      rewrite Hsurvey.
      apply (IH ri1 P ({[(rel_related_label r, rel_field_name r)]} ∪ K) w1); [done| |].
      * intros key Hk [->%elem_of_singleton|HK]%elem_of_union; [done|].
        eapply Hfresh; [|exact HK]. by right.
      * destruct Hsame as (Ht' & Hd' & _).
        split; [congruence|]. split; [congruence|]. split.
        -- intros T HT. by rewrite Hlinks, Hl.
        -- intros c k Hk. apply not_elem_of_union in Hk as [Hk1 Hk2].
           apply not_elem_of_singleton in Hk1. by rewrite Hrefs, Hr.
Qed.

(** Outside a dry run, when relationship transfer succeeds on a well-formed
    relation graph, what it records is what counting on the state before
    gives. *)
Lemma _transfer_relations_real_survey w w' rels :
  wf_relations (inst_meta (w_donor w)) ->
  _transfer_relations false w = (w', Ok rels) ->
  survey_relations (w_target w) (w_donor w) (w_db w) = Ok rels.
Proof.
  intros [Hm2m Hfk]. unfold _transfer_relations, transfer_by_meta, bind, gets.
  destruct (forward_loop _ _ _ _ w) as [w1 [[ri P]|e]] eqn:Hfwd; [|discriminate].
  intros Hrev.
  assert (Hagree : agree ∅ ∅ w w) by (by repeat split).
  destruct (forward_loop_real_survey _ _ _ ∅ w w w1 ri P Hm2m
              ltac:(intros; apply not_elem_of_empty) Hagree Hfwd) as [Hsf Hagree1].
  unfold survey_relations, survey_by_meta. rewrite Hsf.
  eapply reverse_loop_real_survey; [exact Hfk| |exact Hagree1|exact Hrev].
  intros; apply not_elem_of_empty.
Qed.

End RealRunCounts.



(** ** The executor *)

Section ExecutorSteps.

Context (dj : Django) (cfg : Settings) (self : MergeProfile).
Implicit Types (w : World) (s : ExecState) (ov : gmap string value) (ctx : Context).

Lemma run_pre_hooks_eq hooks ctx s :
  run_pre_hooks hooks ctx s =
    (s, pre_hooks_verdict hooks (w_target (es_world s)) (w_donor (es_world s))
          ctx (w_db (es_world s))).
Proof.
  induction hooks as [|hook hooks IH]; [reflexivity|].
  simpl. unfold bind, gets. destruct (hook _ _ _ _); [reflexivity|exact IH].
Qed.

Lemma run_post_hooks_eq hooks ctx s :
  run_post_hooks hooks ctx s =
    (s, post_hooks_verdict hooks (w_target (es_world s)) (w_donor (es_world s))
          (es_result s) ctx (w_db (es_world s))).
Proof.
  induction hooks as [|hook hooks IH]; [reflexivity|].
  simpl. unfold bind, gets. simpl. destruct (hook _ _ _ _ _); [reflexivity|exact IH].
Qed.

Lemma soft_delete_flag donor :
  soft_delete_section cfg self true donor =
    with_dry_run_flag true (soft_delete_section cfg self false donor).
Proof.
  unfold soft_delete_section, soft_delete_info.
  destruct (hard_delete self); [reflexivity|].
  destruct (get_soft_delete_field cfg self) as [f|]; [|reflexivity].
  case_bool_decide; [reflexivity|].
  destruct (inst_attrs donor !! f); reflexivity.
Qed.

Lemma _apply_soft_delete_dry w :
  _apply_soft_delete cfg self true w = (w, Ok (soft_delete_info cfg self true (w_donor w))).
Proof.
  unfold _apply_soft_delete, soft_delete_info.
  destruct (get_soft_delete_field cfg self) as [f|]; [|reflexivity].
  case_bool_decide; [reflexivity|].
  unfold bind, gets, hasattr, getattr, lift_result.
  destruct (inst_attrs (w_donor w) !! f) as [v|] eqn:Hv.
  - rewrite bool_decide_eq_true_2 by eauto. reflexivity.
  - rewrite bool_decide_eq_false_2; [reflexivity|]. by intros [? ?].
Qed.

(** Outside a dry run the section is the same up to its flag; only the donor
    and its record can change. *)
Lemma _apply_soft_delete_real w w' info :
  _apply_soft_delete cfg self false w = (w', Ok info) ->
  info = soft_delete_info cfg self false (w_donor w) /\
  w_target w' = w_target w /\ w_audit w' = w_audit w /\
  db_links (w_db w') = db_links (w_db w) /\ db_refs (w_db w') = db_refs (w_db w) /\
  inst_pk (w_donor w') = inst_pk (w_donor w) /\
  inst_class (w_donor w') = inst_class (w_donor w).
Proof.
  unfold _apply_soft_delete, soft_delete_info.
  destruct (get_soft_delete_field cfg self) as [f|].
  2:{ intros [= <- <-]. done. }
  case_bool_decide.
  { intros [= <- <-]. done. }
  unfold bind, gets, hasattr, getattr, lift_result.
  destruct (inst_attrs (w_donor w) !! f) as [v|] eqn:Hv.
  - rewrite bool_decide_eq_true_2 by eauto. cbn [negb].
    unfold modify, save. cbn [inst_pk setattr inst_class].
    destruct (inst_pk (w_donor w)) as [pk|] eqn:Hpk; [|discriminate].
    unfold bind, modify, gets. cbn [w_db log_events set_donor].
    destruct (db_rows (w_db w) !! (inst_class (w_donor w), pk)); [|discriminate].
    intros [= <- <-]. done.
  - rewrite bool_decide_eq_false_2 by (by intros [? ?]). cbn [negb].
    intros [= <- <-]. done.
Qed.

End ExecutorSteps.

Section ExecutorEquation.

Context (dj : Django) (cfg : Settings) (self : MergeProfile).
Implicit Types (w : World) (s : ExecState) (ov : gmap string value) (ctx : Context).
Implicit Types (r : MergeResult).

(** [_execute], step by step: each step runs on the world the step before
    left, and a raise stops the run with the result as filled in so far. *)
Lemma _execute_eq ov ctx w r0 :
  let dry := res_dry_run r0 in
  _execute dj cfg self ov ctx (state w r0) =
    match pre_hooks_verdict (pre_merge_hooks self) (w_target w) (w_donor w) ctx (w_db w) with
    | Raise e => (state w r0, Raise e)
    | Ok _ =>
    match _apply_field_updates dj cfg self ov dry ctx w with
    | (w2, Raise e) => (state w2 r0, Raise e)
    | (w2, Ok changed) =>
    let r1 := set_changed_fields changed r0 in
    match _transfer_relations dry w2 with
    | (w3, Raise e) => (state w3 r1, Raise e)
    | (w3, Ok rels) =>
    let r2 := set_relations rels r1 in
    match (if hard_delete self
           then (w3, Ok [("applied", VBool false); ("reason", VStr "hard_delete_enabled");
                         ("dry_run", VBool dry)])
           else _apply_soft_delete cfg self dry w3) with
    | (w4, Raise e) => (state w4 r2, Raise e)
    | (w4, Ok soft) =>
    let r3 := set_soft_delete soft r2 in
    match post_hooks_verdict (post_merge_hooks self) (w_target w4) (w_donor w4) r3 ctx
            (w_db w4) with
    | Raise e => (state w4 r3, Raise e)
    | Ok _ =>
        if hard_delete self then
          let r4 := set_hard_delete (hard_delete_pending dry) r3 in
          if dry then (state w4 r4, Ok tt)
          else
            match delete_donor w4 with
            | (w5, Raise e) => (state w5 r4, Raise e)
            | (w5, Ok _) =>
                (state w5 (set_hard_delete (hard_delete_done (inst_pk (w_donor w4))) r4),
                 Ok tt)
            end
        else (state w4 (set_hard_delete (hard_delete_off dry) r3), Ok tt)
    end end end end end.
Proof.
  intros dry. subst dry. unfold _execute, bind. rewrite run_pre_hooks_eq.
  cbn [es_world es_result state].
  destruct (pre_hooks_verdict _ _ _ _ _) as [[]|e]; [|reflexivity].
  unfold gets at 1. cbn [es_result state].
  unfold in_world at 1. cbn [es_world es_result state].
  destruct (_apply_field_updates dj cfg self ov (res_dry_run r0) ctx w)
    as [w2 [changed|e]]; [|reflexivity].
  unfold update_result at 1, modify at 1. cbn [es_world es_result].
  unfold in_world at 1. cbn [es_world es_result].
  destruct (_transfer_relations (res_dry_run r0) w2) as [w3 [rels|e]]; [|reflexivity].
  unfold update_result at 1, modify at 1. cbn [es_world es_result].
  destruct (hard_delete self) eqn:Hhd.
  - unfold update_result at 1, modify at 1. cbn [es_world es_result].
    rewrite run_post_hooks_eq. cbn [es_world es_result].
    destruct (post_hooks_verdict _ _ _ _ _ _) as [[]|e]; [|reflexivity].
    unfold update_result at 1, modify at 1. cbn [es_world es_result].
    destruct (res_dry_run r0); cbn [negb]; [reflexivity|].
    unfold gets at 1. cbn [es_world es_result].
    unfold in_world at 1. cbn [es_world es_result].
    destruct (delete_donor w3) as [w5 [[]|e]]; [|reflexivity].
    unfold update_result, modify. cbn [es_world es_result].
    reflexivity.
  - unfold bind, in_world. cbn [es_world es_result].
    destruct (_apply_soft_delete cfg self (res_dry_run r0) w3) as [w4 [soft|e]];
      [|reflexivity].
    unfold update_result at 1, modify at 1. cbn [es_world es_result].
    rewrite run_post_hooks_eq. cbn [es_world es_result].
    destruct (post_hooks_verdict _ _ _ _ _ _) as [[]|e]; reflexivity.
Qed.

End ExecutorEquation.

Section DryRun.

Context (dj : Django) (cfg : Settings) (self : MergeProfile).
Implicit Types (w : World) (s : ExecState) (ov : gmap string value) (ctx : Context).
Implicit Types (r : MergeResult).

(** A dry run of the executor leaves the world as it found it, whatever the
    outcome, and reads of the world only the two objects and the store. *)
Lemma _execute_dry ov ctx w r0 :
  res_dry_run r0 = true ->
  _execute dj cfg self ov ctx (state w r0) =
    (state w (dry_execute dj cfg self ov ctx (w_target w) (w_donor w) (w_db w) r0).1,
     (dry_execute dj cfg self ov ctx (w_target w) (w_donor w) (w_db w) r0).2).
Proof.
  intros Hdry. rewrite _execute_eq. cbv zeta. rewrite Hdry. unfold dry_execute.
  destruct (pre_hooks_verdict _ _ _ _ _) as [[]|e]; [|reflexivity].
  rewrite _apply_field_updates_dry.
  destruct (plan_fields _ _ _ _ _ _ _) as [plan|e]; [|reflexivity].
  rewrite _transfer_relations_dry.
  destruct (survey_relations _ _ _) as [rels|e]; [|reflexivity].
  unfold soft_delete_section.
  destruct (hard_delete self).
  - cbv zeta. destruct (post_hooks_verdict _ _ _ _ _ _) as [[]|e]; reflexivity.
  - rewrite _apply_soft_delete_dry. cbv zeta.
    destruct (post_hooks_verdict _ _ _ _ _ _) as [[]|e]; reflexivity.
Qed.

End DryRun.

Section DryMerge.

Context (dj : Django) (cfg : Settings) (self : MergeProfile).
Context (user : option value) (field_overrides : option (gmap string value)).
Context (extra_summary : option (pydict value)) (context : option Context).
Implicit Types (w : World).

Local Abbreviation dry_merge := (merge dj cfg self user (Some true) field_overrides
                               extra_summary context).

Lemma merge_some (b : bool) w :
  merge dj cfg self user (Some b) field_overrides extra_summary context w =
    match _validate_instances dj self (w_target w) (w_donor w) with
    | Raise e => (w, Raised e None)
    | Ok _ =>
        match execute_scope dj cfg self b (default ∅ field_overrides)
                (base_context_of self b context) (state w (new_result self b)) with
        | (s1, Raise exc) =>
            match _write_audit cfg user extra_summary
                    (mark STATUS_FAILED (Some (exn_str exc)) s1) with
            | (s3, Raise audit_exc) =>
                (es_world s3, Raised audit_exc (Some (es_result s3)))
            | (s3, Ok _) => (es_world s3, Raised exc (Some (es_result s3)))
            end
        | (s1, Ok _) =>
            match _write_audit cfg user extra_summary
                    (mark (if b then STATUS_DRY_RUN else STATUS_COMPLETED)
                       (res_error (es_result s1)) s1) with
            | (s3, Raise audit_exc) =>
                (es_world s3, Raised audit_exc (Some (es_result s3)))
            | (s3, Ok _) => (es_world s3, Returned (es_result s3))
            end
        end
    end.
Proof. reflexivity. Qed.

Lemma audit_kwargs_of_blind am w w' r :
  w_target w = w_target w' -> w_donor w = w_donor w' ->
  audit_kwargs_of cfg am user extra_summary (state w r) =
  audit_kwargs_of cfg am user extra_summary (state w' r).
Proof. intros Ht Hd. unfold audit_kwargs_of. simpl. by rewrite Ht, Hd. Qed.

Lemma _write_audit_effect w r w' r' res :
  _write_audit cfg user extra_summary (state w r) = (state w' r', res) ->
  w_target w' = w_target w /\ w_donor w' = w_donor w /\ w_db w' = w_db w /\
  res_changed_fields r' = res_changed_fields r /\
  res_relations r' = res_relations r /\
  res_soft_delete r' = res_soft_delete r /\
  res_hard_delete r' = res_hard_delete r /\
  res_dry_run r' = res_dry_run r /\
  (w_log w' = w_log w \/ w_log w' = w_log w ++ [EvAuditCreate]).
Proof.
  destruct (AUDIT_MODEL cfg) as [am|] eqn:Ham.
  - rewrite (_write_audit_enabled cfg am) by done. cbv zeta.
    destruct (am_create am _).
    + intros [= <- <- _]. repeat split; try done. by left.
    + intros [= <- <- _]. repeat split; try done. by right.
  - rewrite _write_audit_disabled by done.
    intros [= <- <- _]. repeat split; try done. by left.
Qed.

(** A dry-run merge changes neither object nor the store; the only write
    operation it can issue is the creation of its audit record. *)
Lemma merge_dry_frame w :
  w_target (dry_merge w).1 = w_target w /\
  w_donor (dry_merge w).1 = w_donor w /\
  w_db (dry_merge w).1 = w_db w /\
  (w_log (dry_merge w).1 = w_log w \/
   w_log (dry_merge w).1 = w_log w ++ [EvAuditCreate]).
Proof.
  rewrite merge_some.
  destruct (_validate_instances dj self (w_target w) (w_donor w)); [|by auto].
  change (execute_scope dj cfg self true ?a ?b)
    with (_execute dj cfg self a b).
  rewrite _execute_dry by done.
  set (p := dry_execute _ _ _ _ _ _ _ _ _). destruct p as [r1 [[]|exc]]; cbn [fst snd].
  - destruct (_write_audit _ _ _ _) as [[w3 r3] [[]|e]] eqn:Haudit;
      apply _write_audit_effect in Haudit as (? & ? & ? & _ & _ & _ & _ & _ & ?);
      cbn [fst es_world]; auto.
  - destruct (_write_audit _ _ _ _) as [[w3 r3] [[]|e]] eqn:Haudit;
      apply _write_audit_effect in Haudit as (? & ? & ? & _ & _ & _ & _ & _ & ?);
      cbn [fst es_world]; auto.
Qed.

(** What a dry-run merge returns or raises depends on the world only through
    the two objects and the store. *)
Lemma merge_dry_blind w w' :
  w_target w = w_target w' -> w_donor w = w_donor w' -> w_db w = w_db w' ->
  (dry_merge w).2 = (dry_merge w').2.
Proof.
  intros Ht Hd Hdb. rewrite !merge_some. rewrite <- Ht, <- Hd.
  destruct (_validate_instances dj self (w_target w) (w_donor w)); [|done].
  change (execute_scope dj cfg self true ?a ?b)
    with (_execute dj cfg self a b).
  rewrite !_execute_dry by done. rewrite <- Ht, <- Hd, <- Hdb.
  set (p := dry_execute _ _ _ _ _ _ _ _ _). destruct p as [r1 [[]|exc]]; cbn [fst snd].
  - unfold mark, state. cbn [es_world es_result].
    destruct (AUDIT_MODEL cfg) as [am|] eqn:Ham.
    + rewrite !(_write_audit_enabled cfg am) by done. cbv zeta.
      fold (state w (set_status STATUS_DRY_RUN (res_error r1) r1)).
      fold (state w' (set_status STATUS_DRY_RUN (res_error r1) r1)).
      rewrite (audit_kwargs_of_blind am w w') by done.
      by destruct (am_create am _).
    + by rewrite !_write_audit_disabled.
  - unfold mark, state. cbn [es_world es_result].
    destruct (AUDIT_MODEL cfg) as [am|] eqn:Ham.
    + rewrite !(_write_audit_enabled cfg am) by done. cbv zeta.
      fold (state w (set_status STATUS_FAILED (Some (exn_str exc)) r1)).
      fold (state w' (set_status STATUS_FAILED (Some (exn_str exc)) r1)).
      rewrite (audit_kwargs_of_blind am w w') by done.
      by destruct (am_create am _).
    + by rewrite !_write_audit_disabled.
Qed.


End DryMerge.


Section Frames.

Context (dj : Django) (cfg : Settings) (self : MergeProfile).
Implicit Types (w : World) (s : ExecState) (ov : gmap string value) (ctx : Context).
Implicit Types (r : MergeResult).

Lemma field_loop_frame items ov dry ctx ch up w w' res :
  field_loop dj cfg items ov dry ctx ch up w = (w', res) ->
  w_donor w' = w_donor w /\ w_audit w' = w_audit w /\ w_db w' = w_db w /\
  w_log w' = w_log w /\
  inst_pk (w_target w') = inst_pk (w_target w) /\
  inst_class (w_target w') = inst_class (w_target w).
Proof.
  revert ch up w. induction items as [|[f rule] items IH]; intros ch up w.
  - simpl. unfold ret. by intros [= <- <-].
  - rewrite field_loop_cons.
    destruct (field_step _ _ _ _ _ _ _ _) as [[c|]|e].
    + destruct dry; [apply IH|].
      intros H. apply IH in H as (? & ? & ? & ? & ? & ?). done.
    + apply IH.
    + by intros [= <- <-].
Qed.

Lemma _apply_field_updates_frame ov dry ctx w w' res :
  _apply_field_updates dj cfg self ov dry ctx w = (w', res) -> field_frame w w'.
Proof.
  unfold _apply_field_updates, bind.
  destruct (field_loop _ _ _ _ _ _ _ _ w) as [w1 [[ch up]|e]] eqn:Hloop;
    apply field_loop_frame in Hloop as (Hd & Ha & Hdb & Hl & Hpk & Hc).
  2:{ intros [= <- <-]. unfold field_frame. rewrite Hdb. by repeat split. }
  cbn [fst snd].
  destruct (negb dry && negb (bool_decide (up = []))).
  2:{ unfold ret. intros [= <- <-]. unfold field_frame. rewrite Hdb. by repeat split. }
  unfold gets, save. destruct (inst_pk (w_target w1)) as [pk|] eqn:Hpk1.
  2:{ unfold raise. intros [= <- <-]. unfold field_frame. rewrite Hdb.
      repeat split; try done; congruence. }
  unfold bind, modify, gets. cbn [w_db log_events].
  destruct (db_rows (w_db w1) !! (inst_class (w_target w1), pk)) as [row|] eqn:Hrow.
  - unfold ret. intros [= <- <-]. unfold field_frame. simpl. rewrite Hdb.
    repeat split; try done; try congruence.
    intros key Hkey. destruct (decide (key = (inst_class (w_target w1), pk))) as [->|].
    + rewrite lookup_insert_eq. eauto.
    + by rewrite lookup_insert_ne.
  - unfold raise. intros [= <- <-]. unfold field_frame. simpl. rewrite Hdb.
    repeat split; try done; congruence.
Qed.

Lemma _transfer_relations_effect dry w w' res :
  _transfer_relations dry w = (w', res) -> same_entities w w'.
Proof.
  unfold _transfer_relations, transfer_by_meta, bind, gets.
  destruct (forward_loop _ _ _ _ w) as [w1 [[ri P]|e]] eqn:Hfwd.
  - apply forward_loop_effect in Hfwd as (Hsame & _).
    intros Hrev. apply reverse_loop_effect in Hrev as (Hsame' & _).
    by eapply same_entities_trans.
  - apply forward_loop_effect in Hfwd as (Hsame & _). by intros [= <- <-].
Qed.

Lemma delete_donor_ok w w' :
  delete_donor w = (w', Ok tt) ->
  exists pk,
    inst_pk (w_donor w) = Some pk /\
    w_target w' = w_target w /\
    w_donor w' = clear_pk (w_donor w) /\
    db_rows (w_db w') = delete (inst_class (w_donor w), pk) (db_rows (w_db w)) /\
    w_log w' = w_log w ++ [EvDelete (inst_class (w_donor w)) pk].
Proof.
  unfold delete_donor, bind, gets. destruct (inst_pk (w_donor w)) as [pk|]; [|discriminate].
  unfold modify. intros [= <-]. by exists pk.
Qed.

Lemma atomic_ok {A} (body : M ExecState A) w r s1 a :
  atomic body (state w r) = (s1, Ok a) ->
  exists s',
    body (state (log_events [EvAtomicEnter] w) r) = (s', Ok a) /\
    s1 = state (log_events [EvAtomicCommit] (es_world s')) (es_result s').
Proof.
  unfold atomic. cbn [es_world es_result state].
  fold (state (log_events [EvAtomicEnter] w) r).
  destruct (body _) as [s' [a'|e]]; [|discriminate].
  intros [= <- <-]. by exists s'.
Qed.

(** The steps of a run of [_execute] that succeeds. *)
Lemma _execute_ok ov ctx w r0 s1 :
  _execute dj cfg self ov ctx (state w r0) = (s1, Ok tt) ->
  let dry := res_dry_run r0 in
  exists w2 changed w3 rels w4 soft,
    _apply_field_updates dj cfg self ov dry ctx w = (w2, Ok changed) /\
    _transfer_relations dry w2 = (w3, Ok rels) /\
    (if hard_delete self
     then w4 = w3 /\
          soft = [("applied", VBool false); ("reason", VStr "hard_delete_enabled");
                  ("dry_run", VBool dry)]
     else _apply_soft_delete cfg self dry w3 = (w4, Ok soft)) /\
    let r3 := set_soft_delete soft (set_relations rels (set_changed_fields changed r0)) in
    post_hooks_verdict (post_merge_hooks self) (w_target w4) (w_donor w4) r3 ctx (w_db w4)
      = Ok tt /\
    (if hard_delete self then
       if dry then s1 = state w4 (set_hard_delete (hard_delete_pending dry) r3)
       else exists w5,
              delete_donor w4 = (w5, Ok tt) /\
              s1 = state w5 (set_hard_delete (hard_delete_done (inst_pk (w_donor w4)))
                               (set_hard_delete (hard_delete_pending dry) r3))
     else s1 = state w4 (set_hard_delete (hard_delete_off dry) r3)).
Proof.
  rewrite _execute_eq. cbv zeta.
  destruct (pre_hooks_verdict _ _ _ _ _) as [[]|e]; [|discriminate].
  destruct (_apply_field_updates _ _ _ _ _ _ w) as [w2 [changed|e]] eqn:Hf;
    [|discriminate].
  destruct (_transfer_relations _ w2) as [w3 [rels|e]] eqn:Hr; [|discriminate].
  destruct (hard_delete self).
  - destruct (post_hooks_verdict _ _ _ _ _ _) as [[]|e] eqn:Hpost; [|discriminate].
    destruct (res_dry_run r0) eqn:Hdry.
    + intros [= <-]. exists w2, changed, w3, rels, w3. eexists.
      split; [reflexivity|]. split; [exact Hr|]. split; [done|].
      split; [exact Hpost|done].
    + destruct (delete_donor w3) as [w5 [[]|e]] eqn:Hdel; [|discriminate].
      intros [= <-]. exists w2, changed, w3, rels, w3. eexists.
      split; [reflexivity|]. split; [exact Hr|]. split; [done|].
      split; [exact Hpost|]. by exists w5.
  - destruct (_apply_soft_delete _ _ _ w3) as [w4 [soft|e]] eqn:Hs; [|discriminate].
    destruct (post_hooks_verdict _ _ _ _ _ _) as [[]|e] eqn:Hpost; [|discriminate].
    intros [= <-]. exists w2, changed, w3, rels, w4, soft.
    split; [reflexivity|]. split; [exact Hr|]. split; [exact Hs|].
    split; [exact Hpost|done].
Qed.

End Frames.

Section HardDelete.

Context (dj : Django) (cfg : Settings) (self : MergeProfile).
Context (user : option value) (field_overrides : option (gmap string value)).
Context (extra_summary : option (pydict value)) (context : option Context).
Implicit Types (w : World) (r : MergeResult).

(** A merge that returns: its scope ran to the end and the audit record, if
    any, was stored. *)
Lemma merge_returned (b : bool) w w' r :
  merge dj cfg self user (Some b) field_overrides extra_summary context w
    = (w', Returned r) ->
  exists s1,
    execute_scope dj cfg self b (default ∅ field_overrides)
      (base_context_of self b context) (state w (new_result self b)) = (s1, Ok tt) /\
    _write_audit cfg user extra_summary
      (state (es_world s1)
         (set_status (if b then STATUS_DRY_RUN else STATUS_COMPLETED)
            (res_error (es_result s1)) (es_result s1)))
      = (state w' r, Ok tt).
Proof.
  rewrite merge_some.
  destruct (_validate_instances dj self (w_target w) (w_donor w)); [|discriminate].
  destruct (execute_scope _ _ _ _ _ _ _) as [s1 [[]|exc]] eqn:Hrun.
  - unfold mark.
    destruct (_write_audit _ _ _ _) as [[w3 r3] [[]|e]] eqn:Haudit; [|discriminate].
    intros [= <- <-]. exists s1. split; [reflexivity|exact Haudit].
  - destruct (_write_audit _ _ _ _) as [[w3 r3] [[]|e]]; discriminate.
Qed.


End HardDelete.


Section Parity.

Context (dj : Django) (cfg : Settings) (self : MergeProfile).
Implicit Types (w : World) (r : MergeResult) (ov : gmap string value) (ctx : Context).
Implicit Types (t d : Instance) (db : DB).

Lemma survey_m2m_ext name type_ related T reverse t t' d db db' ri :
  inst_pk t = inst_pk t' -> db_links db = db_links db' ->
  survey_m2m name type_ related T reverse t d db ri =
  survey_m2m name type_ related T reverse t' d db' ri.
Proof.
  intros Hpk Hl. unfold survey_m2m, manager_pk, links_of. by rewrite Hpk, Hl.
Qed.

Lemma survey_forward_ext fields t t' d db db' ri P :
  inst_pk t = inst_pk t' -> db_links db = db_links db' ->
  survey_forward fields t d db ri P = survey_forward fields t' d db' ri P.
Proof.
  intros Hpk Hl. revert ri P. induction fields as [|f fields IH]; intros ri P;
    [reflexivity|].
  simpl. rewrite (survey_m2m_ext _ _ _ _ _ t t' d db db') by done.
  destruct (survey_m2m _ _ _ _ _ _ _ _ _); [apply IH|reflexivity].
Qed.

Lemma survey_reverse_ext relations t t' d db db' ri P :
  inst_pk t = inst_pk t' -> db_links db = db_links db' -> db_refs db = db_refs db' ->
  survey_reverse relations t d db ri P = survey_reverse relations t' d db' ri P.
Proof.
  intros Hpk Hl Hr. revert ri P. induction relations as [|x relations IH]; intros ri P;
    [reflexivity|].
  simpl. destruct (is_reverse_m2m x).
  - case_bool_decide; [apply IH|].
    rewrite (survey_m2m_ext _ _ _ _ _ t t' d db db') by done.
    destruct (survey_m2m _ _ _ _ _ _ _ _ _); [apply IH|reflexivity].
  - destruct (is_reverse_fk x); [|apply IH].
    unfold survey_one_to_many, refs_of. rewrite Hr.
    destruct (manager_pk d); [apply IH|reflexivity].
Qed.

Lemma survey_relations_ext t t' d db db' :
  inst_pk t = inst_pk t' -> db_links db = db_links db' -> db_refs db = db_refs db' ->
  survey_relations t d db = survey_relations t' d db'.
Proof.
  intros Hpk Hl Hr. unfold survey_relations, survey_by_meta.
  rewrite (survey_forward_ext _ t t' d db db') by done.
  destruct (survey_forward _ _ _ _ _ _) as [[ri P]|]; [|reflexivity].
  by apply survey_reverse_ext.
Qed.

Lemma _apply_field_updates_real_ok ov ctx w w' changed :
  NoDup (fields self).*1 ->
  _apply_field_updates dj cfg self ov false ctx w = (w', Ok changed) ->
  exists plan,
    plan_fields dj cfg (fields self) (w_target w) (w_donor w) ov ctx = Ok plan /\
    changed = record_changes plan [].
Proof.
  intros Hnd Hrun.
  destruct (plan_fields dj cfg (fields self) (w_target w) (w_donor w) ov ctx)
    as [plan|e] eqn:Hplan.
  2:{ destruct (_apply_field_updates_real_raise dj cfg self ov ctx w e Hnd Hplan)
        as [x Hx]. congruence. }
  exists plan. split; [done|].
  rewrite record_changes_nil by (by eapply plan_fields_NoDup).
  rewrite (_apply_field_updates_real dj cfg self ov ctx w plan Hnd Hplan) in Hrun.
  cbv zeta in Hrun. destruct plan as [|c plan].
  - by injection Hrun as _ <-.
  - destruct (inst_pk (w_target w)); [|discriminate].
    destruct (db_rows (w_db w) !! _); [|discriminate].
    by injection Hrun as _ <-.
Qed.

Lemma execute_dry_reports ov ctx w r0 s1 :
  res_dry_run r0 = true ->
  _execute dj cfg self ov ctx (state w r0) = (s1, Ok tt) ->
  reports dj cfg self ov ctx w true (es_result s1).
Proof.
  intros Hdry. rewrite _execute_dry by done. unfold dry_execute.
  destruct (pre_hooks_verdict _ _ _ _ _) as [[]|e]; [|discriminate].
  destruct (plan_fields _ _ _ _ _ _ _) as [plan|e] eqn:Hplan; [|discriminate].
  destruct (survey_relations _ _ _) as [rels|e] eqn:Hrels; [|discriminate].
  cbv zeta. destruct (post_hooks_verdict _ _ _ _ _ _) as [[]|e]; [|discriminate].
  cbn [fst snd]. intros [= <-]. by exists plan, rels.
Qed.

Lemma execute_real_reports ov ctx w r0 s1 :
  NoDup (fields self).*1 ->
  wf_relations (inst_meta (w_donor w)) ->
  res_dry_run r0 = false ->
  _execute dj cfg self ov ctx (state w r0) = (s1, Ok tt) ->
  reports dj cfg self ov ctx w false (es_result s1).
Proof.
  intros Hnd Hwf Hdry Hrun.
  apply _execute_ok in Hrun
    as (w2 & changed & w3 & rels & w4 & soft & Hf & Hr & Hs & _ & Hend).
  rewrite Hdry in Hf, Hr, Hs, Hend.
  pose proof (_apply_field_updates_frame _ _ _ _ _ _ _ _ _ Hf)
    as (Hd2 & _ & Hpk2 & _ & Hl2 & Hr2 & _).
  destruct (_apply_field_updates_real_ok ov ctx w w2 changed Hnd Hf) as (plan & Hplan & ->).
  pose proof (_transfer_relations_effect _ _ _ _ Hr) as (_ & Hd3 & _).
  rewrite <- Hd2 in Hwf.
  apply (_transfer_relations_real_survey w2 w3 rels Hwf) in Hr.
  rewrite Hd2 in Hr.
  rewrite (survey_relations_ext (w_target w2) (w_target w) (w_donor w) (w_db w2) (w_db w))
    in Hr by done.
  assert (Hsoft : soft = soft_delete_section cfg self false (w_donor w) /\
                  exists hd, es_result s1 =
                    set_hard_delete hd
                      (set_soft_delete soft
                         (set_relations rels
                            (set_changed_fields (record_changes plan []) r0)))).
  { unfold soft_delete_section. destruct (hard_delete self).
    - destruct Hs as [-> ->]. split; [done|].
      destruct Hend as (w5 & _ & ->). eexists. reflexivity.
    - apply _apply_soft_delete_real in Hs as (-> & _).
      rewrite Hd3, Hd2 in Hend |- *.
      split; [done|]. subst s1. eexists. reflexivity. }
  destruct Hsoft as (-> & hd & ->).
  by exists plan, rels.
Qed.

End Parity.

(** ** Dry run against real run *)

Section ModeBlind.

Context (dj : Django) (cfg : Settings).
Implicit Types (c : Context) (ov : gmap string value).

Lemma same_but_mode_insert k v c1 c2 :
  k <> "dry_run" -> same_but_mode c1 c2 ->
  same_but_mode (<[k := v]> c1) (<[k := v]> c2).
Proof.
  intros Hk (H1 & H2 & Hout). split; [by rewrite lookup_insert_ne|].
  split; [by rewrite lookup_insert_ne|].
  intros k' Hk'. destruct (decide (k = k')) as [->|Hne].
  - by rewrite !lookup_insert_eq.
  - rewrite !lookup_insert_ne by done. by apply Hout.
Qed.

Lemma same_but_mode_setdefault k v c1 c2 :
  same_but_mode c1 c2 -> same_but_mode (setdefault k v c1) (setdefault k v c2).
Proof.
  intros Hs. pose proof Hs as (H1 & H2 & Hout). unfold setdefault.
  destruct (decide (k = "dry_run")) as [->|Hk].
  - destruct H1 as [x1 Hx1], H2 as [x2 Hx2]. rewrite Hx1, Hx2. exact Hs.
  - rewrite (Hout k Hk). destruct (c2 !! k); [exact Hs|]. by apply same_but_mode_insert.
Qed.

Lemma same_but_mode_base self (context : option Context) :
  same_but_mode (base_context_of self true context) (base_context_of self false context).
Proof.
  unfold base_context_of. split; [rewrite lookup_insert_eq; by eexists|].
  split; [rewrite lookup_insert_eq; by eexists|].
  intros k Hk. assert (Hk' : "dry_run" <> k) by congruence.
  by rewrite !(lookup_insert_ne _ "dry_run" k) by done.
Qed.

Lemma strategy_context_for_mode f rule c1 c2 :
  same_but_mode c1 c2 ->
  same_but_mode (strategy_context_for f rule c1) (strategy_context_for f rule c2).
Proof.
  intros Hs. unfold strategy_context_for.
  assert (H0 : same_but_mode (<["rule" := CRule f]> (<["field" := CVal (VStr f)]> c1))
                 (<["rule" := CRule f]> (<["field" := CVal (VStr f)]> c2))).
  { by repeat apply same_but_mode_insert. }
  case_bool_decide; [done|].
  rewrite !map_fold_foldr.
  assert (H1 : same_but_mode
                 (<["metadata" := CDict (metadata rule)]>
                    (<["rule" := CRule f]> (<["field" := CVal (VStr f)]> c1)))
                 (<["metadata" := CDict (metadata rule)]>
                    (<["rule" := CRule f]> (<["field" := CVal (VStr f)]> c2)))).
  { by apply same_but_mode_insert. }
  revert H1. generalize (<["metadata" := CDict (metadata rule)]>
                    (<["rule" := CRule f]> (<["field" := CVal (VStr f)]> c1))).
  generalize (<["metadata" := CDict (metadata rule)]>
                    (<["rule" := CRule f]> (<["field" := CVal (VStr f)]> c2))).
  intros a2 a1 Ha.
  induction (map_to_list (metadata rule)) as [|[k v] l IH]; [done|].
  simpl. by apply same_but_mode_setdefault.
Qed.

Lemma resolve_new_value_mode f rule tv dv ov c1 c2 :
  (forall fn, get_callable dj cfg rule = Ok fn -> ignores_mode fn) ->
  same_but_mode c1 c2 ->
  resolve_new_value dj cfg f rule tv dv ov c1 = resolve_new_value dj cfg f rule tv dv ov c2.
Proof.
  intros Hfn Hs. unfold resolve_new_value.
  destruct (ov !! f); [done|].
  destruct (get_callable dj cfg rule) as [fn|e]; [|done].
  rewrite (Hfn fn eq_refl tv dv (strategy_context_for f rule c1)
             (strategy_context_for f rule c2)); [done|].
  by apply strategy_context_for_mode.
Qed.

Lemma plan_fields_mode items t d ov c1 c2 :
  (forall f rule fn, (f, rule) ∈ items -> get_callable dj cfg rule = Ok fn ->
                     ignores_mode fn) ->
  same_but_mode c1 c2 ->
  plan_fields dj cfg items t d ov c1 = plan_fields dj cfg items t d ov c2.
Proof.
  intros Hfn Hs. induction items as [|[f rule] items IH]; [reflexivity|].
  simpl. unfold field_step.
  rewrite IH by (intros f' rule' fn Hin; apply (Hfn f' rule' fn); by right).
  destruct (getattr t f) as [tv|]; [|done].
  destruct (getattr d f) as [dv|]; [|done].
  rewrite (resolve_new_value_mode f rule tv dv ov c1 c2); [done| |done].
  intros fn. apply (Hfn f rule fn). by left.
Qed.

End ModeBlind.

Section DryRunParity.

Context (dj : Django) (cfg : Settings) (self : MergeProfile).
Context (user : option value) (field_overrides : option (gmap string value)).
Context (extra_summary : option (pydict value)) (context : option Context).
Implicit Types (w : World) (r : MergeResult).

Lemma merge_returned_reports (b : bool) w w' r :
  NoDup (fields self).*1 ->
  wf_relations (inst_meta (w_donor w)) ->
  merge dj cfg self user (Some b) field_overrides extra_summary context w
    = (w', Returned r) ->
  reports dj cfg self (default ∅ field_overrides) (base_context_of self b context) w b r.
Proof.
  intros Hnd Hwf Hmerge.
  destruct (merge_returned dj cfg self user field_overrides extra_summary context
              b w w' r Hmerge) as (s1 & Hrun & Haudit).
  apply _write_audit_effect in Haudit
    as (_ & _ & _ & Hc & Hr & Hs & _).
  cbn [res_changed_fields res_relations res_soft_delete set_status] in Hc, Hr, Hs.
  assert (Hrep : reports dj cfg self (default ∅ field_overrides)
                   (base_context_of self b context) w b (es_result s1)).
  { destruct b.
    - change (execute_scope dj cfg self true ?a ?c) with (_execute dj cfg self a c) in Hrun.
      exact (execute_dry_reports dj cfg self _ _ w (new_result self true) s1
               eq_refl Hrun).
    - change (execute_scope dj cfg self false ?a ?c)
        with (atomic (_execute dj cfg self a c)) in Hrun.
      apply atomic_ok in Hrun as (s' & Hbody & ->).
      pose proof (execute_real_reports dj cfg self _ _ (log_events [EvAtomicEnter] w)
                    (new_result self false) s' Hnd Hwf eq_refl Hbody) as Hrep.
      exact Hrep. }
  destruct Hrep as (plan & rels & Hplan & Hrels & Hc1 & Hr1 & Hs1).
  exists plan, rels. repeat split; congruence.
Qed.


End DryRunParity.

Lemma builtin_strategies_ignore_mode :
  ignores_mode strategies.prefer_target /\
  ignores_mode strategies.prefer_donor /\
  ignores_mode strategies.prefer_non_null /\
  ignores_mode strategies.concat.
Proof.
  repeat split; intros tv dv c1 c2 Hout; try reflexivity.
  unfold strategies.concat. by rewrite (Hout "separator").
Qed.



(** * Further properties *)

(** ** The profile registry, continued *)

Section RegistryFacts.

Context (dj : Django).
Implicit Types (p a b : MergeProfile) (reg : MergeProfileRegistry) (cls : ModelClass).

Lemma register_raise p reg e :
  (register dj p reg).2 = Raise e -> (register dj p reg).1 = reg.
Proof.
  unfold register. case_bool_decide; [done|].
  destruct (get_model_class dj p); [discriminate|done].
Qed.

(** X1: a registered profile is found again.  After a successful
    [register], the profile is what [get] returns for its label, what
    [get_for_model] returns for its model class and what a [MergeService]
    built from the label works with, and every other label and model class
    resolves as it did before. *)
Theorem register_then_lookup p cls reg :
  label p <> "" ->
  get_model_class dj p = Ok cls ->
  let reg' := (register dj p reg).1 in
  (register dj p reg).2 = Ok p /\
  registry_get (label p) reg' = Ok p /\
  get_for_model cls reg' = Ok p /\
  MergeService_init reg' (inr (label p)) = Ok p /\
  (forall l, l <> label p -> registry_get l reg' = registry_get l reg) /\
  (forall c, c <> cls -> get_for_model c reg' = get_for_model c reg).
Proof.
  intros Hl Hc reg'. subst reg'. rewrite (register_ok dj p cls reg Hl Hc).
  cbn [fst snd]. unfold MergeService_init, registry_get, get_for_model.
  cbn [_profiles _model_index]. rewrite !lookup_insert_eq.
  repeat split; try reflexivity.
  - intros l Hne. by rewrite lookup_insert_ne.
  - intros c Hne. by rewrite lookup_insert_ne.
Qed.

(** X2: a registration that fails leaves no trace.  Whatever makes
    [register] raise, the registry is the one it was given; an empty label is
    refused with [InvalidProfileError] before the model is even resolved, and
    otherwise the exception is the one raised when resolving the model. *)
Theorem failed_register_keeps_registry p reg e :
  (register dj p reg).2 = Raise e ->
  (register dj p reg).1 = reg /\
  (label p = "" -> e = InvalidProfileError "Merge profile must define a label") /\
  (label p <> "" -> get_model_class dj p = Raise e).
Proof.
  intros H. split; [by eapply register_raise|].
  revert H. unfold register. case_bool_decide as Hl.
  - cbn. intros [= <-]. split; [done|]. intros Hne. by destruct Hne.
  - destruct (get_model_class dj p) as [c|e'] eqn:Hc; cbn; [discriminate|].
    intros [= <-]. split; [by intros ?|done].
Qed.

(** X3: [unregister] undoes [register].  When neither the label nor the
    model class of a profile is in use, registering the profile and
    unregistering its label gives back the registry one started from; and
    unregistering a label that is not registered changes nothing and does
    not raise. *)
Theorem unregister_undoes_register p cls reg :
  label p <> "" ->
  get_model_class dj p = Ok cls ->
  _profiles reg !! label p = None ->
  _model_index reg !! cls = None ->
  unregister dj (label p) reg = (reg, Ok tt) /\
  unregister dj (label p) (register dj p reg).1 = (reg, Ok tt).
Proof.
  intros Hl Hc Hp Hm. split.
  - unfold unregister. by rewrite Hp.
  - rewrite (register_ok dj p cls reg Hl Hc). cbn [fst].
    unfold unregister. cbn [_profiles _model_index].
    rewrite lookup_insert_eq, Hc. cbn [_profiles _model_index].
    rewrite !delete_insert_id by done. by destruct reg.
Qed.

(** X4: registering a second profile under a label that is already taken,
    for a different model class, replaces the profile found by label but
    leaves the first profile in the model-class index.  The first profile
    is still what [get_for_model] returns for its class, and stays so after
    the label has been unregistered. *)
Theorem reregistered_label_leaves_stale_model_entry a b cls cls' reg :
  label a <> "" ->
  label b = label a ->
  cls <> cls' ->
  get_model_class dj a = Ok cls ->
  get_model_class dj b = Ok cls' ->
  let reg2 := (register dj b (register dj a reg).1).1 in
  let reg3 := (unregister dj (label a) reg2).1 in
  registry_get (label a) reg2 = Ok b /\
  get_for_model cls' reg2 = Ok b /\
  get_for_model cls reg2 = Ok a /\
  registry_get (label a) reg3 =
    Raise (ProfileNotFoundError ("Merge profile '" +:+ label a +:+ "' is not registered")) /\
  get_for_model cls' reg3 =
    Raise (ProfileNotFoundError ("No merge profile registered for model " +:+ cls')) /\
  get_for_model cls reg3 = Ok a.
Proof.
  intros Hl Hlb Hne Ha Hb reg2 reg3. subst reg3 reg2.
  assert (Hlb' : label b <> "") by by rewrite Hlb.
  rewrite (register_ok dj a cls reg Hl Ha). cbn [fst].
  rewrite (register_ok dj b cls' _ Hlb' Hb). cbn [fst _profiles _model_index].
  unfold unregister. cbn [_profiles _model_index].
  rewrite Hlb, lookup_insert_eq, Hb. cbn [fst _profiles _model_index].
  unfold registry_get, get_for_model. cbn [_profiles _model_index].
  rewrite !lookup_insert_eq, !lookup_delete_eq.
  rewrite lookup_insert_ne by done. rewrite lookup_insert_eq.
  rewrite lookup_delete_ne by done.
  rewrite lookup_insert_ne by done. rewrite lookup_insert_eq.
  done.
Qed.

End RegistryFacts.

Lemma register_then_lookup_witness :
  let dj := Cities.django in
  let p := Cities.profile in
  let reg' := (register dj p registry_init).1 in
  label p <> "" /\
  get_model_class dj p = Ok "City" /\
  registry_get (label p) reg' = Ok p /\
  get_for_model "City" reg' = Ok p.
Proof.
  intros dj p reg'.
  assert (Hl : label p <> "") by (vm_compute; discriminate).
  assert (Hc : get_model_class dj p = Ok "City") by reflexivity.
  destruct (register_then_lookup dj p "City" registry_init Hl Hc) as (_ & H1 & H2 & _).
  by repeat split.
Defined.

Lemma failed_register_keeps_registry_witness :
  let reg := (register Cities.django Cities.profile registry_init).1 in
  (register Cities.django Atlas.unlabelled_profile reg).2 =
    Raise (InvalidProfileError "Merge profile must define a label") /\
  (register Cities.django Atlas.unlabelled_profile reg).1 = reg.
Proof.
  intros reg.
  assert (H : (register Cities.django Atlas.unlabelled_profile reg).2 =
              Raise (InvalidProfileError "Merge profile must define a label"))
    by reflexivity.
  split; [exact H|].
  exact (proj1 (failed_register_keeps_registry Cities.django Atlas.unlabelled_profile
                  reg _ H)).
Defined.

Lemma unregister_undoes_register_witness :
  unregister Cities.django "city"
    (register Cities.django Cities.profile registry_init).1 = (registry_init, Ok tt).
Proof.
  exact (proj2 (unregister_undoes_register Cities.django Cities.profile "City"
                  registry_init ltac:(discriminate) eq_refl eq_refl eq_refl)).
Defined.

Lemma reregistered_label_leaves_stale_model_entry_witness :
  let dj := Cities.django in
  let reg2 := (register dj Atlas.town_profile
                 (register dj Cities.profile registry_init).1).1 in
  let reg3 := (unregister dj "city" reg2).1 in
  registry_get "city" reg2 = Ok Atlas.town_profile /\
  get_for_model "City" reg2 = Ok Cities.profile /\
  get_for_model "City" reg3 = Ok Cities.profile.
Proof.
  intros dj reg2 reg3.
  destruct (reregistered_label_leaves_stale_model_entry dj Cities.profile
              Atlas.town_profile "City" "Town" registry_init
              ltac:(discriminate) eq_refl ltac:(discriminate) eq_refl eq_refl)
    as (H1 & _ & H3 & _ & _ & H6).
  split; [exact H1|]. split; [exact H3|exact H6].
Defined.

(** ** Field reconciliation: a field the model does not have *)

Section MissingField.

Context (dj : Django) (cfg : Settings).
Implicit Types (self : MergeProfile) (w : World) (ov : gmap string value).
Implicit Types (ctx : Context) (f : string) (rule : FieldMergeRule).

(** The attribute [f] is missing on one of the two objects. *)
Local Abbreviation lacks w f :=
  (inst_attrs (w_target w) !! f = None \/ inst_attrs (w_donor w) !! f = None).

Lemma field_step_missing w ov ctx f rule :
  lacks w f ->
  field_step dj cfg (w_target w) (w_donor w) ov ctx f rule = Raise (AttributeError f).
Proof.
  unfold field_step, getattr. intros [-> | Hd]; [done|].
  destruct (inst_attrs (w_target w) !! f); by rewrite ?Hd.
Qed.

Lemma field_loop_missing items ov dry ctx ch up w f rule :
  (f, rule) ∈ items ->
  lacks w f ->
  exists w' e, field_loop dj cfg items ov dry ctx ch up w = (w', Raise e).
Proof.
  revert ch up w. induction items as [|[g r] items IH]; intros ch up w Hin Hlack.
  - by apply elem_of_nil in Hin.
  - rewrite field_loop_cons.
    destruct (field_step dj cfg (w_target w) (w_donor w) ov ctx g r) as [[c|]|e] eqn:Hstep;
      [| |by eexists _, _].
    + assert (Hne : g <> f).
      { intros ->. by rewrite (field_step_missing w ov ctx f r Hlack) in Hstep. }
      apply elem_of_cons in Hin as [[= <- <-]|Hin]; [done|].
      destruct dry; [by apply IH|]. apply IH; [done|].
      cbn [w_target w_donor set_target]. rewrite setattr_other by done. exact Hlack.
    + apply elem_of_cons in Hin as [[= <- <-]|Hin]; [|by apply IH].
      by rewrite (field_step_missing w ov ctx _ _ Hlack) in Hstep.
Qed.

(** X5: a profile field the model does not have.  If the target or the
    donor lacks an attribute that the profile lists as a field, field
    reconciliation raises in either mode, whether or not an override is given
    for that field, since both values are read before the override is looked
    at.  Nothing has been saved by then: the store, the log of writes and
    the donor are as before. *)
Theorem missing_field_aborts_reconciliation self ov dry ctx w f rule :
  (f, rule) ∈ fields self ->
  inst_attrs (w_target w) !! f = None \/ inst_attrs (w_donor w) !! f = None ->
  exists w' e,
    _apply_field_updates dj cfg self ov dry ctx w = (w', Raise e) /\
    w_db w' = w_db w /\ w_log w' = w_log w /\ w_donor w' = w_donor w.
Proof.
  intros Hin Hlack. unfold _apply_field_updates, bind.
  destruct (field_loop_missing (fields self) ov dry ctx [] [] w f rule Hin Hlack)
    as (w' & e & Hloop).
  rewrite Hloop. exists w', e. split; [done|].
  by apply field_loop_frame in Hloop as (Hd & _ & Hdb & Hl & _).
Qed.

End MissingField.

Lemma missing_field_aborts_reconciliation_witness :
  let self := Atlas.profile_with_mayor in
  let ov := <["mayor" := VStr "nobody"]> ∅ in
  (_apply_field_updates Cities.django Cities.settings self ov false ∅ Cities.world).2
    = Raise (AttributeError "mayor") /\
  w_db (_apply_field_updates Cities.django Cities.settings self ov false ∅ Cities.world).1
    = Cities.db.
Proof.
  intros self ov.
  destruct (missing_field_aborts_reconciliation Cities.django Cities.settings self ov
              false ∅ Cities.world "mayor" (Cities.rule "prefer_target"))
    as (w' & e & Hrun & Hdb & _); [right; right; right; left|by left|].
  rewrite Hrun. split; [|exact Hdb].
  vm_compute in Hrun. by injection Hrun as _ <-.
Defined.

(** ** Strategy contexts *)

Section StrategyContext.

Implicit Types (c : Context) (md : gmap string value) (k f : string).

Lemma setdefault_lookup k' (v : ctx_value) c k :
  setdefault k' v c !! k =
    match c !! k with
    | Some x => Some x
    | None => if decide (k = k') then Some v else None
    end.
Proof.
  unfold setdefault. destruct (c !! k') as [x|] eqn:Hk'.
  - destruct (c !! k) eqn:Hk; [done|]. case_decide; [congruence|done].
  - destruct (decide (k = k')) as [->|Hne].
    + by rewrite lookup_insert_eq, Hk'.
    + rewrite lookup_insert_ne by done. by destruct (c !! k).
Qed.

Lemma setdefault_all_lookup (l : list (string * value)) c k :
  NoDup l.*1 ->
  foldr (fun kv acc => setdefault kv.1 (CVal kv.2) acc) c l !! k =
    match c !! k with
    | Some x => Some x
    | None => CVal <$> (list_to_map l : gmap string value) !! k
    end.
Proof.
  induction l as [|[k1 v1] l IH]; intros Hnd.
  - cbn. rewrite lookup_empty. by destruct (c !! k).
  - apply NoDup_cons in Hnd as [Hk1 Hnd]. cbn [foldr fst snd].
    rewrite setdefault_lookup, (IH Hnd), list_to_map_cons.
    destruct (c !! k) as [x|]; [done|].
    destruct (decide (k = k1)) as [->|Hne].
    + rewrite lookup_insert_eq.
      by rewrite (not_elem_of_list_to_map_1 (M := gmap string) _ _ Hk1).
    + rewrite lookup_insert_ne by done.
      by destruct (CVal <$> _).
Qed.

Lemma metadata_defaults_lookup md c k :
  map_fold (fun k v acc => setdefault k (CVal v) acc) c md !! k =
    match c !! k with
    | Some x => Some x
    | None => CVal <$> md !! k
    end.
Proof.
  rewrite map_fold_foldr.
  transitivity (foldr (fun kv acc => setdefault kv.1 (CVal kv.2) acc) c (map_to_list md) !! k).
  { f_equal. apply foldr_ext; [|done|done]. by intros [k0 v0] acc. }
  rewrite setdefault_all_lookup by apply NoDup_fst_map_to_list.
  by rewrite list_to_map_to_list.
Qed.

Lemma strategy_context_for_lookup f rule c k :
  strategy_context_for f rule c !! k =
    if decide (k = "field") then Some (CVal (VStr f))
    else if decide (k = "rule") then Some (CRule f)
    else if decide (k = "metadata" /\ metadata rule <> ∅)
         then Some (CDict (metadata rule))
    else match c !! k with
         | Some x => Some x
         | None => CVal <$> metadata rule !! k
         end.
Proof.
  unfold strategy_context_for. case_bool_decide as Hmd.
  - rewrite Hmd. rewrite lookup_empty.
    destruct (decide (k = "field")) as [->|Hf]; [by rewrite lookup_insert_ne, lookup_insert_eq|].
    destruct (decide (k = "rule")) as [->|Hr]; [by rewrite lookup_insert_eq|].
    rewrite decide_False by (intros [_ H]; by apply H).
    rewrite !lookup_insert_ne by done. by destruct (c !! k).
  - rewrite metadata_defaults_lookup.
    destruct (decide (k = "field")) as [->|Hf].
    { by rewrite lookup_insert_ne, lookup_insert_ne, lookup_insert_eq. }
    destruct (decide (k = "rule")) as [->|Hr].
    { by rewrite lookup_insert_ne, lookup_insert_eq. }
    destruct (decide (k = "metadata")) as [->|Hm].
    { rewrite decide_True by done. by rewrite lookup_insert_eq. }
    rewrite decide_False by (by intros [? _]).
    by rewrite !lookup_insert_ne by done.
Qed.

(** X6: what a strategy finds in its context, by precedence.  The engine's
    own entries come first: [field] and [rule], [metadata] when the rule has
    any, [dry_run] and [profile]; a caller cannot override them through the
    [context] argument of [merge].  Then come the caller's entries, and only
    for names the caller did not use, the entries of the rule's metadata. *)
Theorem strategy_context_precedence (self : MergeProfile) (dry : bool)
    (context : option Context) f (rule : FieldMergeRule) k :
  strategy_context_for f rule (base_context_of self dry context) !! k =
    if decide (k = "field") then Some (CVal (VStr f))
    else if decide (k = "rule") then Some (CRule f)
    else if decide (k = "metadata" /\ metadata rule <> ∅)
         then Some (CDict (metadata rule))
    else if decide (k = "dry_run") then Some (CVal (VBool dry))
    else if decide (k = "profile") then Some (CProfile (label self))
    else match default ∅ context !! k with
         | Some x => Some x
         | None => CVal <$> metadata rule !! k
         end.
Proof.
  rewrite strategy_context_for_lookup.
  repeat (case_decide; [done|]). unfold base_context_of.
  destruct (decide (k = "dry_run")) as [->|Hd]; [by rewrite lookup_insert_eq|].
  rewrite lookup_insert_ne by done.
  destruct (decide (k = "profile")) as [->|Hp]; [by rewrite lookup_insert_eq|].
  by rewrite lookup_insert_ne by done.
Qed.

End StrategyContext.

Section Separator.

Context (dj : Django) (cfg : Settings).

(** X7: the separator of [concat] can be set per rule.  For a rule that
    resolves to [concat] and whose metadata has a [separator], two non-empty
    values are joined with the separator the caller passed in [context], if
    any, and otherwise with the one of the rule's metadata. *)
Theorem concat_takes_separator_from_rule_metadata (self : MergeProfile) (dry : bool)
    (context : option Context) (f : string) (rule : FieldMergeRule)
    (tv dv : value) (sep : string) :
  get_callable dj cfg rule = Ok strategies.concat ->
  strategies._is_empty tv = false ->
  strategies._is_empty dv = false ->
  metadata rule !! "separator" = Some (VStr sep) ->
  resolve_new_value dj cfg f rule tv dv ∅ (base_context_of self dry context) =
    Ok (VStr (py_str tv +:+
              match default ∅ context !! "separator" with
              | Some c => ctx_str c
              | None => sep
              end +:+ py_str dv), "strategy").
Proof.
  intros Hc Ht Hd Hsep. unfold resolve_new_value. rewrite lookup_empty, Hc.
  unfold strategies.concat. rewrite Ht, Hd.
  rewrite strategy_context_for_lookup.
  rewrite !decide_False by (try discriminate; by intros [? _]).
  unfold base_context_of. rewrite !lookup_insert_ne by done.
  rewrite Hsep. by destruct (default ∅ context !! "separator").
Qed.

End Separator.

Lemma concat_takes_separator_from_rule_metadata_witness :
  let rule := {| strategy := StrategyName "concat"; allow_override := true;
                 description := None;
                 metadata := <["separator" := VStr ", "]> ∅ |} in
  resolve_new_value Cities.django Cities.settings "name" rule
      (VStr "Target") (VStr "Donor") ∅ (base_context_of Cities.profile false None)
    = Ok (VStr "Target, Donor", "strategy").
Proof.
  intros rule.
  exact (concat_takes_separator_from_rule_metadata Cities.django Cities.settings
           Cities.profile false None "name" rule (VStr "Target") (VStr "Donor") ", "
           eq_refl eq_refl eq_refl eq_refl).
Defined.

(** ** Overrides *)

Section Overrides.

Context (dj : Django) (cfg : Settings).
Implicit Types (self : MergeProfile) (w : World) (ov : gmap string value).
Implicit Types (ctx : Context) (f : string) (rule : FieldMergeRule).

Lemma field_step_overrides t d ov ov' ctx f rule :
  ov !! f = ov' !! f ->
  field_step dj cfg t d ov ctx f rule = field_step dj cfg t d ov' ctx f rule.
Proof.
  intros H. unfold field_step, resolve_new_value. by rewrite H.
Qed.

Lemma field_loop_overrides items ov ov' dry ctx ch up w :
  (forall f, f ∈ items.*1 -> ov !! f = ov' !! f) ->
  field_loop dj cfg items ov dry ctx ch up w = field_loop dj cfg items ov' dry ctx ch up w.
Proof.
  revert ch up w. induction items as [|[f rule] items IH]; intros ch up w H; [done|].
  rewrite !field_loop_cons.
  rewrite (field_step_overrides _ _ ov ov') by (apply H; cbn; left).
  assert (H' : forall g, g ∈ items.*1 -> ov !! g = ov' !! g).
  { intros g Hg. apply H. cbn. by right. }
  destruct (field_step _ _ _ _ _ _ _ _) as [[c|]|e]; [|by apply IH|done].
  destruct dry; by apply IH.
Qed.

Lemma _apply_field_updates_overrides self ov ov' dry ctx w :
  (forall f, f ∈ (fields self).*1 -> ov !! f = ov' !! f) ->
  _apply_field_updates dj cfg self ov dry ctx w =
  _apply_field_updates dj cfg self ov' dry ctx w.
Proof.
  intros H. unfold _apply_field_updates, bind.
  by rewrite (field_loop_overrides _ ov ov').
Qed.

Lemma _execute_overrides self ov ov' ctx s :
  (forall f, f ∈ (fields self).*1 -> ov !! f = ov' !! f) ->
  _execute dj cfg self ov ctx s = _execute dj cfg self ov' ctx s.
Proof.
  intros H. destruct s as [w r0]. change {| es_world := w; es_result := r0 |} with (state w r0).
  rewrite !_execute_eq. cbv zeta.
  by rewrite (_apply_field_updates_overrides self ov ov').
Qed.

(** X8: overrides are looked up by the names of the profile's fields only.
    Two override mappings that agree on those names give the same merge:
    the same world afterwards and the same outcome.  In particular an
    override for a field the profile does not list is ignored without
    notice. *)
Theorem overrides_outside_profile_are_ignored self (user : option value)
    (dry_run : option bool) (ov ov' : gmap string value)
    (extra_summary : option (pydict value)) (context : option Context) w :
  (forall f, f ∈ (fields self).*1 -> ov !! f = ov' !! f) ->
  merge dj cfg self user dry_run (Some ov) extra_summary context w =
  merge dj cfg self user dry_run (Some ov') extra_summary context w.
Proof.
  intros H. unfold merge, execute_scope, atomic. cbn [default].
  destruct (_validate_instances dj self (w_target w) (w_donor w)); [|done].
  destruct (default (DRY_RUN_DEFAULT cfg) dry_run);
    by rewrite (_execute_overrides self ov ov').
Qed.

End Overrides.

Lemma overrides_outside_profile_are_ignored_witness :
  merge Cities.django Cities.settings Cities.profile None (Some false)
    (Some (<["mayor" := VStr "nobody"]> ∅)) None None Cities.world =
  merge Cities.django Cities.settings Cities.profile None (Some false)
    (Some ∅) None None Cities.world.
Proof.
  apply (overrides_outside_profile_are_ignored Cities.django Cities.settings
           Cities.profile None (Some false) (<["mayor" := VStr "nobody"]> ∅) ∅).
  intros f Hf. rewrite lookup_empty. apply lookup_insert_None. split; [done|].
  intros <-. revert Hf. vm_compute. intros Hf.
  repeat (apply elem_of_cons in Hf as [Hf|Hf]; [discriminate|]).
  by apply elem_of_nil in Hf.
Defined.

(** ** Relationship transfer: what a real run leaves in the store *)

Section Links.

Implicit Types (r : bool) (o t d pk : Z) (l : Z * Z) (ls : list (Z * Z)) (pks : list Z).

Lemma link_owner_mk r o pk : link_owner r (mk_link r o pk) = o.
Proof. by destruct r. Qed.

Lemma link_other_mk r o pk : link_other r (mk_link r o pk) = pk.
Proof. by destruct r. Qed.

Lemma mk_link_eta r l : mk_link r (link_owner r l) (link_other r l) = l.
Proof. by destruct r, l. Qed.

Lemma mk_link_inj r o pk o' pk' :
  mk_link r o pk = mk_link r o' pk' -> o = o' /\ pk = pk'.
Proof. destruct r; by intros [= -> ->]. Qed.

Lemma elem_of_related_pks r o ls pk :
  pk ∈ related_pks r o ls <-> mk_link r o pk ∈ ls.
Proof.
  unfold related_pks. rewrite list_elem_of_fmap. split.
  - intros (l & -> & [Ho Hl]%list_elem_of_filter). by rewrite <- Ho, mk_link_eta.
  - intros H. exists (mk_link r o pk). rewrite link_other_mk. split; [done|].
    apply list_elem_of_filter. by rewrite link_owner_mk.
Qed.

Lemma elem_of_m2m_add r o pks ls l :
  l ∈ m2m_add r o pks ls <-> l ∈ ls \/ exists pk, pk ∈ pks /\ l = mk_link r o pk.
Proof.
  unfold m2m_add. revert ls. induction pks as [|pk pks IH]; intros ls; cbn [foldl].
  - split; [by left|]. intros [H|(pk & H & _)]; [done|]. by apply elem_of_nil in H.
  - rewrite IH. case_decide as Hin.
    + split.
      * intros [H|(pk' & H & ->)]; [by left|]. right. exists pk'. split; [by right|done].
      * intros [H|(pk' & [->|H]%elem_of_cons & ->)]; [by left|by left|].
        right. by exists pk'.
    + rewrite elem_of_app, list_elem_of_singleton. split.
      * intros [[H| ->]|(pk' & H & ->)]; [by left| |].
        -- right. exists pk. split; [by left|done].
        -- right. exists pk'. split; [by right|done].
      * intros [H|(pk' & [->|H]%elem_of_cons & ->)]; [by left; left|by left; right|].
        right. by exists pk'.
Qed.

Lemma elem_of_m2m_remove r o pks ls l :
  l ∈ m2m_remove r o pks ls <->
  l ∈ ls /\ ~ (link_owner r l = o /\ link_other r l ∈ pks).
Proof. unfold m2m_remove. rewrite list_elem_of_filter. tauto. Qed.

Lemma m2m_remove_nil r o ls : m2m_remove r o [] ls = ls.
Proof.
  unfold m2m_remove. induction ls as [|l ls IH]; [done|].
  rewrite filter_cons_True; [by rewrite IH|].
  intros [_ H]. by apply elem_of_nil in H.
Qed.

Lemma links_moved_nil r t d ls :
  related_pks r d ls = [] -> links_moved r t d ls = ls.
Proof. intros H. unfold links_moved. rewrite H. apply m2m_remove_nil. Qed.

Lemma elem_of_links_moved r t d ls l :
  l ∈ links_moved r t d ls <->
  link_owner r l <> d /\
  (l ∈ ls \/ (link_owner r l = t /\ mk_link r d (link_other r l) ∈ ls)).
Proof.
  unfold links_moved. rewrite elem_of_m2m_remove, elem_of_m2m_add.
  setoid_rewrite elem_of_related_pks. split.
  - intros [[H|(pk & Hpk & ->)] Hn].
    + split; [|by left]. intros Ho. apply Hn. split; [done|].
      by rewrite <- Ho, mk_link_eta.
    + rewrite link_owner_mk, link_other_mk in *. split; [|by right].
      intros ->. by apply Hn.
  - intros [Hd [H|[Ho H]]].
    + split; [by left|]. by intros [? _].
    + split; [|by intros [? _]]. right. exists (link_other r l).
      split; [done|]. by rewrite <- Ho, mk_link_eta.
Qed.

(** After the move the donor owns no link; the target owns its own and the
    donor's; links of other records are as before. *)
Lemma links_moved_donor r t d ls : related_pks r d (links_moved r t d ls) = [].
Proof.
  apply elem_of_nil_inv. intros pk.
  rewrite elem_of_related_pks, elem_of_links_moved, link_owner_mk. by intros [? _].
Qed.

Lemma links_moved_target r t d ls pk :
  t <> d ->
  pk ∈ related_pks r t (links_moved r t d ls) <->
  pk ∈ related_pks r t ls \/ pk ∈ related_pks r d ls.
Proof.
  intros Hne. rewrite !elem_of_related_pks, elem_of_links_moved.
  rewrite link_owner_mk, link_other_mk. split.
  - intros [_ [H|[_ H]]]; [by left|by right].
  - intros [H|H]; (split; [done|]); [by left|by right].
Qed.

Lemma links_moved_others r t d ls l :
  link_owner r l <> t -> link_owner r l <> d ->
  l ∈ links_moved r t d ls <-> l ∈ ls.
Proof.
  intros Ht Hd. rewrite elem_of_links_moved. split.
  - by intros [_ [H|[? _]]].
  - intros H. split; [done|by left].
Qed.

End Links.

Section References.

Implicit Types (t d : Z) (rs : list (Z * Z)).

Lemma refs_update_id d t rs : refs_count d rs = 0%nat -> refs_update d t rs = rs.
Proof.
  unfold refs_count, refs_update. induction rs as [|r rs IH]; [done|].
  destruct (decide (r.2 = d)) as [Hr|Hr].
  - by rewrite filter_cons_True.
  - rewrite filter_cons_False by done. intros H. cbn [fmap list_fmap].
    rewrite decide_False by done. f_equal. by apply IH.
Qed.

Lemma refs_update_count_donor d t rs : t <> d -> refs_count d (refs_update d t rs) = 0%nat.
Proof.
  intros Hne. unfold refs_count, refs_update. induction rs as [|r rs IH]; [done|].
  cbn [fmap list_fmap]. rewrite filter_cons_False; [exact IH|].
  case_decide; cbn; congruence.
Qed.

Lemma refs_update_count_target d t rs :
  t <> d ->
  refs_count t (refs_update d t rs) = (refs_count t rs + refs_count d rs)%nat.
Proof.
  intros Hne. unfold refs_count, refs_update. induction rs as [|r rs IH]; [done|].
  cbn [fmap list_fmap]. destruct (decide (r.2 = d)) as [Hd|Hd].
  - rewrite filter_cons_True by done.
    rewrite (filter_cons_False (fun r => r.2 = t)) by congruence.
    rewrite (filter_cons_True (fun r => r.2 = d)) by done.
    cbn [length]. rewrite IH. lia.
  - rewrite (filter_cons_False (fun r => r.2 = d)) by done.
    destruct (decide (r.2 = t)) as [Ht|Ht].
    + rewrite !filter_cons_True by done. cbn [length]. by rewrite IH.
    + rewrite !filter_cons_False by done. exact IH.
Qed.

Lemma refs_update_idemp d t rs : refs_update d t (refs_update d t rs) = refs_update d t rs.
Proof.
  destruct (decide (t = d)) as [->|Hne].
  - unfold refs_update. rewrite <- list_fmap_compose. apply list_fmap_ext.
    intros _ r _. cbn. destruct (decide (r.2 = d)) as [Hr|Hr]; cbn.
    + by rewrite decide_True.
    + by rewrite decide_False.
  - apply refs_update_id. by apply refs_update_count_donor.
Qed.

Lemma refs_update_children d t rs : (refs_update d t rs).*1 = rs.*1.
Proof.
  unfold refs_update. rewrite <- list_fmap_compose. apply list_fmap_ext.
  intros _ r _. cbn. by case_decide.
Qed.

End References.

Section TransferSteps.

Implicit Types (w : World) (ri : pydict RelationInfo) (P : gset string) (t d : Z).

Lemma transfer_m2m_real name type_ related T reverse ri w t d :
  inst_pk (w_target w) = Some t ->
  inst_pk (w_donor w) = Some d ->
  exists w1 ri1,
    transfer_m2m name type_ related T reverse false ri w = (w1, Ok ri1) /\
    links_of (w_db w1) T = links_moved reverse t d (links_of (w_db w) T).
Proof.
  intros Ht Hd. unfold transfer_m2m, bind, gets, lift_result, manager_pk.
  rewrite Hd, Ht. cbn [negb andb].
  destruct (bool_decide (related_pks reverse d (links_of (w_db w) T) = [])) eqn:Hempty.
  - apply bool_decide_eq_true in Hempty. cbn [negb]. unfold ret.
    eexists _, _. split; [reflexivity|]. by rewrite links_moved_nil.
  - cbn [negb]. unfold m2m_move, bind, modify, ret.
    eexists _, _. split; [reflexivity|].
    cbn [w_db log_events set_db]. rewrite !links_of_set_links.
    by rewrite !decide_True.
Qed.

Lemma transfer_one_to_many_real relation ri w t d :
  inst_pk (w_target w) = Some t ->
  inst_pk (w_donor w) = Some d ->
  exists w1 ri1,
    transfer_one_to_many relation false ri w = (w1, Ok ri1) /\
    refs_of (w_db w1) (rel_related_label relation) (rel_field_name relation) =
      refs_update d t (refs_of (w_db w) (rel_related_label relation)
                         (rel_field_name relation)).
Proof.
  intros Ht Hd. unfold transfer_one_to_many, bind, gets, lift_result, manager_pk.
  rewrite Hd. cbn [negb andb].
  destruct (bool_decide (refs_count d _ = 0%nat)) eqn:Hzero.
  - apply bool_decide_eq_true in Hzero. cbn [negb]. unfold ret.
    eexists _, _. split; [reflexivity|]. by rewrite refs_update_id.
  - cbn [negb]. unfold bulk_update. rewrite Ht. unfold modify, ret.
    eexists _, _. split; [reflexivity|].
    cbn [w_db log_events set_db]. rewrite refs_of_set_refs. by rewrite decide_True.
Qed.

Lemma same_entities_pks w w' t d :
  same_entities w w' ->
  inst_pk (w_target w) = Some t -> inst_pk (w_donor w) = Some d ->
  inst_pk (w_target w') = Some t /\ inst_pk (w_donor w') = Some d.
Proof. intros (-> & -> & _) ??. done. Qed.

Lemma forward_loop_links_other fields dry ri P w w' res T :
  forward_loop fields dry ri P w = (w', res) ->
  T ∉ m2m_through <$> fields ->
  links_of (w_db w') T = links_of (w_db w) T.
Proof.
  revert ri P w. induction fields as [|fld fields IH]; intros ri P w.
  - cbn. unfold ret. by intros [= <- <-].
  - cbn [forward_loop]. unfold bind at 1.
    destruct (transfer_m2m _ _ _ _ _ _ _ w) as [w1 [ri1|e]] eqn:Hstep.
    + intros Hrest [Hne Hnin]%not_elem_of_cons.
      rewrite (IH _ _ _ Hrest Hnin).
      apply transfer_m2m_effect in Hstep as (_ & _ & Hl & _). by apply Hl.
    + intros [= <- <-] [Hne Hnin]%not_elem_of_cons.
      apply transfer_m2m_effect in Hstep as (_ & _ & Hl & _). by apply Hl.
Qed.

Lemma forward_loop_links fields ri P w w' res t d T :
  NoDup (m2m_through <$> fields) ->
  inst_pk (w_target w) = Some t ->
  inst_pk (w_donor w) = Some d ->
  forward_loop fields false ri P w = (w', res) ->
  T ∈ m2m_through <$> fields ->
  links_of (w_db w') T = links_moved false t d (links_of (w_db w) T).
Proof.
  revert ri P w. induction fields as [|fld fields IH]; intros ri P w Hnd Ht Hd.
  - intros _ H. by apply elem_of_nil in H.
  - cbn [fmap list_fmap] in Hnd. apply NoDup_cons in Hnd as [Hfresh Hnd].
    cbn [forward_loop]. unfold bind at 1.
    destruct (transfer_m2m_real (m2m_name fld) "many_to_many" (m2m_related_label fld)
                (m2m_through fld) false ri w t d Ht Hd) as (w1 & ri1 & Hstep & Hmoved).
    rewrite Hstep. intros Hrest.
    pose proof (transfer_m2m_effect _ _ _ _ _ _ _ _ _ _ Hstep) as (_ & Hsame & Hl & _).
    destruct (same_entities_pks _ _ _ _ Hsame Ht Hd) as [Ht1 Hd1].
    intros [->|Hin]%elem_of_cons.
    + rewrite (forward_loop_links_other _ _ _ _ _ _ _ _ Hrest Hfresh). exact Hmoved.
    + rewrite (IH _ _ _ Hnd Ht1 Hd1 Hrest Hin). f_equal. apply Hl.
      intros ->. by apply Hfresh.
Qed.

Lemma reverse_throughs_cons r relations :
  reverse_throughs (r :: relations) =
    if is_reverse_m2m r then rel_through r :: reverse_throughs relations
    else reverse_throughs relations.
Proof.
  unfold reverse_throughs. destruct (is_reverse_m2m r) eqn:Hr.
  - by rewrite filter_cons_True.
  - rewrite filter_cons_False; [done|]. by rewrite Hr.
Qed.

Lemma reverse_loop_links relations ri P w w' ri' t d T :
  inst_pk (w_target w) = Some t ->
  inst_pk (w_donor w) = Some d ->
  reverse_loop relations false ri P w = (w', Ok ri') ->
  links_of (w_db w') T =
    if decide ((T ∉ P) /\ (T ∈ reverse_throughs relations))
    then links_moved true t d (links_of (w_db w) T)
    else links_of (w_db w) T.
Proof.
  revert ri P w. induction relations as [|r relations IH]; intros ri P w Ht Hd.
  - cbn. unfold ret. intros [= <- _]. rewrite decide_False; [done|].
    intros [_ H]. by apply elem_of_nil in H.
  - rewrite reverse_loop_cons, reverse_throughs_cons.
    destruct (is_reverse_m2m r) eqn:Hm2m.
    + case_bool_decide as HP.
      * intros Hrest. rewrite (IH _ _ _ Ht Hd Hrest).
        destruct (decide (T = rel_through r)) as [->|Hne].
        -- rewrite !decide_False by (by intros [? _]). done.
        -- apply decide_ext. rewrite elem_of_cons. tauto.
      * unfold bind at 1.
        destruct (transfer_m2m_real (rel_accessor r) "many_to_many_reverse"
                    (rel_related_label r) (rel_through r) true ri w t d Ht Hd)
          as (w1 & ri1 & Hstep & Hmoved).
        rewrite Hstep. intros Hrest.
        pose proof (transfer_m2m_effect _ _ _ _ _ _ _ _ _ _ Hstep) as (_ & Hsame & Hl & _).
        destruct (same_entities_pks _ _ _ _ Hsame Ht Hd) as [Ht1 Hd1].
        rewrite (IH _ _ _ Ht1 Hd1 Hrest).
        destruct (decide (T = rel_through r)) as [->|Hne].
        -- rewrite decide_False
             by (intros [Hn _]; apply Hn, elem_of_union_l; by apply elem_of_singleton).
           rewrite decide_True by (split; [done|by left]). exact Hmoved.
        -- rewrite (Hl T Hne). apply decide_ext. rewrite elem_of_cons.
           rewrite not_elem_of_union, not_elem_of_singleton. tauto.
    + destruct (is_reverse_fk r) eqn:Hfk; [|by apply IH].
      unfold bind at 1.
      destruct (transfer_one_to_many_real r ri w t d Ht Hd) as (w1 & ri1 & Hstep & _).
      rewrite Hstep. intros Hrest.
      pose proof (transfer_one_to_many_effect _ _ _ _ _ _ Hstep) as (_ & Hsame & Hl & _).
      destruct (same_entities_pks _ _ _ _ Hsame Ht Hd) as [Ht1 Hd1].
      rewrite (IH _ _ _ Ht1 Hd1 Hrest). by rewrite Hl.
Qed.

Lemma reverse_loop_refs relations ri P w w' ri' t d c k :
  inst_pk (w_target w) = Some t ->
  inst_pk (w_donor w) = Some d ->
  reverse_loop relations false ri P w = (w', Ok ri') ->
  refs_of (w_db w') c k =
    if decide ((c, k) ∈ fk_keys relations)
    then refs_update d t (refs_of (w_db w) c k)
    else refs_of (w_db w) c k.
Proof.
  revert ri P w. induction relations as [|r relations IH]; intros ri P w Ht Hd.
  - cbn. unfold ret. intros [= <- _]. rewrite decide_False; [done|].
    intros H. by apply elem_of_nil in H.
  - rewrite reverse_loop_cons, fk_keys_cons.
    destruct (is_reverse_m2m r) eqn:Hm2m.
    + rewrite (is_reverse_m2m_not_fk r Hm2m). case_bool_decide as HP; [by apply IH|].
      unfold bind at 1.
      destruct (transfer_m2m_real (rel_accessor r) "many_to_many_reverse"
                  (rel_related_label r) (rel_through r) true ri w t d Ht Hd)
        as (w1 & ri1 & Hstep & _).
      rewrite Hstep. intros Hrest.
      pose proof (transfer_m2m_effect _ _ _ _ _ _ _ _ _ _ Hstep) as (_ & Hsame & _ & Hr & _).
      destruct (same_entities_pks _ _ _ _ Hsame Ht Hd) as [Ht1 Hd1].
      rewrite (IH _ _ _ Ht1 Hd1 Hrest). by rewrite Hr.
    + destruct (is_reverse_fk r) eqn:Hfk; [|by apply IH].
      unfold bind at 1.
      destruct (transfer_one_to_many_real r ri w t d Ht Hd) as (w1 & ri1 & Hstep & Hupd).
      rewrite Hstep. intros Hrest.
      pose proof (transfer_one_to_many_effect _ _ _ _ _ _ Hstep) as (_ & Hsame & _ & Hr & _).
      destruct (same_entities_pks _ _ _ _ Hsame Ht Hd) as [Ht1 Hd1].
      rewrite (IH _ _ _ Ht1 Hd1 Hrest).
      destruct (decide ((c, k) = (rel_related_label r, rel_field_name r))) as [[= -> ->]|Hne].
      * rewrite Hupd.
        destruct (decide (_ ∈ _ :: _)) as [_|Hn]; [|destruct Hn; by left].
        case_decide; [by rewrite refs_update_idemp|done].
      * rewrite (Hr c k Hne). apply decide_ext. rewrite elem_of_cons. tauto.
Qed.

End TransferSteps.

Section TransferTheorems.

Implicit Types (w : World) (ri : pydict RelationInfo) (P : gset string) (t d : Z).

Lemma _transfer_relations_real_split w w' rels :
  _transfer_relations false w = (w', Ok rels) ->
  exists w1 ri1,
    forward_loop (many_to_many (inst_meta (w_donor w))) false [] ∅ w
      = (w1, Ok (ri1, list_to_set (m2m_through <$> many_to_many (inst_meta (w_donor w))) ∪ ∅)) /\
    reverse_loop (get_fields (inst_meta (w_donor w))) false ri1
      (list_to_set (m2m_through <$> many_to_many (inst_meta (w_donor w))) ∪ ∅) w1
      = (w', Ok rels).
Proof.
  unfold _transfer_relations, transfer_by_meta, bind, gets.
  destruct (forward_loop _ _ _ _ w) as [w1 [[ri1 P1]|e]] eqn:Hfwd; [|discriminate].
  cbn [fst snd]. intros Hrev.
  pose proof (forward_loop_effect _ _ _ _ _ _ _ Hfwd) as (_ & _ & _ & HP).
  destruct (HP ri1 P1 eq_refl) as [-> _]. by exists w1, ri1.
Qed.


(** X10: the same for a reverse many-to-many relation, one whose join table
    is not owned by a field of the model itself: the donor is no longer
    among the records the other model's field points at, the target has
    taken its place, and other records keep their links. *)
Theorem reverse_links_move_to_target w w' rels (r : Relation) t d :
  inst_pk (w_target w) = Some t ->
  inst_pk (w_donor w) = Some d ->
  t <> d ->
  r ∈ get_fields (inst_meta (w_donor w)) ->
  is_reverse_m2m r = true ->
  rel_through r ∉ m2m_through <$> many_to_many (inst_meta (w_donor w)) ->
  _transfer_relations false w = (w', Ok rels) ->
  let before := links_of (w_db w) (rel_through r) in
  let after := links_of (w_db w') (rel_through r) in
  related_pks true d after = [] /\
  (forall pk, pk ∈ related_pks true t after <->
              pk ∈ related_pks true t before \/ pk ∈ related_pks true d before) /\
  (forall l, l.2 <> t -> l.2 <> d -> l ∈ after <-> l ∈ before).
Proof.
  intros Ht Hd Hne Hr Hm2m Hfresh Hrun before after. subst before after.
  destruct (_transfer_relations_real_split _ _ _ Hrun) as (w1 & ri1 & Hfwd & Hrev).
  pose proof (forward_loop_effect _ _ _ _ _ _ _ Hfwd) as (Hsame & _).
  destruct (same_entities_pks _ _ _ _ Hsame Ht Hd) as [Ht1 Hd1].
  rewrite (reverse_loop_links _ _ _ _ _ _ _ _ (rel_through r) Ht1 Hd1 Hrev).
  rewrite decide_True.
  2:{ split.
      - rewrite not_elem_of_union, elem_of_list_to_set. split; [done|].
        apply not_elem_of_empty.
      - unfold reverse_throughs. apply list_elem_of_fmap_2.
        by apply list_elem_of_filter. }
  rewrite (forward_loop_links_other _ _ _ _ _ _ _ _ Hfwd Hfresh).
  split; [apply links_moved_donor|]. split.
  - intros pk. by apply links_moved_target.
  - intros l H1 H2. by apply links_moved_others.
Qed.


End TransferTheorems.


Lemma reverse_links_move_to_target_witness :
  let w := Atlas.world in
  let w' := (_transfer_relations false w).1 in
  related_pks true 2 (links_of (w_db w') "Route_stops") = [] /\
  (forall pk, pk ∈ related_pks true 1 (links_of (w_db w') "Route_stops") <->
              pk ∈ related_pks true 1 (links_of (w_db w) "Route_stops") \/
              pk ∈ related_pks true 2 (links_of (w_db w) "Route_stops")).
Proof.
  intros w w'.
  assert (Hr : Atlas.route_set_rel ∈ get_fields (inst_meta (w_donor w))) by (right; left).
  assert (Hfresh : rel_through Atlas.route_set_rel
                     ∉ m2m_through <$> many_to_many (inst_meta (w_donor w))).
  { apply (bool_decide_unpack _). vm_compute. exact I. }
  destruct (_transfer_relations false w) as [w1 [rels|e]] eqn:Hrun;
    [|vm_compute in Hrun; discriminate].
  destruct (reverse_links_move_to_target w w1 rels Atlas.route_set_rel 1 2 eq_refl eq_refl
              ltac:(discriminate) Hr eq_refl Hfresh Hrun) as (H1 & H2 & _).
  split; [exact H1|exact H2].
Defined.


(** ** Relationship transfer: a donor nothing refers to *)

Section Unrelated.

Implicit Types (w : World) (ri : pydict RelationInfo) (P : gset string) (d : Z) (db : DB).

(** Every relation recorded so far has count zero. *)
Local Abbreviation all_zero ri :=
  (forall name info, dict_get name ri = Some info -> ri_count info = 0%nat).

Lemma unrelated_related_pks reverse d db T :
  unrelated d db -> related_pks reverse d (links_of db T) = [].
Proof.
  intros [Hl _]. apply elem_of_nil_inv. intros pk.
  rewrite elem_of_related_pks. intros Hin.
  destruct (Hl T _ Hin) as [H1 H2]. destruct reverse; cbn in *; congruence.
Qed.

Lemma unrelated_refs_count d db c k : unrelated d db -> refs_count d (refs_of db c k) = 0%nat.
Proof.
  intros [_ Hr]. unfold refs_count.
  rewrite (elem_of_nil_inv (filter _ _)); [done|].
  intros r [Hd Hin]%list_elem_of_filter. by apply (Hr c k r).
Qed.

Lemma dict_set_all_zero name info ri :
  ri_count info = 0%nat -> all_zero ri -> all_zero (dict_set name info ri).
Proof.
  intros Hz Hri name' info'. destruct (decide (name = name')) as [->|Hne].
  - rewrite dict_get_set_eq. by intros [= <-].
  - rewrite dict_get_set_ne by done. apply Hri.
Qed.

Lemma transfer_m2m_unrelated name type_ related T reverse ri w d :
  inst_pk (w_donor w) = Some d ->
  unrelated d (w_db w) ->
  transfer_m2m name type_ related T reverse false ri w =
    transfer_m2m name type_ related T reverse true ri w /\
  forall ri', (transfer_m2m name type_ related T reverse true ri w).2 = Ok ri' ->
              all_zero ri -> all_zero ri'.
Proof.
  intros Hd Hun. unfold transfer_m2m, bind, gets, lift_result, manager_pk. rewrite Hd.
  destruct (inst_pk (w_target w)); [|by split].
  rewrite (unrelated_related_pks reverse d _ T Hun). cbn. split; [done|].
  intros ri' [= <-] Hz. by apply dict_set_all_zero.
Qed.

Lemma transfer_one_to_many_unrelated relation ri w d :
  inst_pk (w_donor w) = Some d ->
  unrelated d (w_db w) ->
  transfer_one_to_many relation false ri w = transfer_one_to_many relation true ri w /\
  forall ri', (transfer_one_to_many relation true ri w).2 = Ok ri' ->
              all_zero ri -> all_zero ri'.
Proof.
  intros Hd Hun. unfold transfer_one_to_many, bind, gets, lift_result, manager_pk.
  rewrite Hd. rewrite (unrelated_refs_count d _ _ _ Hun). cbn. split; [done|].
  intros ri' [= <-] Hz. by apply dict_set_all_zero.
Qed.

Lemma forward_loop_unrelated fields ri P w d :
  inst_pk (w_donor w) = Some d ->
  unrelated d (w_db w) ->
  forward_loop fields false ri P w = forward_loop fields true ri P w /\
  forall ri' P', (forward_loop fields true ri P w).2 = Ok (ri', P') ->
                 all_zero ri -> all_zero ri'.
Proof.
  intros Hd Hun. revert ri P. induction fields as [|fld fields IH]; intros ri P.
  - split; [done|]. cbn. by intros ri' P' [= <- _].
  - cbn [forward_loop]. unfold bind.
    destruct (transfer_m2m_unrelated (m2m_name fld) "many_to_many" (m2m_related_label fld)
                (m2m_through fld) false ri w d Hd Hun) as [-> Hz].
    rewrite transfer_m2m_dry in *. cbn [snd] in Hz.
    destruct (survey_m2m _ _ _ _ _ _ _ _ _) as [ri1|e]; [|by split].
    destruct (IH ri1 ({[m2m_through fld]} ∪ P)) as [-> Hz']. split; [done|].
    intros ri' P' Hres Hri. eapply Hz'; [exact Hres|]. by apply Hz.
Qed.

Lemma reverse_loop_unrelated relations ri P w d :
  inst_pk (w_donor w) = Some d ->
  unrelated d (w_db w) ->
  reverse_loop relations false ri P w = reverse_loop relations true ri P w /\
  forall ri', (reverse_loop relations true ri P w).2 = Ok ri' ->
              all_zero ri -> all_zero ri'.
Proof.
  intros Hd Hun. revert ri P. induction relations as [|r relations IH]; intros ri P.
  - split; [done|]. cbn. by intros ri' [= <-].
  - rewrite !reverse_loop_cons.
    destruct (is_reverse_m2m r).
    + case_bool_decide; [apply IH|]. unfold bind.
      destruct (transfer_m2m_unrelated (rel_accessor r) "many_to_many_reverse"
                  (rel_related_label r) (rel_through r) true ri w d Hd Hun) as [-> Hz].
      rewrite transfer_m2m_dry in *. cbn [snd] in Hz.
      destruct (survey_m2m _ _ _ _ _ _ _ _ _) as [ri1|e]; [|by split].
      destruct (IH ri1 ({[rel_through r]} ∪ P)) as [-> Hz']. split; [done|].
      intros ri' Hres Hri. eapply Hz'; [exact Hres|]. by apply Hz.
    + destruct (is_reverse_fk r); [|apply IH]. unfold bind.
      destruct (transfer_one_to_many_unrelated r ri w d Hd Hun) as [-> Hz].
      rewrite transfer_one_to_many_dry in *. cbn [snd] in Hz.
      destruct (survey_one_to_many _ _ _ _) as [ri1|e]; [|by split].
      destruct (IH ri1 P) as [-> Hz']. split; [done|].
      intros ri' Hres Hri. eapply Hz'; [exact Hres|]. by apply Hz.
Qed.

(** X12: a donor that nothing refers to.  When no link and no reference
    column points at the donor, relationship transfer in a real run is the
    dry run: it issues no write and leaves the world as it is, and every
    relation it reports has count zero. *)
Theorem unrelated_donor_transfers_nothing w d :
  inst_pk (w_donor w) = Some d ->
  unrelated d (w_db w) ->
  _transfer_relations false w = _transfer_relations true w /\
  (_transfer_relations false w).1 = w /\
  forall rels name info,
    (_transfer_relations false w).2 = Ok rels ->
    dict_get name rels = Some info -> ri_count info = 0%nat.
Proof.
  intros Hd Hun.
  assert (Heq : _transfer_relations false w = _transfer_relations true w /\
                forall rels, (_transfer_relations true w).2 = Ok rels -> all_zero rels).
  { unfold _transfer_relations, transfer_by_meta, bind, gets.
    destruct (forward_loop_unrelated (many_to_many (inst_meta (w_donor w))) [] ∅ w d Hd Hun)
      as [-> Hz].
    rewrite forward_loop_dry in *. cbn [snd] in Hz.
    destruct (survey_forward _ _ _ _ _ _) as [[ri1 P1]|e]; [|by split].
    cbn [fst snd].
    destruct (reverse_loop_unrelated (get_fields (inst_meta (w_donor w))) ri1 P1 w d Hd Hun)
      as [-> Hz']. split; [done|].
    intros rels Hres. eapply Hz'; [exact Hres|]. by apply (Hz ri1 P1). }
  destruct Heq as [Heq Hz]. rewrite Heq. split; [done|].
  rewrite _transfer_relations_dry. split; [done|].
  intros rels name info Hres. apply Hz. by rewrite _transfer_relations_dry.
Qed.

End Unrelated.

Lemma unrelated_donor_transfers_nothing_witness :
  let w := Atlas.lonely_world in
  inst_pk (w_donor w) = Some 3 /\
  unrelated 3 (w_db w) /\
  _transfer_relations false w = _transfer_relations true w /\
  (_transfer_relations false w).1 = w.
Proof.
  intros w.
  assert (Hun : unrelated 3 (w_db w)).
  { split.
    - intros T l. unfold links_of. cbn.
      destruct (decide (T = "Route_stops")) as [->|H1].
      { rewrite lookup_insert_eq. cbn. intros Hin.
        repeat (apply elem_of_cons in Hin as [->|Hin]; [by split|]).
        by apply elem_of_nil in Hin. }
      rewrite lookup_insert_ne by done.
      destruct (decide (T = "City_tags")) as [->|H2].
      { rewrite lookup_insert_eq. cbn. intros Hin.
        repeat (apply elem_of_cons in Hin as [->|Hin]; [by split|]).
        by apply elem_of_nil in Hin. }
      rewrite lookup_insert_ne by done. rewrite lookup_empty. cbn.
      intros Hin. by apply elem_of_nil in Hin.
    - intros c k r. unfold refs_of. cbn.
      destruct (decide ((c, k) = ("merge_manager.Office", "city"))) as [[= -> ->]|H1].
      { rewrite lookup_insert_eq. cbn. intros Hin.
        repeat (apply elem_of_cons in Hin as [->|Hin]; [done|]).
        by apply elem_of_nil in Hin. }
      rewrite lookup_insert_ne by done. rewrite lookup_empty. cbn.
      intros Hin. by apply elem_of_nil in Hin. }
  destruct (unrelated_donor_transfers_nothing w 3 eq_refl Hun) as (H1 & H2 & _).
  split; [reflexivity|]. split; [exact Hun|]. split; [exact H1|exact H2].
Defined.

(** ** Soft delete *)

Section SoftDelete.

Context (cfg : Settings) (self : MergeProfile).
Implicit Types (w : World).

Lemma save_audit (x : Instance) (update_fields : list string) w w' res :
  save x update_fields w = (w', res) -> w_audit w' = w_audit w.
Proof.
  unfold save. destruct (inst_pk x) as [pk|]; [|by intros [= <- <-]].
  unfold bind, modify, gets, raise. cbn [w_db log_events].
  destruct (db_rows (w_db w) !! (inst_class x, pk)); by intros [= <- <-].
Qed.

Lemma _apply_soft_delete_audit dry w w' res :
  _apply_soft_delete cfg self dry w = (w', res) -> w_audit w' = w_audit w.
Proof.
  unfold _apply_soft_delete.
  destruct (get_soft_delete_field cfg self) as [f|]; [|by intros [= <- <-]].
  case_bool_decide; [by intros [= <- <-]|].
  unfold bind at 1, gets at 1.
  destruct (negb (hasattr (w_donor w) f)); [by intros [= <- <-]|].
  unfold bind at 1, lift_result.
  destruct (getattr (w_donor w) f) as [prev|e]; [|by intros [= <- <-]].
  destruct dry; [by intros [= <- <-]|].
  unfold bind at 1, modify at 1. unfold bind at 1.
  destruct (save _ _ _) as [w1 [[]|e]] eqn:Hsave;
    apply save_audit in Hsave; by intros [= <- <-].
Qed.

(** X13: what soft delete does to the donor in a real run.  When the
    effective soft-delete field is a non-empty name and the donor has that
    attribute, the attribute is set to the soft-delete value and saved with
    that one column: the donor's record differs from what it was in that
    column only, no other record changes, and the section reports the field,
    its previous value and the value written. *)
Theorem soft_delete_marks_donor w w' info f :
  get_soft_delete_field cfg self = Some f ->
  f <> "" ->
  is_Some (inst_attrs (w_donor w) !! f) ->
  _apply_soft_delete cfg self false w = (w', Ok info) ->
  let v := get_soft_delete_value cfg self in
  let key := (inst_class (w_donor w)) in
  exists d row prev,
    inst_pk (w_donor w) = Some d /\
    db_rows (w_db w) !! (key, d) = Some row /\
    inst_attrs (w_donor w) !! f = Some prev /\
    inst_attrs (w_donor w') = <[f := v]> (inst_attrs (w_donor w)) /\
    db_rows (w_db w') = <[(key, d) := <[f := v]> row]> (db_rows (w_db w)) /\
    w_log w' = w_log w ++ [EvSave key d [f]] /\
    w_target w' = w_target w /\
    info = [("applied", VBool true); ("field", VStr f);
            ("from", _serialize_value prev); ("to", _serialize_value v);
            ("dry_run", VBool false)].
Proof.
  intros Hf Hne [prev Hprev] Hrun v key. subst v key. revert Hrun.
  unfold _apply_soft_delete. rewrite Hf. rewrite bool_decide_eq_false_2 by done.
  unfold bind, gets, hasattr, lift_result, getattr. rewrite Hprev.
  rewrite bool_decide_eq_true_2 by by eexists. cbn [negb].
  unfold modify, save. cbn [inst_pk setattr inst_class w_donor set_donor].
  destruct (inst_pk (w_donor w)) as [d|] eqn:Hd; [|discriminate].
  unfold bind, modify, gets. cbn [w_db log_events set_donor].
  destruct (db_rows (w_db w) !! (inst_class (w_donor w), d)) as [row|] eqn:Hrow;
    [|discriminate].
  unfold ret. intros [= <- <-]. exists d, row, prev.
  cbn. rewrite lookup_insert_eq. done.
Qed.


End SoftDelete.

Lemma soft_delete_marks_donor_witness :
  let w := Cities.world in
  let w' := (_apply_soft_delete Cities.settings Cities.profile false w).1 in
  inst_attrs (w_donor w') !! "is_active" = Some (VBool false) /\
  (exists row, db_rows (w_db w') !! ("City", 2) = Some row /\
               row !! "is_active" = Some (VBool false) /\
               row !! "name" = Some (VStr "Donor")) /\
  w_log w' = [EvSave "City" 2 ["is_active"]].
Proof.
  intros w w'.
  destruct (_apply_soft_delete Cities.settings Cities.profile false w)
    as [w1 [info|e]] eqn:Hrun; [|vm_compute in Hrun; discriminate].
  destruct (soft_delete_marks_donor Cities.settings Cities.profile w w1 info "is_active"
              eq_refl ltac:(discriminate) ltac:(by eexists) Hrun)
    as (d & row & prev & Hd & Hrow & _ & Hattrs & Hrows & Hlog & _).
  injection Hd as <-. subst w'. cbn [fst]. rewrite Hattrs, Hrows, Hlog.
  split; [by rewrite lookup_insert_eq|]. split; [|reflexivity].
  exists (<["is_active" := VBool false]> row). rewrite lookup_insert_eq.
  split; [reflexivity|]. split; [by rewrite lookup_insert_eq|].
  rewrite lookup_insert_ne by done. vm_compute in Hrow. injection Hrow as <-.
  reflexivity.
Defined.


(** ** The executor: what a run leaves of the result and the audit table *)

Section ExecutionFrames.

Context (dj : Django) (cfg : Settings) (self : MergeProfile).
Implicit Types (w : World) (s : ExecState) (ov : gmap string value) (ctx : Context).
Implicit Types (r : MergeResult).

(** The parts of an execution state that [_execute] leaves alone: the audit
    table, and of the result everything but its four sections. *)
Local Abbreviation kept w r s :=
  (w_audit (es_world s) = w_audit w /\
   res_profile (es_result s) = res_profile r /\
   res_dry_run (es_result s) = res_dry_run r /\
   res_status (es_result s) = res_status r /\
   res_error (es_result s) = res_error r /\
   res_audit_record (es_result s) = res_audit_record r).

Lemma delete_donor_audit w w' res :
  delete_donor w = (w', res) -> w_audit w' = w_audit w.
Proof.
  unfold delete_donor, bind, gets, raise, modify.
  destruct (inst_pk (w_donor w)); by intros [= <- <-].
Qed.

Lemma _execute_kept ov ctx w r0 s1 res :
  _execute dj cfg self ov ctx (state w r0) = (s1, res) -> kept w r0 s1.
Proof.
  rewrite _execute_eq. cbv zeta.
  destruct (pre_hooks_verdict _ _ _ _ _) as [[]|e]; [|by intros [= <- <-]].
  destruct (_apply_field_updates _ _ _ _ _ _ _) as [w2 [changed|e]] eqn:H2;
    apply _apply_field_updates_frame in H2 as (_ & Ha2 & _);
    [|by intros [= <- <-]].
  destruct (_transfer_relations _ _) as [w3 [rels|e]] eqn:H3;
    apply _transfer_relations_effect in H3 as (_ & _ & Ha3 & _);
    [|intros [= <- <-]; cbn; by rewrite Ha3].
  destruct (hard_delete self).
  - destruct (post_hooks_verdict _ _ _ _ _ _) as [[]|e];
      [|intros [= <- <-]; cbn; by rewrite Ha3].
    destruct (res_dry_run r0) eqn:Hdry; [intros [= <- <-]; cbn; by rewrite Ha3|].
    destruct (delete_donor w3) as [w5 [[]|e]] eqn:H5;
      apply delete_donor_audit in H5; intros [= <- <-]; cbn; by rewrite H5, Ha3.
  - destruct (_apply_soft_delete _ _ _ _) as [w4 [soft|e]] eqn:H4;
      apply _apply_soft_delete_audit in H4;
      [|intros [= <- <-]; cbn; by rewrite H4, Ha3].
    destruct (post_hooks_verdict _ _ _ _ _ _) as [[]|e];
      intros [= <- <-]; cbn; by rewrite H4, Ha3.
Qed.

Lemma execute_scope_kept dry ov ctx w r0 s1 res :
  execute_scope dj cfg self dry ov ctx (state w r0) = (s1, res) -> kept w r0 s1.
Proof.
  unfold execute_scope. destruct dry; [apply _execute_kept|].
  unfold atomic. cbn [es_world es_result state].
  fold (state (log_events [EvAtomicEnter] w) r0).
  destruct (_execute _ _ _ _ _ _) as [s' res'] eqn:Hrun.
  apply _execute_kept in Hrun. cbn [w_audit log_events] in Hrun.
  destruct res'; intros [= <- <-]; exact Hrun.
Qed.

End ExecutionFrames.

Section Audit.

Context (dj : Django) (cfg : Settings) (self : MergeProfile).
Context (user : option value) (field_overrides : option (gmap string value)).
Context (extra_summary : option (pydict value)) (context : option Context).
Implicit Types (w : World) (r : MergeResult).

(** X15: every merge that returns is audited, dry runs included.  The
    result has status [dry_run] or [completed] by its mode and no error.
    With an audit model configured, the audit table has grown by exactly one
    record, the one attached to the result: it carries the profile's label,
    the status and mode of the result, an empty message, the keys of the two
    objects as they are after the merge, and the four sections of the
    result.  With auditing switched off the table is untouched and the
    result has no audit record. *)
Theorem returned_merge_is_audited_once (dry : bool) w w' r :
  merge dj cfg self user (Some dry) field_overrides extra_summary context w
    = (w', Returned r) ->
  res_status r = (if dry then "dry_run" else "completed") /\
  res_error r = None /\
  res_dry_run r = dry /\
  match AUDIT_MODEL cfg with
  | None => w_audit w' = w_audit w /\ res_audit_record r = None
  | Some _ =>
      exists kw,
        w_audit w' = w_audit w ++ [kw] /\
        res_audit_record r = Some kw /\
        au_profile kw = label self /\
        au_status kw = res_status r /\
        au_dry_run kw = dry /\
        au_message kw = "" /\
        au_target_object_id kw = pk_str (inst_pk (w_target w')) /\
        au_donor_object_id kw = pk_str (inst_pk (w_donor w')) /\
        sum_fields (au_summary kw) = res_changed_fields r /\
        sum_relations (au_summary kw) = res_relations r /\
        sum_soft_delete (au_summary kw) = res_soft_delete r /\
        sum_hard_delete (au_summary kw) = res_hard_delete r
  end.
Proof.
  intros Hrun.
  destruct (merge_returned dj cfg self user field_overrides extra_summary context
              dry w w' r Hrun) as (s1 & Hexec & Haudit).
  apply execute_scope_kept in Hexec as (Ha & Hp & Hd & _ & He & Hrec).
  cbn in Hp, Hd, He, Hrec. rewrite He in Haudit.
  destruct (AUDIT_MODEL cfg) as [am|] eqn:Ham.
  - rewrite (_write_audit_enabled cfg am user extra_summary _ Ham) in Haudit.
    cbv zeta in Haudit.
    destruct (am_create am _) as [e|]; [discriminate|].
    injection Haudit as <- <-. cbn.
    rewrite Hd. split; [by destruct dry|]. split; [done|]. split; [done|].
    eexists. split; [by rewrite Ha|]. split; [reflexivity|].
    cbn. rewrite Hp, Hd. by destruct dry.
  - rewrite (_write_audit_disabled cfg user extra_summary _ Ham) in Haudit.
    injection Haudit as <- <-. cbn. rewrite Hd, Hrec.
    split; [by destruct dry|]. done.
Qed.

End Audit.

Section HardDeleteAudit.

Context (dj : Django) (cfg : Settings) (self : MergeProfile).
Context (user : option value) (field_overrides : option (gmap string value)).
Context (extra_summary : option (pydict value)) (context : option Context).
Implicit Types (w : World) (r : MergeResult).

(** X16: the audit record of a hard delete.  The record is written after
    [donor.delete()], when the donor object has already lost its key, so its
    [donor_object_id] is the text [None]; the donor's key survives only in
    the [pk] entry of the hard-delete section of the summary.  The target's
    id is its key as before the merge. *)
Theorem hard_delete_audit_has_no_donor_id w w' r :
  hard_delete self = true ->
  is_Some (AUDIT_MODEL cfg) ->
  merge dj cfg self user (Some false) field_overrides extra_summary context w
    = (w', Returned r) ->
  exists pk kw,
    inst_pk (w_donor w) = Some pk /\
    res_audit_record r = Some kw /\
    au_donor_object_id kw = "None" /\
    au_target_object_id kw = pk_str (inst_pk (w_target w)) /\
    dict_get "pk" (sum_hard_delete (au_summary kw)) = Some (VStr (pretty pk)).
Proof.
  intros Hhd [am Ham] Hrun.
  destruct (merge_returned dj cfg self user field_overrides extra_summary context
              false w w' r Hrun) as (s1 & Hexec & Haudit).
  unfold execute_scope in Hexec.
  apply atomic_ok in Hexec as (s' & Hexec & ->).
  apply _execute_ok in Hexec
    as (w2 & changed & w3 & rels & w4 & soft & Hfields & Hrels & Hsoft & _ & Hend).
  cbn [res_dry_run new_result] in *. rewrite Hhd in Hsoft, Hend.
  destruct Hsoft as [-> ->]. destruct Hend as (w5 & Hdel & ->).
  apply _apply_field_updates_frame in Hfields as (Hd2 & _ & Hpk2 & _).
  apply _transfer_relations_effect in Hrels as (Ht3 & Hd3 & _).
  apply delete_donor_ok in Hdel as (pk & Hpk & Ht5 & Hd5 & _).
  rewrite (_write_audit_enabled cfg am user extra_summary _ Ham) in Haudit.
  cbv zeta in Haudit. destruct (am_create am _) as [e|]; [discriminate|].
  injection Haudit as <- <-.
  exists pk. eexists. split; [by rewrite <- Hpk, Hd3, Hd2|].
  split; [reflexivity|]. cbn. rewrite Hd5, Ht5, Ht3, Hpk2, Hpk. done.
Qed.

End HardDeleteAudit.

Lemma returned_merge_is_audited_once_witness :
  let run := merge Cities.django Cities.settings Cities.profile None (Some true)
               None None None Cities.world in
  exists r kw,
    run.2 = Returned r /\
    res_status r = "dry_run" /\
    w_audit run.1 = [kw] /\
    res_audit_record r = Some kw /\
    au_status kw = "dry_run" /\
    au_dry_run kw = true.
Proof.
  intros run.
  destruct run as [w' [r|e p]] eqn:Hrun; [|vm_compute in Hrun; discriminate].
  destruct (returned_merge_is_audited_once Cities.django Cities.settings Cities.profile
              None None None None true Cities.world w' r Hrun)
    as (Hst & _ & _ & kw & Haud & Hrec & _ & Hkst & Hkdry & _).
  exists r, kw. rewrite Hkst, Hst. by repeat split.
Defined.

Lemma hard_delete_audit_has_no_donor_id_witness :
  let run := merge Cities.django Cities.settings Cities.profile_hard_delete None
               (Some false) None None None Cities.world in
  exists r kw,
    run.2 = Returned r /\
    res_audit_record r = Some kw /\
    au_donor_object_id kw = "None" /\
    au_target_object_id kw = "1" /\
    dict_get "pk" (sum_hard_delete (au_summary kw)) = Some (VStr "2").
Proof.
  intros run.
  destruct run as [w' [r|e p]] eqn:Hrun; [|vm_compute in Hrun; discriminate].
  destruct (hard_delete_audit_has_no_donor_id Cities.django Cities.settings
              Cities.profile_hard_delete None None None None Cities.world w' r
              eq_refl ltac:(by eexists) Hrun)
    as (pk & kw & Hpk & Hrec & Hdonor & Htarget & Hsum).
  injection Hpk as <-. exists r, kw. by repeat split.
Defined.

(** ** Failure: what is rolled back and what is not *)

Section Rollback.

Context (dj : Django) (cfg : Settings) (self : MergeProfile).
Context (user : option value) (field_overrides : option (gmap string value)).
Context (extra_summary : option (pydict value)) (context : option Context).
Implicit Types (w : World) (r : MergeResult).

Lemma _write_audit_world s s' res :
  _write_audit cfg user extra_summary s = (s', res) ->
  w_target (es_world s') = w_target (es_world s) /\
  w_donor (es_world s') = w_donor (es_world s) /\
  w_db (es_world s') = w_db (es_world s) /\
  exists evs, w_log (es_world s') = w_log (es_world s) ++ evs.
Proof.
  destruct s as [w r], s' as [w' r']. intros H.
  apply (_write_audit_effect cfg user extra_summary w r w' r' res) in H
    as (Ht & Hd & Hdb & _ & _ & _ & _ & _ & Hlog).
  cbn. repeat split; try done.
  destruct Hlog as [->| ->]; [exists []; by rewrite app_nil_r|by eexists].
Qed.


(** X18: an audit table that cannot be written turns a merge that went
    through into an exception, and the merge stays committed.  When the
    execution of a real run has succeeded and the audit model refuses the
    record, [merge] raises the audit model's exception; the world it leaves
    is the one the execution left, its transaction committed, and the result
    the caller never sees is marked completed and has no audit record. *)
Theorem audit_failure_after_commit w s1 (am : AuditModel) (audit_exc : exn) :
  _validate_instances dj self (w_target w) (w_donor w) = Ok tt ->
  execute_scope dj cfg self false (default ∅ field_overrides)
    (base_context_of self false context) (state w (new_result self false))
    = (s1, Ok tt) ->
  AUDIT_MODEL cfg = Some am ->
  (forall kw, am_create am kw = Some audit_exc) ->
  let out := merge dj cfg self user (Some false) field_overrides extra_summary context w in
  out.1 = es_world s1 /\
  (exists partial,
     out.2 = Raised audit_exc (Some partial) /\
     res_status partial = "completed" /\
     res_audit_record partial = None) /\
  last (w_log out.1) = Some EvAtomicCommit.
Proof.
  intros Hval Hexec Ham Hfail out. subst out.
  rewrite (merge_some dj cfg self user field_overrides extra_summary context false w).
  rewrite Hval, Hexec.
  rewrite (_write_audit_enabled cfg am user extra_summary _ Ham). cbv zeta.
  rewrite Hfail. cbn [fst snd mark es_world es_result].
  pose proof (execute_scope_kept _ _ _ _ _ _ _ _ _ _ Hexec) as (_ & _ & _ & _ & _ & Hrec).
  split; [done|]. split.
  - eexists. split; [reflexivity|]. split; [reflexivity|]. exact Hrec.
  - unfold execute_scope in Hexec. apply atomic_ok in Hexec as (s' & _ & ->).
    cbn. apply last_snoc.
Qed.

End Rollback.


Lemma audit_failure_after_commit_witness :
  let out := merge Cities.django Cities.settings_audit_down Cities.profile None
               (Some false) None None None Cities.world in
  (exists partial,
     out.2 = Raised (DatabaseError "audit table is unavailable") (Some partial)) /\
  last (w_log out.1) = Some EvAtomicCommit /\
  refs_of (w_db out.1) "merge_manager.Office" "city" = [(100, 1)].
Proof.
  intros out.
  destruct (execute_scope Cities.django Cities.settings_audit_down Cities.profile false ∅
              (base_context_of Cities.profile false None)
              (state Cities.world (new_result Cities.profile false)))
    as [s1 [[]|exc]] eqn:Hexec; [|vm_compute in Hexec; discriminate].
  destruct (audit_failure_after_commit Cities.django Cities.settings_audit_down
              Cities.profile None None None None Cities.world s1 _
              (DatabaseError "audit table is unavailable") eq_refl Hexec eq_refl
              (fun _ => eq_refl))
    as (Hw & (partial & Hout & _) & Hlast).
  fold out in Hw, Hout, Hlast.
  split; [by exists partial|]. split; [exact Hlast|].
  rewrite Hw. vm_compute in Hexec. injection Hexec as <-. reflexivity.
Defined.

(** ** The settings proxy *)

Section Settings.

Implicit Types (imp : string -> result pyobj) (s : MergeManagerSettings) (attr : string).

Lemma import_values_keys imp entries resolved :
  import_values imp entries = Ok resolved ->
  dict_keys resolved = dict_keys entries /\
  Forall2 (fun e r => import_item imp e.2 = Ok r.2) entries resolved.
Proof.
  revert resolved. induction entries as [|[k path] entries IH]; intros resolved.
  - intros [= <-]. by split.
  - cbn [import_values]. destruct (import_item imp path) as [x|e] eqn:Hx; [|discriminate].
    destruct (import_values imp entries) as [xs|e]; [|discriminate].
    intros [= <-]. destruct (IH xs eq_refl) as [Hk Hf]. split.
    + unfold dict_keys in *. cbn. by rewrite Hk.
    + by constructor.
Qed.

(** X19: a setting is resolved once.  After a read that returned, any later
    read of the same name returns the same value from the cache, without
    importing anything, whatever [import_string] would resolve by then; the
    read has touched neither the user's settings nor the cached value of any
    other name.  Only [reload] makes the next read resolve the setting
    again, from the user's settings as they are. *)
Theorem setting_is_resolved_once imp imp' attr s s' (v : pyobj) :
  __getattr__ imp attr s = (s', Ok v) ->
  __getattr__ imp' attr s' = (s', Ok v) /\
  _user_settings s' = _user_settings s /\
  (forall other, other <> attr -> dict_get other (_cached s') = dict_get other (_cached s)) /\
  _cached (reload s').1 = [] /\
  __getattr__ imp' attr (reload s').1 =
    __getattr__ imp' attr {| _user_settings := _user_settings s; _cached := [] |}.
Proof.
  unfold __getattr__, reload, modify. cbn [fst _cached _user_settings].
  destruct (dict_get attr DEFAULTS) as [dflt|]; [|discriminate].
  destruct (dict_get attr (_cached s)) as [c|] eqn:Hc.
  - intros [= <- <-]. rewrite Hc. by repeat split.
  - destruct (_perform_import imp attr _) as [x|e]; [|discriminate].
    intros [= <- <-]. cbn [_cached _user_settings].
    rewrite dict_get_set_eq. split; [done|]. split; [done|]. split; [|done].
    intros other Hne. by rewrite dict_get_set_ne.
Qed.

(** X20: a read that raises caches nothing.  A name that is not one of the
    package's settings raises [AttributeError], also when the user's
    settings define it; and whenever a read raises, because of the name or
    because an import failed, the proxy is left as it was. *)
Theorem failed_setting_read_caches_nothing imp attr s :
  (dict_get attr DEFAULTS = None ->
   __getattr__ imp attr s =
     (s, Raise (AttributeError ("Invalid merge manager setting: " +:+ attr)))) /\
  (forall s' e, __getattr__ imp attr s = (s', Raise e) -> s' = s).
Proof.
  unfold __getattr__. split.
  - by intros ->.
  - intros s' e. destruct (dict_get attr DEFAULTS); [|by intros [= <- _]].
    destruct (dict_get attr (_cached s)); [discriminate|].
    destruct (_perform_import imp attr _); [discriminate|by intros [= <- _]].
Qed.

(** X21: the user's [FIELD_STRATEGIES] replace the defaults, they are not
    merged with them.  When the user's settings give a mapping for
    [FIELD_STRATEGIES], the resolved setting has exactly the user's names, in
    the user's order: each string value is imported, every other value is
    kept as it is, and a built-in name the user did not repeat is not in the
    setting. *)
Theorem user_strategies_replace_defaults imp s s' (entries : pydict pyobj) (v : pyobj) :
  dict_get "FIELD_STRATEGIES" (_cached s) = None ->
  dict_get "FIELD_STRATEGIES" (_user_settings s) = Some (ODict entries) ->
  __getattr__ imp "FIELD_STRATEGIES" s = (s', Ok v) ->
  exists resolved,
    v = ODict resolved /\
    dict_keys resolved = dict_keys entries /\
    Forall2 (fun e r => import_item imp e.2 = Ok r.2) entries resolved /\
    (forall name, name ∉ dict_keys entries -> dict_get name resolved = None).
Proof.
  intros Hc Hu. unfold __getattr__. rewrite Hc, Hu.
  destruct (dict_get "FIELD_STRATEGIES" DEFAULTS) eqn:Hd; [|vm_compute in Hd; discriminate Hd].
  cbn [default from_option]. unfold _perform_import.
  rewrite bool_decide_eq_false_2.
  2:{ intros H. apply H. left. }
  rewrite bool_decide_eq_true_2 by done.
  cbn. destruct (import_values imp entries) as [resolved|e] eqn:Hres; [|discriminate].
  intros [= _ <-]. exists resolved.
  destruct (import_values_keys _ _ _ Hres) as [Hk Hf].
  split; [done|]. split; [done|]. split; [done|].
  intros name Hn. apply dict_get_not_in. unfold dict_keys in *. by rewrite Hk.
Qed.

End Settings.

Lemma setting_is_resolved_once_witness :
  exists s0 s1 v,
    MergeManagerSettings_init None Atlas.user_settings = Ok s0 /\
    __getattr__ Atlas.importer "FIELD_STRATEGIES" s0 = (s1, Ok v) /\
    __getattr__ (fun path => Raise (ImportError path)) "FIELD_STRATEGIES" s1 = (s1, Ok v).
Proof.
  destruct (MergeManagerSettings_init None Atlas.user_settings) as [s0|e] eqn:Hinit;
    [|discriminate].
  destruct (__getattr__ Atlas.importer "FIELD_STRATEGIES" s0) as [s1 [v|e]] eqn:Hread.
  2:{ injection Hinit as <-. vm_compute in Hread. discriminate. }
  exists s0, s1, v. split; [reflexivity|]. split; [exact Hread|].
  exact (proj1 (setting_is_resolved_once Atlas.importer _ _ s0 s1 v Hread)).
Defined.

Lemma user_strategies_replace_defaults_witness :
  let s0 := {| _user_settings :=
                 [("FIELD_STRATEGIES", ODict [("longest", OOpaque "atlas.strategies.longest")]);
                  ("DRY_RUN_DEFAULT", OBool true)];
               _cached := [] |} in
  MergeManagerSettings_init None Atlas.user_settings = Ok s0 /\
  exists s1 resolved,
    __getattr__ Atlas.importer "FIELD_STRATEGIES" s0 = (s1, Ok (ODict resolved)) /\
    dict_keys resolved = ["longest"] /\
    dict_get "concat" resolved = None.
Proof.
  intros s0. split; [reflexivity|].
  destruct (__getattr__ Atlas.importer "FIELD_STRATEGIES" s0) as [s1 [v|e]] eqn:Hread;
    [|vm_compute in Hread; discriminate].
  destruct (user_strategies_replace_defaults Atlas.importer s0 s1
              [("longest", OOpaque "atlas.strategies.longest")] v eq_refl eq_refl Hread)
    as (resolved & -> & Hk & _ & Hnone).
  exists s1, resolved. split; [reflexivity|].
  split; [exact Hk|]. apply Hnone. cbn.
  intros Hin. apply list_elem_of_singleton in Hin. discriminate.
Defined.

(** ** Loading the registry from the settings *)

Section Loading.

Context (dj : Django).
Context (import_source call : string -> M MergeProfileRegistry Source).
Context (MergeProfile_of : pydict pyobj -> result MergeProfile).
Context (recursion_limit : nat).
Implicit Types (ps : list MergeProfile) (reg : MergeProfileRegistry).

Local Abbreviation load :=
  (load_profiles_from_settings dj import_source call MergeProfile_of recursion_limit).

Local Abbreviation register_all :=
  (fun item : Source =>
     let! profiles := _resolve_profile_source import_source call recursion_limit item in
     for_each profiles (fun profile =>
       let! _ := register_source dj MergeProfile_of profile in ret tt)).

Lemma _resolve_profile_source_profile depth (p : MergeProfile) reg :
  _resolve_profile_source import_source call depth (SProfile p) reg = (reg, Ok [SProfile p]).
Proof. by destruct depth. Qed.

(** Registering a list of profiles one after the other. *)
Lemma register_profiles ps reg :
  NoDup (label <$> ps) ->
  (forall p, p ∈ ps -> label p <> "" /\ exists cls, get_model_class dj p = Ok cls) ->
  exists reg',
    for_each (SProfile <$> ps) register_all reg = (reg', Ok tt) /\
    (forall p, p ∈ ps -> _profiles reg' !! label p = Some p) /\
    (forall l, l ∉ label <$> ps -> _profiles reg' !! l = _profiles reg !! l) /\
    (forall cls,
       _model_index reg' !! cls = _model_index reg !! cls \/
       exists q, q ∈ ps /\ get_model_class dj q = Ok cls /\
                 _model_index reg' !! cls = Some q).
Proof.
  revert reg. induction ps as [|p ps IH]; intros reg Hnd Hok.
  - exists reg. split; [done|]. split; [|split; [done|by left]].
    intros p Hp. by apply elem_of_nil in Hp.
  - cbn [fmap list_fmap] in Hnd. apply NoDup_cons in Hnd as [Hfresh Hnd].
    destruct (Hok p ltac:(left)) as [Hl [cls Hcls]].
    destruct (IH {| _profiles := <[label p := p]> (_profiles reg);
                    _model_index := <[cls := p]> (_model_index reg) |} Hnd)
      as (reg' & Hrun & Hget & Hother & Hindex).
    { intros q Hq. apply Hok. by right. }
    exists reg'. split.
    { cbn [fmap list_fmap for_each]. unfold bind at 1. unfold bind at 1.
      rewrite _resolve_profile_source_profile. cbn [for_each register_source].
      unfold bind at 1. unfold bind at 1. rewrite (register_ok dj p cls reg Hl Hcls).
      unfold ret at 1. unfold ret at 1. exact Hrun. }
    split; [|split].
    + intros q [->|Hq]%elem_of_cons; [|by apply Hget].
      rewrite (Hother _ Hfresh). cbn. by rewrite lookup_insert_eq.
    + intros l [Hne Hl']%not_elem_of_cons. rewrite (Hother _ Hl'). cbn.
      by rewrite lookup_insert_ne.
    + intros c. destruct (Hindex c) as [Hsame|(q & Hq & Hqc & Hqi)].
      * cbn in Hsame. destruct (decide (c = cls)) as [->|Hne].
        -- right. exists p. split; [by left|]. split; [done|].
           by rewrite Hsame, lookup_insert_eq.
        -- left. by rewrite Hsame, lookup_insert_ne.
      * right. exists q. split; [by right|done].
Qed.

(** X22: loading replaces the registry.  When [PROFILES] lists profile
    objects with pairwise distinct, non-empty labels and resolvable models,
    and there is nothing to auto-discover, [load_profiles_from_settings]
    returns and leaves a registry that does not depend on what was
    registered before: each listed profile is found under its label, no
    other label is registered, and a model class resolves, if at all, to a
    listed profile of that class. *)
Theorem load_replaces_registry ps :
  NoDup (label <$> ps) ->
  (forall p, p ∈ ps -> label p <> "" /\ exists cls, get_model_class dj p = Ok cls) ->
  exists reg,
    (forall reg0, load (SProfile <$> ps) [] reg0 = (reg, Ok tt)) /\
    (forall p, p ∈ ps -> registry_get (label p) reg = Ok p) /\
    (forall l, l ∉ label <$> ps ->
       registry_get l reg =
         Raise (ProfileNotFoundError ("Merge profile '" +:+ l +:+ "' is not registered"))) /\
    (forall cls q, get_for_model cls reg = Ok q ->
                   q ∈ ps /\ get_model_class dj q = Ok cls).
Proof.
  intros Hnd Hok.
  destruct (register_profiles ps registry_init Hnd Hok)
    as (reg & Hrun & Hget & Hother & Hindex).
  assert (Hload : forall reg1, load (SProfile <$> ps) [] reg1 = (reg, Ok tt)).
  { intros reg1. unfold load_profiles_from_settings, bind at 1, modify, registry_clear.
    unfold bind at 1. by rewrite Hrun. }
  exists reg. split; [exact Hload|]. split; [|split].
  - intros p Hp. unfold registry_get. by rewrite (Hget p Hp).
  - intros l Hl. unfold registry_get. by rewrite (Hother l Hl).
  - intros cls q. unfold get_for_model.
    destruct (Hindex cls) as [Hsame|(q' & Hq & Hqc & Hqi)].
    + rewrite Hsame. cbn. by rewrite lookup_empty.
    + rewrite Hqi. by intros [= <-].
Qed.

(** X23: only the top level of [PROFILES] is resolved.  The elements of a
    list, tuple or set are registered as they are: if the first of them is
    not a profile or a mapping (a dotted path, say, or a factory), nothing
    is imported or called for it, [register] fails on its missing [label]
    with [AttributeError], and the registry, cleared at the start, stays
    empty. *)
Theorem nested_sources_are_not_resolved (x : Source) (rest more : list Source)
    (modules : list string) reg0 :
  (forall p, x <> SProfile p) ->
  (forall kwargs, x <> SMapping kwargs) ->
  load (SList (x :: rest) :: more) modules reg0 =
    (registry_init, Raise (AttributeError "label")).
Proof.
  intros Hp Hm. unfold load_profiles_from_settings, bind at 1, modify, registry_clear.
  unfold bind at 1. cbn [for_each]. unfold bind at 1. unfold bind at 1.
  assert (Hres : forall depth reg,
            _resolve_profile_source import_source call depth (SList (x :: rest)) reg
            = (reg, Ok (x :: rest))) by by intros [|?] ?.
  rewrite Hres. cbn [for_each]. unfold bind at 1. unfold bind at 1.
  destruct x; try done; [by destruct (Hp profile)|by destruct (Hm kwargs)].
Qed.

End Loading.

Lemma load_replaces_registry_witness :
  let no_import := fun path : string => raise (S := MergeProfileRegistry) (ImportError path) in
  let before := (register Cities.django Atlas.town_profile registry_init).1 in
  exists reg,
    load_profiles_from_settings Cities.django no_import no_import (fun _ => Raise RecursionError)
      1000 [SProfile Cities.profile; SProfile Cities.profile_hard_delete] [] before
      = (reg, Ok tt) /\
    registry_get "city" reg = Ok Cities.profile /\
    registry_get "city-hard-delete" reg = Ok Cities.profile_hard_delete /\
    get_for_model "Town" reg =
      Raise (ProfileNotFoundError ("No merge profile registered for model " +:+ "Town")).
Proof.
  intros no_import before.
  destruct (load_replaces_registry Cities.django no_import no_import
              (fun _ => Raise RecursionError) 1000
              [Cities.profile; Cities.profile_hard_delete])
    as (reg & Hload & Hget & _ & Hindex).
  { apply (bool_decide_unpack _). vm_compute. exact I. }
  { intros p Hp.
    repeat (apply elem_of_cons in Hp as [->|Hp];
            [split; [discriminate|by exists "City"]|]).
    by apply elem_of_nil in Hp. }
  exists reg. split; [apply Hload|].
  split; [apply (Hget Cities.profile); left|].
  split; [apply (Hget Cities.profile_hard_delete); right; left|].
  unfold get_for_model. destruct (_model_index reg !! "Town") as [q|] eqn:Hq; [|done].
  destruct (Hindex "Town" q) as [Hin Hcls].
  { unfold get_for_model. by rewrite Hq. }
  repeat (apply elem_of_cons in Hin as [->|Hin]; [discriminate|]).
  by apply elem_of_nil in Hin.
Defined.

Lemma nested_sources_are_not_resolved_witness :
  let no_import := fun path : string => raise (S := MergeProfileRegistry) (ImportError path) in
  load_profiles_from_settings Cities.django no_import no_import (fun _ => Raise RecursionError)
    1000 [SList [SStr "atlas.profiles.city"]] []
    (register Cities.django Cities.profile registry_init).1
    = (registry_init, Raise (AttributeError "label")).
Proof.
  intros no_import.
  apply nested_sources_are_not_resolved; intros ?; discriminate.
Defined.

(** ** The REST layer: limits and slugs *)

Section Limits.

Context (py_int : value -> result Z).

(** X24: the limit of a search is always usable.  Whenever [int()] returns
    or raises [TypeError] or [ValueError], [_clean_limit] returns a number
    that is at least 1 and, for a maximum of at least 1, at most the
    maximum: the requested number itself when that lies in the range, the
    nearest bound when it does not, and the default, clamped the same way,
    when the value is not a number. *)
Theorem clean_limit_is_within_bounds (v : value) (default maximum : Z) :
  (forall e, py_int v = Raise e ->
             (exists msg, e = ValueError msg) \/ (exists msg, e = OtherError "TypeError" msg)) ->
  exists limit,
    _clean_limit py_int v default maximum = Ok limit /\
    1 <= limit /\
    (1 <= maximum -> limit <= maximum) /\
    (forall n, py_int v = Ok n ->
       limit = if decide (n < 1) then 1
               else if decide (maximum < n) then Z.max 1 maximum else n) /\
    (forall e, py_int v = Raise e -> limit = Z.max 1 (Z.min default maximum)).
Proof.
  intros Hexn. unfold _clean_limit. destruct (py_int v) as [n|e] eqn:Hint.
  - eexists. split; [reflexivity|]. split; [lia|]. split; [lia|]. split; [|done].
    intros ? [= <-]. repeat case_decide; lia.
  - destruct (Hexn e eq_refl) as [[msg ->]|[msg ->]].
    + eexists. split; [reflexivity|]. split; [lia|]. split; [lia|]. by split.
    + rewrite bool_decide_eq_true_2 by done.
      eexists. split; [reflexivity|]. split; [lia|]. split; [lia|]. by split.
Qed.

End Limits.

Section Slugs.

Context (slugify casefold : string -> string) (model_name : ModelClass -> string).
Context (dj : Django).
Implicit Types (used : gset string) (lookup : gmap string MergeProfile).
Implicit Types (entries : list (MergeProfile * string)) (profiles : list MergeProfile).

Local Abbreviation candidate base k := (base +:+ "-" +:+ pretty k).

Lemma candidate_inj base (k k' : Z) : candidate base k = candidate base k' -> k = k'.
Proof.
  intros H. apply (inj (String.app base)) in H.
  apply (inj (String.app "-")) in H. by apply (inj pretty) in H.
Qed.

Lemma candidate_nonempty base (k : Z) : candidate base k <> "".
Proof. by destruct base. Qed.

(** The inner loop ends: among the candidates tried there are at most as
    many taken ones as there are slugs in use. *)
Lemma free_slug_candidates n used (X : gset string) base (c : Z) :
  (size X <= n)%nat ->
  (forall k, c <= k -> candidate base k ∈ used -> candidate base k ∈ X) ->
  exists slug, free_slug n used base (candidate base c) (c + 1) = Some slug /\
               (slug ∉ used) /\ slug <> "".
Proof.
  revert X c. induction n as [|n IH]; intros X c Hsize HX.
  - cbn [free_slug]. case_bool_decide as Hin.
    + apply (HX c) in Hin; [|lia]. apply Nat.le_0_r, size_empty_inv in Hsize.
      apply leibniz_equiv in Hsize. subst X. by apply not_elem_of_empty in Hin.
    + eexists. split; [reflexivity|]. split; [done|apply candidate_nonempty].
  - cbn [free_slug]. case_bool_decide as Hin.
    + apply (HX c) in Hin; [|lia].
      apply (IH (X ∖ {[candidate base c]}) (c + 1)).
      * assert (Hsz : size X = (size (X ∖ {[candidate base c]}) + 1)%nat).
        { rewrite (union_difference_L {[candidate base c]} X)
            at 1 by by apply singleton_subseteq_l.
          rewrite size_union by (apply disjoint_difference_r1; done).
          rewrite size_singleton. lia. }
        lia.
      * intros k Hk Hused. apply elem_of_difference. split; [apply HX; [lia|done]|].
        rewrite not_elem_of_singleton. intros Heq%candidate_inj. lia.
    + eexists. split; [reflexivity|]. split; [done|apply candidate_nonempty].
Qed.

Lemma free_slug_total used base slug :
  slug <> "" ->
  exists slug', free_slug (S (size used)) used base slug 2 = Some slug' /\
                (slug' ∉ used) /\ slug' <> "".
Proof.
  intros Hne. cbn [free_slug]. case_bool_decide as Hin.
  - apply (free_slug_candidates (size used) used used base 2); [lia|done].
  - by exists slug.
Qed.

Lemma first_slug_nonempty base_slug entries :
  (if bool_decide (base_slug = "")
   then "profile-" +:+ pretty (Z.of_nat (length entries) + 1)
   else base_slug) <> "".
Proof. case_bool_decide; [discriminate|done]. Qed.

Lemma slug_loop_spec profiles used lookup entries :
  slugs_ok used lookup entries ->
  exists outcome,
    slug_loop slugify casefold model_name dj profiles used lookup entries = Some outcome /\
    (forall entries' lookup', outcome = Ok (entries', lookup') ->
       (exists used', slugs_ok used' lookup' entries') /\
       entries'.*1 = entries.*1 ++ profiles) /\
    ((forall p, p ∈ profiles -> slugify (label p) = "" ->
                exists cls, get_model_class dj p = Ok cls) ->
     exists entries' lookup', outcome = Ok (entries', lookup')).
Proof.
  revert used lookup entries.
  induction profiles as [|p profiles IH]; intros used lookup entries Hok.
  - eexists. split; [reflexivity|]. split.
    + intros ? ? [= <- <-]. split; [by exists used|by rewrite app_nil_r].
    + intros _. by eexists _, _.
  - cbn [slug_loop].
    destruct (if bool_decide (slugify (label p) = "") then _ else _)
      as [base_slug|e] eqn:Hbase.
    2:{ eexists. split; [reflexivity|]. split; [discriminate|].
        intros Hres. exfalso. revert Hbase. case_bool_decide as Hs; [|discriminate].
        destruct (Hres p ltac:(left) Hs) as [cls ->]. discriminate. }
    destruct (free_slug_total used base_slug _ (first_slug_nonempty base_slug entries))
      as (slug & -> & Hfresh & Hne).
    set (lookup' := <[casefold (label p) := p]> _).
    assert (Hmono : forall k, is_Some (lookup !! k) -> is_Some (lookup' !! k)).
    { intros k Hk. subst lookup'.
      repeat (apply lookup_insert_is_Some'; right). exact Hk. }
    assert (Hok' : slugs_ok ({[slug]} ∪ used) lookup' (entries ++ [(p, slug)])).
    { destruct Hok as (Hnd & Hslugs & Hlabels). split; [|split].
      - rewrite fmap_app. apply NoDup_app. split; [done|]. split.
        + intros s Hs [->|Hin]%elem_of_cons; [|by apply elem_of_nil in Hin].
          by destruct (Hslugs _ Hs) as [? _].
        + apply NoDup_singleton.
      - intros s. rewrite fmap_app, elem_of_app. intros [Hs|Hs].
        + destruct (Hslugs _ Hs) as (Hu & Hn & Hl).
          split; [by apply elem_of_union_r|]. split; [done|by apply Hmono].
        + apply list_elem_of_singleton in Hs as ->.
          split; [apply elem_of_union_l; by apply elem_of_singleton|]. split; [done|].
          subst lookup'. do 3 (apply lookup_insert_is_Some'; right).
          apply lookup_insert_is_Some'. by left.
      - intros q. rewrite fmap_app, elem_of_app. intros [Hq|Hq].
        + by apply Hmono, Hlabels.
        + apply list_elem_of_singleton in Hq as ->.
          subst lookup'. apply lookup_insert_is_Some'; right.
          apply lookup_insert_is_Some'. by left. }
    destruct (IH _ _ _ Hok') as (outcome & Hrun & Hspec & Hres).
    exists outcome. split; [exact Hrun|]. split.
    + intros entries' lookup'' Hout. destruct (Hspec _ _ Hout) as [Hinv Hfst].
      split; [exact Hinv|]. rewrite Hfst, fmap_app. cbn. by rewrite <- app_assoc.
    + intros Hmodels. apply Hres. intros q Hq. apply Hmodels. by right.
Qed.

Lemma insert_sorted_perm {A} (key : A -> string) (x : A) (l : list A) :
  insert_sorted key x l ≡ₚ x :: l.
Proof.
  induction l as [|y l IH]; [done|]. cbn [insert_sorted].
  destruct (String.ltb _ _); [done|]. rewrite IH. apply Permutation_swap.
Qed.

Lemma insert_all_perm {A} (key : A -> string) (l acc : list A) :
  foldl (fun acc x => insert_sorted key x acc) acc l ≡ₚ acc ++ l.
Proof.
  revert acc. induction l as [|x l IH]; intros acc; cbn [foldl].
  - by rewrite app_nil_r.
  - rewrite IH, insert_sorted_perm. cbn. apply Permutation_middle.
Qed.

Lemma sort_by_perm {A} (key : A -> string) (l : list A) : sort_by key l ≡ₚ l.
Proof. unfold sort_by. by rewrite insert_all_perm. Qed.

(** X25: the slugs of the profile list.  [_iterate_profiles] always comes
    to an end: the search for a free slug cannot go on for ever.  It raises
    only if a profile whose label slugifies to nothing has a model that
    cannot be resolved.  Otherwise it lists every profile it was given
    exactly once, the slugs it hands out are pairwise distinct and never
    empty, and the lookup table has an entry for each slug and for each
    profile's label. *)
Theorem profile_slugs_are_unique profiles :
  exists outcome,
    _iterate_profiles slugify casefold model_name dj profiles = Some outcome /\
    (forall entries lookup, outcome = Ok (entries, lookup) ->
       entries.*1 ≡ₚ profiles /\
       NoDup entries.*2 /\
       (forall slug, slug ∈ entries.*2 -> slug <> "" /\ is_Some (lookup !! slug)) /\
       (forall p, p ∈ profiles -> is_Some (lookup !! label p))) /\
    ((forall p, p ∈ profiles -> slugify (label p) = "" ->
                exists cls, get_model_class dj p = Ok cls) ->
     exists entries lookup, outcome = Ok (entries, lookup)).
Proof.
  unfold _iterate_profiles. destruct profiles as [|p0 profiles].
  { eexists. split; [reflexivity|]. split.
    - intros ? ? [= <- <-]. split; [done|]. split; [constructor|].
      split; intros ? H; by apply elem_of_nil in H.
    - intros _. by eexists _, _. }
  set (sorted := sort_by _ (p0 :: profiles)).
  assert (Hperm : sorted ≡ₚ p0 :: profiles) by apply sort_by_perm.
  assert (Hinit : slugs_ok ∅ ∅ []).
  { split; [constructor|]. split; intros ? H; by apply elem_of_nil in H. }
  destruct (slug_loop_spec sorted ∅ ∅ [] Hinit) as (outcome & Hrun & Hspec & Hres).
  exists outcome. split; [exact Hrun|]. split.
  - intros entries lookup Hout.
    destruct (Hspec _ _ Hout) as [(used' & Hnd & Hslugs & Hlabels) Hfst].
    cbn [fmap list_fmap app] in Hfst. split; [by rewrite Hfst|]. split; [done|].
    split.
    + intros slug Hs. by destruct (Hslugs _ Hs) as (_ & ? & ?).
    + intros p Hp. apply Hlabels. rewrite Hfst. by rewrite Hperm.
  - intros Hmodels. apply Hres. intros p Hp. apply Hmodels. by rewrite <- Hperm.
Qed.

End Slugs.

Lemma clean_limit_is_within_bounds_witness :
  _clean_limit Atlas.py_int (VStr "1000") 100 500 = Ok 500 /\
  _clean_limit Atlas.py_int (VStr "25") 100 500 = Ok 25 /\
  _clean_limit Atlas.py_int VNone 100 500 = Ok 100.
Proof.
  split; [|split].
  - destruct (clean_limit_is_within_bounds Atlas.py_int (VStr "1000") 100 500)
      as (limit & -> & _ & _ & Hn & _); [intros e H; vm_compute in H; discriminate|].
    by rewrite (Hn 1000 eq_refl).
  - destruct (clean_limit_is_within_bounds Atlas.py_int (VStr "25") 100 500)
      as (limit & -> & _ & _ & Hn & _); [intros e H; vm_compute in H; discriminate|].
    by rewrite (Hn 25 eq_refl).
  - destruct (clean_limit_is_within_bounds Atlas.py_int VNone 100 500)
      as (limit & -> & _ & _ & _ & He); [intros e [= <-]; right; by eexists|].
    by rewrite (He _ eq_refl).
Defined.

(** ** The REST layer: warnings *)

Section Warnings.

Context (dj : Django) (cfg : Settings) (self : MergeProfile).
Context (user : option value) (field_overrides : option (gmap string value)).
Context (extra_summary : option (pydict value)) (context : option Context).
Implicit Types (w : World) (r : MergeResult) (ov : gmap string value) (ctx : Context).

Lemma _execute_sections ov ctx w r0 s1 :
  _execute dj cfg self ov ctx (state w r0) = (s1, Ok tt) ->
  res_dry_run (es_result s1) = (res_dry_run r0) /\
  dict_get "enabled" (res_hard_delete (es_result s1)) = Some (VBool (hard_delete self)) /\
  (if hard_delete self
   then res_soft_delete (es_result s1) =
          [("applied", VBool false); ("reason", VStr "hard_delete_enabled");
           ("dry_run", VBool (res_dry_run r0))]
   else exists donor, res_soft_delete (es_result s1) = soft_delete_info cfg self (res_dry_run r0) donor).
Proof.
  intros Hexec. apply _execute_ok in Hexec
    as (w2 & changed & w3 & rels & w4 & soft & _ & _ & Hsoft & _ & Hend).
  cbv zeta in Hend. destruct (hard_delete self) eqn:Hhd.
  - destruct Hsoft as [_ ->]. destruct (res_dry_run r0) eqn:Hdry.
    + subst s1. cbn. by rewrite Hdry.
    + destruct Hend as (w5 & _ & ->). cbn. by rewrite Hdry.
  - subst s1. cbn. split; [done|]. split; [done|].
    destruct (res_dry_run r0) eqn:Hdry.
    + rewrite _apply_soft_delete_dry in Hsoft. injection Hsoft as _ <-. by eexists.
    + apply _apply_soft_delete_real in Hsoft as [-> _]. by eexists.
Qed.

Lemma merge_returned_sections (dry : bool) w w' r :
  merge dj cfg self user (Some dry) field_overrides extra_summary context w
    = (w', Returned r) ->
  res_dry_run r = dry /\
  dict_get "enabled" (res_hard_delete r) = Some (VBool (hard_delete self)) /\
  (if hard_delete self
   then res_soft_delete r =
          [("applied", VBool false); ("reason", VStr "hard_delete_enabled");
           ("dry_run", VBool dry)]
   else exists donor, res_soft_delete r = soft_delete_info cfg self dry donor).
Proof.
  intros Hrun.
  destruct (merge_returned dj cfg self user field_overrides extra_summary context
              dry w w' r Hrun) as (s1 & Hexec & Haudit).
  apply _write_audit_effect in Haudit as (_ & _ & _ & _ & _ & Hsoft & Hhard & Hdry & _).
  cbn [res_soft_delete res_hard_delete res_dry_run set_status] in Hsoft, Hhard, Hdry.
  rewrite Hsoft, Hhard, Hdry. clear Hsoft Hhard Hdry Hrun.
  unfold execute_scope in Hexec. destruct dry.
  - by apply _execute_sections in Hexec.
  - apply atomic_ok in Hexec as (s' & Hexec & ->).
    by apply _execute_sections in Hexec.
Qed.

Lemma soft_delete_info_reason dry donor :
  dict_get "reason" (soft_delete_info cfg self dry donor) <> Some (VStr "hard_delete_enabled").
Proof.
  unfold soft_delete_info. repeat case_match; cbn; discriminate.
Qed.

(** X26: which warnings a result gets.  For the result of a merge that
    returned, whatever the lists of differences and relations built from it:
    the warning that the donor will be deleted is shown exactly when the
    profile has [hard_delete] and the merge was a dry run; the warning that
    nothing differs exactly when both lists are empty; and under a
    hard-delete profile no soft-delete warning is shown at all. *)
Theorem hard_delete_warning_only_in_dry_runs {D R} (differences : list D)
    (relations : list R) (dry : bool) w w' r :
  merge dj cfg self user (Some dry) field_overrides extra_summary context w
    = (w', Returned r) ->
  let warnings := _build_warnings r differences relations in
  (WARN_HARD_DELETE ∈ warnings <-> hard_delete self = true /\ dry = true) /\
  (WARN_NO_DIFFERENCES ∈ warnings <-> differences = [] /\ relations = []) /\
  (hard_delete self = true ->
   forall msg, msg ∈ warnings -> msg = WARN_NO_DIFFERENCES \/ msg = WARN_HARD_DELETE).
Proof.
  intros Hrun warnings. subst warnings.
  destruct (merge_returned_sections dry w w' r Hrun) as (Hdry & Hen & Hsoft).
  unfold _build_warnings. rewrite Hen, Hdry.
  change (py_truthy (default VNone (Some (VBool (hard_delete self)))))
    with (hard_delete self).
  set (base := match differences, relations with [], [] => [WARN_NO_DIFFERENCES] | _, _ => [] end).
  assert (Hbase : forall msg, msg ∈ base <->
                    msg = WARN_NO_DIFFERENCES /\ differences = [] /\ relations = []).
  { intros msg. subst base. destruct differences, relations;
      rewrite ?list_elem_of_singleton, ?elem_of_nil; split;
      (by intros (_ & ? & ?)) || (by intros []) || (by intros ->) || by intros [-> _]. }
  set (soft := if bool_decide (dict_get "applied" (res_soft_delete r) = Some (VBool false))
               then _ else base).
  assert (Hne : WARN_HARD_DELETE <> WARN_NO_DIFFERENCES) by discriminate.
  assert (Hsoft1 : forall msg, msg ∈ soft ->
            msg ∈ base \/
            (hard_delete self = false /\ msg <> WARN_HARD_DELETE /\ msg <> WARN_NO_DIFFERENCES)).
  { intros msg. subst soft. case_bool_decide; [|by left].
    destruct (hard_delete self) eqn:Hhd.
    - rewrite Hsoft. cbn. by left.
    - destruct (py_eq _ (VStr "field_missing")).
      { rewrite elem_of_app, list_elem_of_singleton. intros [?| ->]; [by left|right].
        split; [done|]. split; discriminate. }
      destruct (py_eq _ (VStr "soft_delete_disabled")); [|by left].
      rewrite elem_of_app, list_elem_of_singleton. intros [?| ->]; [by left|right].
      split; [done|]. split; discriminate. }
  assert (Hsoft2 : forall msg, msg ∈ base -> msg ∈ soft).
  { intros msg Hin. subst soft. case_bool_decide; [|done].
    repeat case_match; try done; apply elem_of_app; by left. }
  assert (Hmem : forall msg,
            msg ∈ (if hard_delete self && dry then soft ++ [WARN_HARD_DELETE] else soft) <->
            msg ∈ soft \/ (msg = WARN_HARD_DELETE /\ hard_delete self = true /\ dry = true)).
  { intros msg. destruct (hard_delete self), dry; cbn [andb];
      rewrite ?elem_of_app, ?list_elem_of_singleton; split;
      try (by intros [?|?]; [left|right]); try (by left);
      try (by intros [?|(_ & ? & ?)]); try (by intros [?|(? & _)]; [left|right]). }
  split; [|split].
  - rewrite Hmem. split.
    + intros [H|(_ & ? & ?)]; [|done].
      apply Hsoft1 in H as [H|(_ & ? & _)]; [|done].
      apply Hbase in H as [H _]. by destruct Hne.
    + intros [? ?]. by right.
  - rewrite Hmem. split.
    + intros [H|(H & _)]; [|by destruct Hne].
      apply Hsoft1 in H as [H|(_ & _ & ?)]; [|done]. by apply Hbase in H as [_ ?].
    + intros H. left. apply Hsoft2, Hbase. by destruct H.
  - intros Hhd msg. rewrite Hmem. intros [H|(? & _)]; [|by right].
    apply Hsoft1 in H as [H|(? & _)]; [|congruence].
    left. by apply Hbase in H as [? _].
Qed.

End Warnings.

Lemma hard_delete_warning_only_in_dry_runs_witness :
  let preview := merge Cities.django Cities.settings Cities.profile_hard_delete None
                   (Some true) None None None Cities.world in
  let real := merge Cities.django Cities.settings Cities.profile_hard_delete None
                (Some false) None None None Cities.world in
  exists rp rr,
    preview.2 = Returned rp /\ real.2 = Returned rr /\
    WARN_HARD_DELETE ∈ _build_warnings rp [()] [()] /\
    WARN_HARD_DELETE ∉ _build_warnings rr [()] [()].
Proof.
  intros preview real.
  destruct preview as [wp [rp|e p]] eqn:Hp; [|vm_compute in Hp; discriminate].
  destruct real as [wr [rr|e p]] eqn:Hr; [|vm_compute in Hr; discriminate].
  exists rp, rr. split; [reflexivity|]. split; [reflexivity|].
  destruct (hard_delete_warning_only_in_dry_runs Cities.django Cities.settings
              Cities.profile_hard_delete None None None None [()] [()] true
              Cities.world wp rp Hp) as [Hwarn _].
  destruct (hard_delete_warning_only_in_dry_runs Cities.django Cities.settings
              Cities.profile_hard_delete None None None None [()] [()] false
              Cities.world wr rr Hr) as [Hnone _].
  split; [by apply Hwarn|]. intros Hin. apply Hnone in Hin as [_ ?]. discriminate.
Defined.
